(** * ST7789 panel driver of the ESP32-C6 1.47-inch LCD board

    A shallow embedding of the two ST7789 drivers of the repository:

    - [Arduino]: the class [ST7789Display] of
      [Arduino/examples/LVGL_Image/Display_ST7789.cpp], which drives the
      panel through the Arduino SPI, GPIO and LEDC primitives;
    - [EspIdf]: the object-style driver of
      [ESP-IDF/ESP32-C6-LCD-1.47/main/LCD_Driver/ST7789.c], which sits on
      the ESP-IDF [esp_lcd] and [ledc] services.

    Fixed-width C integers are integers of [Z] with the conversions written
    out; a method that only talks to the hardware is the list of primitive
    calls it makes, in order. *)

From Stdlib Require Import ZArith Lia Bool.
From stdpp Require Import base list.
From Stdlib Require String.
Import ListNotations.
Local Open Scope Z_scope.

(** ** C integer types *)

Module CInt.

(** Conversion to an unsigned type of the given width keeps the low bits. *)
Definition u8 (v : Z) : Z := v mod 2 ^ 8.
Definition u16 (v : Z) : Z := v mod 2 ^ 16.
Definition u32 (v : Z) : Z := v mod 2 ^ 32.

(** Conversion to a signed type of the given width: the value congruent
    modulo [2^w] that lies in [-2^(w-1) .. 2^(w-1) - 1], as GCC defines
    it. *)
Definition i16 (v : Z) : Z := (v + 2 ^ 15) mod 2 ^ 16 - 2 ^ 15.
Definition i32 (v : Z) : Z := (v + 2 ^ 31) mod 2 ^ 32 - 2 ^ 31.

Definition is_u8 (v : Z) : Prop := 0 <= v < 2 ^ 8.
Definition is_u16 (v : Z) : Prop := 0 <= v < 2 ^ 16.

(** [sizeof(uint16_t)] *)
Definition sizeof_uint16_t : Z := 2.

(** The two bytes of a 16-bit value, most significant first: the order in
    which the controller expects an address parameter. *)
Definition be16 (v : Z) : list Z := [Z.shiftr v 8 mod 2 ^ 8; v mod 2 ^ 8].

(** Reading bytes back, two at a time, most significant first. *)
Fixpoint be16_words (bs : list Z) : list Z :=
  match bs with
  | hi :: lo :: rest => (Z.shiftl hi 8 + lo) :: be16_words rest
  | _ => []
  end.

(** The bytes of a [uint16_t] array as the RISC-V core stores them (least
    significant byte first): what [(uint8_t* )buffer] points to. *)
Definition bytes_of_u16 (p : Z) : list Z := [p mod 2 ^ 8; Z.shiftr p 8 mod 2 ^ 8].
Definition bytes_of_u16s (ps : list Z) : list Z := flat_map bytes_of_u16 ps.

(** The largest duty a PWM channel of the given resolution can take. *)
Definition max_duty_of (resolution : Z) : Z := 2 ^ resolution - 1.

End CInt.

Import CInt.

(** ** The Arduino driver: [Display_ST7789.cpp] *)

Module Arduino.

Inductive level := LOW | HIGH.
Inductive pin_mode := INPUT | OUTPUT.

(** The calls into the Arduino core that the driver makes.  The SPI
    settings of [SPI.beginTransaction] are always [MSBFIRST], [SPI_MODE0], so
    only the clock is recorded.  [SPI_transferBytes data len] is
    [SPI.transferBytes(data, nullptr, len)]: [data] is the memory the
    pointer refers to and [len] the number of bytes requested. *)
Inductive hal_call :=
| pinMode (pin : Z) (mode : pin_mode)
| digitalWrite (pin : Z) (val : level)
| delay (ms : Z)
| SPI_begin (sck miso mosi : Z)
| SPI_beginTransaction (clock : Z)
| SPI_transfer (dat : Z)
| SPI_transfer16 (dat : Z)
| SPI_transferBytes (data : list Z) (len : Z)
| SPI_endTransaction
| ledcAttach (pin freq resolution : Z)
| ledcWrite (pin duty : Z).

(** Constants of [Display_ST7789.h]. *)
Definition LCD_WIDTH : Z := 172.
Definition LCD_HEIGHT : Z := 320.
Definition EXAMPLE_PIN_NUM_MISO : Z := 5.
Definition EXAMPLE_PIN_NUM_MOSI : Z := 6.
Definition EXAMPLE_PIN_NUM_SCLK : Z := 7.
Definition EXAMPLE_PIN_NUM_LCD_CS : Z := 14.
Definition EXAMPLE_PIN_NUM_LCD_DC : Z := 15.
Definition EXAMPLE_PIN_NUM_LCD_RST : Z := 21.
Definition EXAMPLE_PIN_NUM_BK_LIGHT : Z := 22.
Definition SPIFreq : Z := 80000000.
Definition Frequency : Z := 1000.
Definition Resolution : Z := 10.
Definition VERTICAL : bool := false.
Definition HORIZONTAL : bool := true.
Definition Offset_X : Z := 34.
Definition Offset_Y : Z := 0.

(** [struct ST7789Config] of [DisplayConfig.h]. *)
Record ST7789Config := {
  pin_miso : Z; pin_mosi : Z; pin_sclk : Z;
  pin_cs : Z; pin_dc : Z; pin_rst : Z; pin_backlight : Z;
  spi_freq : Z;
  width : Z; height : Z;
  offset_x : Z; offset_y : Z;
  horizontal : bool;
  backlight_freq : Z;
  backlight_resolution : Z
}.

(** [ST7789Config::getDefault] *)
Definition getDefault : ST7789Config := {|
  pin_miso := 5; pin_mosi := 6; pin_sclk := 7;
  pin_cs := 14; pin_dc := 15; pin_rst := 21; pin_backlight := 22;
  spi_freq := 80000000;
  width := 172; height := 320;
  offset_x := 34; offset_y := 0;
  horizontal := true;
  backlight_freq := 1000;
  backlight_resolution := 10
|}.

(** The data members of [class ST7789Display]. *)
Record ST7789Display := {
  _pin_cs : Z; _pin_dc : Z; _pin_rst : Z; _pin_backlight : Z;
  _width : Z; _height : Z;
  _offset_x : Z; _offset_y : Z;
  _horizontal : bool;
  _spi_freq : Z;
  _backlight_freq : Z;
  _backlight_resolution : Z;
  _initialized : bool
}.

(** The default constructor. *)
Definition ST7789Display_default : ST7789Display := {|
  _pin_cs := EXAMPLE_PIN_NUM_LCD_CS;
  _pin_dc := EXAMPLE_PIN_NUM_LCD_DC;
  _pin_rst := EXAMPLE_PIN_NUM_LCD_RST;
  _pin_backlight := EXAMPLE_PIN_NUM_BK_LIGHT;
  _width := LCD_WIDTH;
  _height := LCD_HEIGHT;
  _offset_x := Offset_X;
  _offset_y := Offset_Y;
  _horizontal := HORIZONTAL;
  _spi_freq := SPIFreq;
  _backlight_freq := Frequency;
  _backlight_resolution := Resolution;
  _initialized := false
|}.

(** The constructor from a configuration. *)
Definition ST7789Display_of (config : ST7789Config) : ST7789Display := {|
  _pin_cs := pin_cs config;
  _pin_dc := pin_dc config;
  _pin_rst := pin_rst config;
  _pin_backlight := pin_backlight config;
  _width := width config;
  _height := height config;
  _offset_x := offset_x config;
  _offset_y := offset_y config;
  _horizontal := horizontal config;
  _spi_freq := spi_freq config;
  _backlight_freq := backlight_freq config;
  _backlight_resolution := backlight_resolution config;
  _initialized := false
|}.

Definition set_initialized (d : ST7789Display) (b : bool) : ST7789Display := {|
  _pin_cs := _pin_cs d; _pin_dc := _pin_dc d; _pin_rst := _pin_rst d;
  _pin_backlight := _pin_backlight d;
  _width := _width d; _height := _height d;
  _offset_x := _offset_x d; _offset_y := _offset_y d;
  _horizontal := _horizontal d;
  _spi_freq := _spi_freq d;
  _backlight_freq := _backlight_freq d;
  _backlight_resolution := _backlight_resolution d;
  _initialized := b
|}.

Definition width_of (d : ST7789Display) : Z := _width d.
Definition height_of (d : ST7789Display) : Z := _height d.
Definition isInitialized (d : ST7789Display) : bool := _initialized d.

Section Methods.

Variable d : ST7789Display.

Definition spiInit : list hal_call :=
  [SPI_begin EXAMPLE_PIN_NUM_SCLK EXAMPLE_PIN_NUM_MISO EXAMPLE_PIN_NUM_MOSI].

(** The four bus primitives; their arguments are [uint8_t], [uint16_t]
    and a byte pointer with a [uint32_t] length. *)
Definition writeCommand (cmd : Z) : list hal_call :=
  [ SPI_beginTransaction (_spi_freq d);
    digitalWrite (_pin_cs d) LOW;
    digitalWrite (_pin_dc d) LOW;
    SPI_transfer cmd;
    digitalWrite (_pin_cs d) HIGH;
    SPI_endTransaction ].

Definition writeData (data : Z) : list hal_call :=
  [ SPI_beginTransaction (_spi_freq d);
    digitalWrite (_pin_cs d) LOW;
    digitalWrite (_pin_dc d) HIGH;
    SPI_transfer data;
    digitalWrite (_pin_cs d) HIGH;
    SPI_endTransaction ].

Definition writeData16 (data : Z) : list hal_call :=
  [ SPI_beginTransaction (_spi_freq d);
    digitalWrite (_pin_cs d) LOW;
    digitalWrite (_pin_dc d) HIGH;
    SPI_transfer16 data;
    digitalWrite (_pin_cs d) HIGH;
    SPI_endTransaction ].

Definition writeDataBytes (data : list Z) (len : Z) : list hal_call :=
  [ SPI_beginTransaction (_spi_freq d);
    digitalWrite (_pin_cs d) LOW;
    digitalWrite (_pin_dc d) HIGH;
    SPI_transferBytes data len;
    digitalWrite (_pin_cs d) HIGH;
    SPI_endTransaction ].

Definition hardwareReset : list hal_call :=
  [ digitalWrite (_pin_cs d) LOW;
    delay 50;
    digitalWrite (_pin_rst d) LOW;
    delay 50;
    digitalWrite (_pin_rst d) HIGH;
    delay 50 ].

Definition initRegisters : list hal_call :=
  concat [
    writeCommand 0x11;
    [delay 120];
    writeCommand 0x36;
    (if _horizontal d then writeData 0x00 else writeData 0x70);

    writeCommand 0x3A; writeData 0x05;

    writeCommand 0xB0; writeData 0x00; writeData 0xE8;

    writeCommand 0xB2;
    writeData 0x0C; writeData 0x0C; writeData 0x00; writeData 0x33; writeData 0x33;

    writeCommand 0xB7; writeData 0x35;
    writeCommand 0xBB; writeData 0x35;
    writeCommand 0xC0; writeData 0x2C;
    writeCommand 0xC2; writeData 0x01;
    writeCommand 0xC3; writeData 0x13;
    writeCommand 0xC4; writeData 0x20;
    writeCommand 0xC6; writeData 0x0F;

    writeCommand 0xD0; writeData 0xA4; writeData 0xA1;

    writeCommand 0xD6; writeData 0xA1;

    writeCommand 0xE0;
    writeData 0xF0; writeData 0x00; writeData 0x04; writeData 0x04;
    writeData 0x04; writeData 0x05; writeData 0x29; writeData 0x33;
    writeData 0x3E; writeData 0x38; writeData 0x12; writeData 0x12;
    writeData 0x28; writeData 0x30;

    writeCommand 0xE1;
    writeData 0xF0; writeData 0x07; writeData 0x0A; writeData 0x0D;
    writeData 0x0B; writeData 0x07; writeData 0x28; writeData 0x33;
    writeData 0x3E; writeData 0x36; writeData 0x14; writeData 0x14;
    writeData 0x29; writeData 0x32;

    writeCommand 0x21;

    writeCommand 0x11;
    [delay 120];
    writeCommand 0x29
  ].

Definition backlightInit : list hal_call :=
  [ ledcAttach (_pin_backlight d) (_backlight_freq d) (_backlight_resolution d);
    ledcWrite (_pin_backlight d) 100 ].

(** [begin] returns its result, the object after the call and the calls
    made. *)
Definition begin : bool * ST7789Display * list hal_call :=
  (true,
   set_initialized d true,
   concat [
     [ pinMode (_pin_cs d) OUTPUT;
       pinMode (_pin_dc d) OUTPUT;
       pinMode (_pin_rst d) OUTPUT ];
     backlightInit;
     spiInit;
     hardwareReset;
     initRegisters
   ]).

(** [x1], [y1], [x2], [y2] are [uint16_t]; the sums are computed in [int]
    and converted to the [uint8_t] parameter of [writeData]. *)
Definition setWindow (x1 y1 x2 y2 : Z) : list hal_call :=
  (if _horizontal d then
     concat [
       writeCommand 0x2A;
       writeData (u8 (Z.shiftr x1 8));
       writeData (u8 (x1 + _offset_x d));
       writeData (u8 (Z.shiftr x2 8));
       writeData (u8 (x2 + _offset_x d));

       writeCommand 0x2B;
       writeData (u8 (Z.shiftr y1 8));
       writeData (u8 (y1 + _offset_y d));
       writeData (u8 (Z.shiftr y2 8));
       writeData (u8 (y2 + _offset_y d))
     ]
   else
     concat [
       writeCommand 0x2A;
       writeData (u8 (Z.shiftr y1 8));
       writeData (u8 (y1 + _offset_y d));
       writeData (u8 (Z.shiftr y2 8));
       writeData (u8 (y2 + _offset_y d));

       writeCommand 0x2B;
       writeData (u8 (Z.shiftr x1 8));
       writeData (u8 (x1 + _offset_x d));
       writeData (u8 (Z.shiftr x2 8));
       writeData (u8 (x2 + _offset_x d))
     ])
  ++ writeCommand 0x2C.

(** [for (uint16_t i = 0; i < n; i++) body]: the bound is a [uint16_t], so
    the counter reaches it without wrapping; [n] iterations from [i]. *)
Fixpoint for_upto {S : Type} (n : nat) (i : Z) (body : Z -> S -> S) (s : S) : S :=
  match n with
  | O => s
  | S n' => for_upto n' (i + 1) body (body i s)
  end.

(** [buffer] is the [uint16_t] array the pointer refers to. *)
Definition drawPixelBuffer (x1 y1 x2 y2 : Z) (buffer : list Z) : list hal_call :=
  let width := u16 (x2 - x1 + 1) in
  let height := u16 (y2 - y1 + 1) in
  let numBytes := u32 (width * height * sizeof_uint16_t) in
  setWindow x1 y1 x2 y2 ++
  writeDataBytes (bytes_of_u16s buffer) numBytes.

(** The line buffer is a variable-length array of [_width] cells; C leaves
    its initial contents indeterminate, here they are zero. *)
Definition clearScreen (color : Z) : list hal_call :=
  let lineBuffer :=
    for_upto (Z.to_nat (_width d)) 0
      (fun i buf => <[Z.to_nat i := color]> buf)
      (replicate (Z.to_nat (_width d)) 0) in
  setWindow 0 0 (u16 (_width d - 1)) (u16 (_height d - 1)) ++
  for_upto (Z.to_nat (_height d)) 0
    (fun y out =>
       out ++ writeDataBytes (bytes_of_u16s lineBuffer)
                             (u32 (_width d * sizeof_uint16_t)))
    [].

(** [brightness] is a [uint8_t]. *)
Definition setBacklight (brightness : Z) : list hal_call :=
  let brightness := if 100 <? brightness then 100 else brightness in
  let duty := u32 (brightness * 10) in
  [ledcWrite (_pin_backlight d) duty].

End Methods.

(** *** What the panel receives

    The controller takes a transferred byte as a command when its D/C line
    is low and as data when it is high.  [panel_view dc_pin dc t] replays
    the calls [t], following the level written to pin [dc_pin] (initially
    [dc]), and lists what is clocked out together with the D/C level at
    that moment. *)

Inductive payload :=
| Byte (b : Z)
| Word (w : Z)
| Bulk (data : list Z) (len : Z).

Definition bus_item : Type := level * payload.

Definition Cmd (c : Z) : bus_item := (LOW, Byte c).
Definition Param (b : Z) : bus_item := (HIGH, Byte b).
Definition Burst (data : list Z) (len : Z) : bus_item := (HIGH, Bulk data len).

Fixpoint panel_view (dc_pin : Z) (dc : level) (t : list hal_call) : list bus_item :=
  match t with
  | [] => []
  | digitalWrite p v :: t' => panel_view dc_pin (if p =? dc_pin then v else dc) t'
  | SPI_transfer b :: t' => (dc, Byte b) :: panel_view dc_pin dc t'
  | SPI_transfer16 w :: t' => (dc, Word w) :: panel_view dc_pin dc t'
  | SPI_transferBytes data len :: t' => (dc, Bulk data len) :: panel_view dc_pin dc t'
  | _ :: t' => panel_view dc_pin dc t'
  end.

(** The D/C level once [t] has run. *)
Fixpoint dc_after (dc_pin : Z) (dc : level) (t : list hal_call) : level :=
  match t with
  | [] => dc
  | digitalWrite p v :: t' => dc_after dc_pin (if p =? dc_pin then v else dc) t'
  | _ :: t' => dc_after dc_pin dc t'
  end.

(** What display [d] receives from [t], whatever the D/C line was before. *)
Definition received (d : ST7789Display) (dc : level) (t : list hal_call) : list bus_item :=
  panel_view (_pin_dc d) dc t.

(** The data bytes that directly follow a command. *)
Fixpoint leading_params (items : list bus_item) : list Z :=
  match items with
  | (HIGH, Byte b) :: rest => b :: leading_params rest
  | _ => []
  end.

(** The parameter bytes of the first occurrence of command [cmd]. *)
Fixpoint params_of (cmd : Z) (items : list bus_item) : option (list Z) :=
  match items with
  | [] => None
  | (LOW, Byte c) :: rest =>
      if c =? cmd then Some (leading_params rest) else params_of cmd rest
  | _ :: rest => params_of cmd rest
  end.

(** The parameters of an address command, read as big-endian 16-bit values. *)
Definition address_range (cmd : Z) (items : list bus_item) : option (list Z) :=
  be16_words <$> params_of cmd items.

(** Controller commands (ST7789 datasheet names). *)
Definition CASET : Z := 0x2A.
Definition RASET : Z := 0x2B.
Definition RAMWR : Z := 0x2C.

(** An address command carrying the range [a .. b] as two big-endian 16-bit
    values. *)
Definition address_frame (cmd a b : Z) : list bus_item :=
  Cmd cmd :: map Param (be16 a ++ be16 b).

(** The addressing that the orientation contract asks of [setWindow]:
    each axis with its own offset, X on the column command when horizontal,
    Y on the column command otherwise, then the memory-write command. *)
Definition window_frames (d : ST7789Display) (x1 y1 x2 y2 : Z) : list bus_item :=
  (if _horizontal d then
     address_frame CASET (x1 + _offset_x d) (x2 + _offset_x d) ++
     address_frame RASET (y1 + _offset_y d) (y2 + _offset_y d)
   else
     address_frame CASET (y1 + _offset_y d) (y2 + _offset_y d) ++
     address_frame RASET (x1 + _offset_x d) (x2 + _offset_x d))
  ++ [Cmd RAMWR].

(** The bytes [setWindow] puts on the bus, as the code computes them: the
    two address commands with their parameters, then the memory write. *)
Definition setWindow_addressing (d : ST7789Display) (x1 y1 x2 y2 : Z) : list bus_item :=
  let xs := [u8 (Z.shiftr x1 8); u8 (x1 + _offset_x d);
             u8 (Z.shiftr x2 8); u8 (x2 + _offset_x d)] in
  let ys := [u8 (Z.shiftr y1 8); u8 (y1 + _offset_y d);
             u8 (Z.shiftr y2 8); u8 (y2 + _offset_y d)] in
  if _horizontal d
  then Cmd CASET :: map Param xs ++ Cmd RASET :: map Param ys
  else Cmd CASET :: map Param ys ++ Cmd RASET :: map Param xs.

Definition setWindow_sent (d : ST7789Display) (x1 y1 x2 y2 : Z) : list bus_item :=
  setWindow_addressing d x1 y1 x2 y2 ++ [Cmd RAMWR].

(** A configuration whose visible area, shifted by the offsets, lies inside
    the 240 x 320 frame of the controller; the fields have their C types. *)
Definition valid_PanelConfig (d : ST7789Display) : Prop :=
  is_u16 (_width d) /\ is_u16 (_height d) /\
  is_u8 (_offset_x d) /\ is_u8 (_offset_y d) /\
  0 < _width d /\ 0 < _height d /\
  _offset_x d + _width d <= 240 /\
  _offset_y d + _height d <= 320.

(** A window of the visible area. *)
Definition window_in_bounds (d : ST7789Display) (x1 y1 x2 y2 : Z) : Prop :=
  0 <= x1 <= x2 /\ x2 < _width d /\
  0 <= y1 <= y2 /\ y2 < _height d.

(** A 172 x 300 area placed 34 columns and 20 rows into the frame of the
    controller, in either orientation. *)
Definition offset_panel (horiz : bool) : ST7789Config := {|
  pin_miso := 5; pin_mosi := 6; pin_sclk := 7;
  pin_cs := 14; pin_dc := 15; pin_rst := 21; pin_backlight := 22;
  spi_freq := 80000000;
  width := 172; height := 300;
  offset_x := 34; offset_y := 20;
  horizontal := horiz;
  backlight_freq := 1000;
  backlight_resolution := 10
|}.

(** The calls of a blit as the contract words them: the window, then one
    bulk write of two bytes for each pixel of the buffer. *)
Definition blit_calls (d : ST7789Display) (x1 y1 x2 y2 : Z) (buffer : list Z)
  : list hal_call :=
  setWindow d x1 y1 x2 y2 ++
  writeDataBytes d (bytes_of_u16s buffer) (Z.of_nat (length buffer) * 2).

(** A second [begin] that would do nothing but report success. *)
Definition reinit_is_noop (d : ST7789Display) : Prop :=
  let '(_, d1, _) := begin d in
  let '(r2, d2, t2) := begin d1 in
  r2 = true /\ d2 = d1 /\ t2 = [].

(** Full brightness that would drive the channel at its largest duty. *)
Definition full_scale_at_100 (d : ST7789Display) : Prop :=
  setBacklight d 100 =
  [ledcWrite (_pin_backlight d) (max_duty_of (_backlight_resolution d))].

(** Adding [off] to [v] does not carry out of the low byte of [v]. *)
Definition no_carry (v off : Z) : Prop := v mod 256 + off < 256.

(** Number of bulk transfers in a list of calls. *)
Fixpoint bulk_count (t : list hal_call) : nat :=
  match t with
  | [] => O
  | SPI_transferBytes _ _ :: t' => S (bulk_count t')
  | _ :: t' => bulk_count t'
  end.

End Arduino.

(** ** The ESP-IDF driver: [LCD_Driver/ST7789.c] and [ST7789.h] *)

Module EspIdf.

(** [esp_err_t] and the codes of [esp_err.h] the driver names. *)
Definition esp_err_t : Type := Z.
Definition ESP_OK : esp_err_t := 0.
Definition ESP_ERR_INVALID_ARG : esp_err_t := 0x102.
Definition ESP_ERR_INVALID_STATE : esp_err_t := 0x103.

(** Enumerators of the ESP-IDF headers used by [ST7789.h]. *)
Definition SPI2_HOST : Z := 1.
Definition LEDC_TIMER_0 : Z := 0.
Definition LEDC_LOW_SPEED_MODE : Z := 0.
Definition LEDC_CHANNEL_0 : Z := 0.
Definition LEDC_TIMER_13_BIT : Z := 13.
Definition LEDC_AUTO_CLK : Z := 0.
Definition LEDC_FADE_NO_WAIT : Z := 0.
Definition LCD_RGB_ENDIAN_BGR : Z := 1.
Definition GPIO_MODE_OUTPUT : Z := 2.

(** Constants of [ST7789.h]. *)
Definition ST7789_SPI_HOST : Z := SPI2_HOST.
Definition ST7789_PIXEL_CLOCK_HZ : Z := 12 * 1000 * 1000.
Definition ST7789_PIN_SCLK : Z := 7.
Definition ST7789_PIN_MOSI : Z := 6.
Definition ST7789_PIN_CS : Z := 14.
Definition ST7789_PIN_DC : Z := 15.
Definition ST7789_PIN_RST : Z := 21.
Definition ST7789_PIN_BACKLIGHT : Z := 22.
Definition ST7789_H_RES : Z := 172.
Definition ST7789_V_RES : Z := 320.
Definition ST7789_OFFSET_X : Z := 34.
Definition ST7789_OFFSET_Y : Z := 0.
Definition ST7789_CMD_BITS : Z := 8.
Definition ST7789_PARAM_BITS : Z := 8.
Definition ST7789_BL_TIMER : Z := LEDC_TIMER_0.
Definition ST7789_BL_MODE : Z := LEDC_LOW_SPEED_MODE.
Definition ST7789_BL_CHANNEL : Z := LEDC_CHANNEL_0.
Definition ST7789_BL_RESOLUTION : Z := LEDC_TIMER_13_BIT.
Definition ST7789_BL_FREQUENCY : Z := 5000.
Definition ST7789_BL_MAX_DUTY : Z := Z.shiftl 1 ST7789_BL_RESOLUTION - 1.

(** Constants of [ST7789.c]. *)
Definition BRIGHTNESS_SCALE_FACTOR : Z := 81.
Definition BRIGHTNESS_MIN : Z := 0.
Definition BRIGHTNESS_MAX : Z := 100.

(** [st7789_backlight_t]; [bl_is_initialized] is its [is_initialized]
    member, the prefix keeps it apart from the one of the device. *)
Record st7789_backlight_t := {
  gpio_num : Z;
  channel : Z;
  speed_mode : Z;
  timer : Z;
  current_brightness : Z;
  bl_is_initialized : bool
}.

Record st7789_config_t := {
  spi_host : Z;
  pin_sclk : Z; pin_mosi : Z; pin_cs : Z; pin_dc : Z; pin_rst : Z;
  pixel_clock_hz : Z;
  h_res : Z; v_res : Z;
  offset_x : Z; offset_y : Z;
  rgb_endian : Z;
  bits_per_pixel : Z;
  pin_backlight : Z;
  initial_brightness : Z
}.

(** [st7789_device_t]; a handle is an address, [0] for [NULL]. *)
Record st7789_device_t := {
  panel_handle : Z;
  io_handle : Z;
  backlight : st7789_backlight_t;
  config : st7789_config_t;
  is_initialized : bool
}.

Definition with_io_handle (dev : st7789_device_t) (h : Z) : st7789_device_t :=
  {| panel_handle := panel_handle dev; io_handle := h;
     backlight := backlight dev; config := config dev;
     is_initialized := is_initialized dev |}.

Definition with_panel_handle (dev : st7789_device_t) (h : Z) : st7789_device_t :=
  {| panel_handle := h; io_handle := io_handle dev;
     backlight := backlight dev; config := config dev;
     is_initialized := is_initialized dev |}.

Definition with_backlight (dev : st7789_device_t) (bl : st7789_backlight_t) : st7789_device_t :=
  {| panel_handle := panel_handle dev; io_handle := io_handle dev;
     backlight := bl; config := config dev;
     is_initialized := is_initialized dev |}.

Definition with_config (dev : st7789_device_t) (cfg : st7789_config_t) : st7789_device_t :=
  {| panel_handle := panel_handle dev; io_handle := io_handle dev;
     backlight := backlight dev; config := cfg;
     is_initialized := is_initialized dev |}.

Definition with_is_initialized (dev : st7789_device_t) (b : bool) : st7789_device_t :=
  {| panel_handle := panel_handle dev; io_handle := io_handle dev;
     backlight := backlight dev; config := config dev;
     is_initialized := b |}.

Definition with_current_brightness (bl : st7789_backlight_t) (b : Z) : st7789_backlight_t :=
  {| gpio_num := gpio_num bl; channel := channel bl; speed_mode := speed_mode bl;
     timer := timer bl; current_brightness := b;
     bl_is_initialized := bl_is_initialized bl |}.

Definition with_bl_is_initialized (bl : st7789_backlight_t) (b : bool) : st7789_backlight_t :=
  {| gpio_num := gpio_num bl; channel := channel bl; speed_mode := speed_mode bl;
     timer := timer bl; current_brightness := current_brightness bl;
     bl_is_initialized := b |}.

(** The object [calloc] hands out: every member zero. *)
Definition zeroed_backlight : st7789_backlight_t :=
  {| gpio_num := 0; channel := 0; speed_mode := 0; timer := 0;
     current_brightness := 0; bl_is_initialized := false |}.

Definition zeroed_config : st7789_config_t :=
  {| spi_host := 0; pin_sclk := 0; pin_mosi := 0; pin_cs := 0; pin_dc := 0;
     pin_rst := 0; pixel_clock_hz := 0; h_res := 0; v_res := 0;
     offset_x := 0; offset_y := 0; rgb_endian := 0; bits_per_pixel := 0;
     pin_backlight := 0; initial_brightness := 0 |}.

Definition zeroed_device : st7789_device_t :=
  {| panel_handle := 0; io_handle := 0; backlight := zeroed_backlight;
     config := zeroed_config; is_initialized := false |}.

(** The calls into libc and ESP-IDF that the driver makes (logging left
    out), with the arguments the driver chooses. *)
Inductive sdk_call :=
| calloc_device
| free_device
| esp_lcd_new_panel_io_spi (host dc_gpio cs_gpio pclk_hz cmd_bits param_bits : Z)
| esp_lcd_new_panel_st7789t (io reset_gpio endian bpp : Z)
| esp_lcd_panel_reset (panel : Z)
| esp_lcd_panel_init (panel : Z)
| esp_lcd_panel_mirror (panel : Z) (mirror_x mirror_y : bool)
| esp_lcd_panel_swap_xy (panel : Z) (swap_axes : bool)
| esp_lcd_panel_disp_on_off (panel : Z) (on_off : bool)
| gpio_config (mode pin_bit_mask : Z)
| gpio_reset_pin (pin : Z)
| ledc_timer_config (duty_resolution freq_hz mode timer_num clk_cfg : Z)
| ledc_channel_config (chan duty gpio mode timer_sel hpoint : Z)
| ledc_fade_func_install (flags : Z)
| ledc_set_duty (mode chan duty : Z)
| ledc_update_duty (mode chan : Z)
| ledc_set_fade_with_time (mode chan target_duty max_fade_time_ms : Z)
| ledc_fade_start (mode chan fade_mode : Z).

(** The platform under the driver.  What a call returns may depend on
    everything called so far: each function below receives the history up
    to and including the call it answers. *)
Record sdk_env := {
  sdk_ret : list sdk_call -> esp_err_t;
  sdk_handle : list sdk_call -> Z;
  sdk_calloc_ok : list sdk_call -> bool
}.

(** Driver code threads the history of calls. *)
Definition M (A : Type) : Type := list sdk_call -> A * list sdk_call.

#[export] Instance M_ret : MRet M := fun A a h => (a, h).
#[export] Instance M_bind : MBind M :=
  fun A B k m h => let (a, h') := m h in k a h'.

Section Driver.

Variable E : sdk_env.

(** A call that returns an [esp_err_t]. *)
Definition call (c : sdk_call) : M esp_err_t :=
  fun h => let h' := h ++ [c] in (sdk_ret E h', h').

(** A constructor of the SDK: it returns a code and, through its last
    argument, a handle.  [old] is the handle variable before the call; it
    is overwritten on success only. *)
Definition call_new (c : sdk_call) (old : Z) : M (esp_err_t * Z) :=
  fun h =>
    let h' := h ++ [c] in
    let r := sdk_ret E h' in
    ((r, if r =? ESP_OK then sdk_handle E h' else old), h').

(** [calloc(1, sizeof(st7789_device_t))]: a zeroed object, or [NULL]. *)
Definition calloc : M (option st7789_device_t) :=
  fun h =>
    let h' := h ++ [calloc_device] in
    (if sdk_calloc_ok E h' then Some zeroed_device else None, h').

(** [free(device)] *)
Definition free : M unit :=
  fun h => (tt, h ++ [free_device]).

Definition st7789_get_default_config : st7789_config_t := {|
  spi_host := ST7789_SPI_HOST;
  pin_sclk := ST7789_PIN_SCLK;
  pin_mosi := ST7789_PIN_MOSI;
  pin_cs := ST7789_PIN_CS;
  pin_dc := ST7789_PIN_DC;
  pin_rst := ST7789_PIN_RST;
  pixel_clock_hz := ST7789_PIXEL_CLOCK_HZ;
  h_res := ST7789_H_RES;
  v_res := ST7789_V_RES;
  offset_x := ST7789_OFFSET_X;
  offset_y := ST7789_OFFSET_Y;
  rgb_endian := LCD_RGB_ENDIAN_BGR;
  bits_per_pixel := 16;
  pin_backlight := ST7789_PIN_BACKLIGHT;
  initial_brightness := 75
|}.

(** A pointer argument is an [option]: [None] is [NULL].  A function that
    takes the device by pointer returns the device after the call next to
    its C result. *)
Definition st7789_create (config : option st7789_config_t) : M (option st7789_device_t) :=
  match config with
  | None => mret None
  | Some cfg =>
      device ← calloc;
      match device with
      | None => mret None
      | Some dev =>
          let dev := with_config dev cfg in
          let dev := with_is_initialized dev false in
          mret (Some dev)
      end
  end.

(** [brightness] is a [uint8_t], the result a [uint16_t]. *)
Definition brightness_to_duty (brightness : Z) : Z :=
  if brightness =? 0 then 0
  else
    let brightness :=
      if BRIGHTNESS_MAX <? brightness then BRIGHTNESS_MAX else brightness in
    u16 (ST7789_BL_MAX_DUTY - BRIGHTNESS_SCALE_FACTOR * (BRIGHTNESS_MAX - brightness)).

Definition backlight_init (backlight : option st7789_backlight_t) (gpio_num : Z)
  : M (esp_err_t * option st7789_backlight_t) :=
  match backlight with
  | None => mret (ESP_ERR_INVALID_ARG, None)
  | Some bl =>
      ret ← call (gpio_config GPIO_MODE_OUTPUT (Z.shiftl 1 gpio_num mod 2 ^ 64));
      if negb (ret =? ESP_OK) then mret (ret, Some bl) else
      ret ← call (ledc_timer_config ST7789_BL_RESOLUTION ST7789_BL_FREQUENCY
                                    ST7789_BL_MODE ST7789_BL_TIMER LEDC_AUTO_CLK);
      if negb (ret =? ESP_OK) then mret (ret, Some bl) else
      ret ← call (ledc_channel_config ST7789_BL_CHANNEL 0 gpio_num
                                      ST7789_BL_MODE ST7789_BL_TIMER 0);
      if negb (ret =? ESP_OK) then mret (ret, Some bl) else
      ret ← call (ledc_fade_func_install 0);
      if negb (ret =? ESP_OK) && negb (ret =? ESP_ERR_INVALID_STATE)
      then mret (ret, Some bl) else
      mret (ESP_OK,
            Some {| gpio_num := gpio_num;
                    channel := ST7789_BL_CHANNEL;
                    speed_mode := ST7789_BL_MODE;
                    timer := ST7789_BL_TIMER;
                    current_brightness := 0;
                    bl_is_initialized := true |})
  end.

Definition backlight_deinit (backlight : option st7789_backlight_t)
  : M (esp_err_t * option st7789_backlight_t) :=
  match backlight with
  | None => mret (ESP_OK, None)
  | Some bl =>
      if negb (bl_is_initialized bl) then mret (ESP_OK, Some bl) else
      _ ← call (ledc_set_duty (speed_mode bl) (channel bl) 0);
      _ ← call (ledc_update_duty (speed_mode bl) (channel bl));
      _ ← call (gpio_reset_pin (gpio_num bl));
      mret (ESP_OK, Some (with_bl_is_initialized bl false))
  end.

Definition backlight_set_duty (backlight : option st7789_backlight_t) (brightness : Z)
  : M (esp_err_t * option st7789_backlight_t) :=
  match backlight with
  | None => mret (ESP_ERR_INVALID_STATE, None)
  | Some bl =>
      if negb (bl_is_initialized bl) then mret (ESP_ERR_INVALID_STATE, Some bl) else
      let brightness :=
        if BRIGHTNESS_MAX <? brightness then BRIGHTNESS_MAX else brightness in
      let duty := brightness_to_duty brightness in
      ret ← call (ledc_set_duty (speed_mode bl) (channel bl) duty);
      if negb (ret =? ESP_OK) then mret (ret, Some bl) else
      ret ← call (ledc_update_duty (speed_mode bl) (channel bl));
      if ret =? ESP_OK
      then mret (ret, Some (with_current_brightness bl brightness))
      else mret (ret, Some bl)
  end.

(** Running [m] on [&device->backlight] and storing the member back. *)
Definition on_backlight (dev : st7789_device_t)
    (m : option st7789_backlight_t -> M (esp_err_t * option st7789_backlight_t))
  : M (esp_err_t * option st7789_device_t) :=
  '(ret, bl) ← m (Some (backlight dev));
  mret (ret, Some (with_backlight dev (default (backlight dev) bl))).

Definition st7789_backlight_set (device : option st7789_device_t) (brightness : Z)
  : M (esp_err_t * option st7789_device_t) :=
  match device with
  | None => mret (ESP_ERR_INVALID_STATE, None)
  | Some dev =>
      if negb (is_initialized dev) then mret (ESP_ERR_INVALID_STATE, Some dev) else
      if negb (bl_is_initialized (backlight dev))
      then mret (ESP_ERR_INVALID_STATE, Some dev) else
      on_backlight dev (fun bl => backlight_set_duty bl brightness)
  end.

Definition st7789_backlight_get (device : option st7789_device_t) : Z :=
  match device with
  | None => 0
  | Some dev =>
      if negb (bl_is_initialized (backlight dev)) then 0
      else current_brightness (backlight dev)
  end.

Definition st7789_backlight_enable (device : option st7789_device_t) (enable : bool)
  : M (esp_err_t * option st7789_device_t) :=
  match device with
  | None => mret (ESP_ERR_INVALID_STATE, None)
  | Some dev =>
      if negb (is_initialized dev) then mret (ESP_ERR_INVALID_STATE, Some dev) else
      if enable then
        on_backlight dev
          (fun bl => backlight_set_duty bl (current_brightness (backlight dev)))
      else
        let duty := 0 in
        _ ← call (ledc_set_duty (speed_mode (backlight dev)) (channel (backlight dev)) duty);
        ret ← call (ledc_update_duty (speed_mode (backlight dev)) (channel (backlight dev)));
        mret (ret, Some dev)
  end.

(** [duration_ms] is a [uint32_t]; [ledc_set_fade_with_time] takes it as
    its [int max_fade_time_ms]. *)
Definition st7789_backlight_fade (device : option st7789_device_t)
    (target_brightness duration_ms : Z)
  : M (esp_err_t * option st7789_device_t) :=
  match device with
  | None => mret (ESP_ERR_INVALID_STATE, None)
  | Some dev =>
      if negb (is_initialized dev) then mret (ESP_ERR_INVALID_STATE, Some dev) else
      if negb (bl_is_initialized (backlight dev))
      then mret (ESP_ERR_INVALID_STATE, Some dev) else
      let target_brightness :=
        if BRIGHTNESS_MAX <? target_brightness then BRIGHTNESS_MAX
        else target_brightness in
      let target_duty := brightness_to_duty target_brightness in
      ret ← call (ledc_set_fade_with_time (speed_mode (backlight dev))
                                          (channel (backlight dev))
                                          target_duty (i32 duration_ms));
      if negb (ret =? ESP_OK) then mret (ret, Some dev) else
      ret ← call (ledc_fade_start (speed_mode (backlight dev))
                                  (channel (backlight dev)) LEDC_FADE_NO_WAIT);
      if ret =? ESP_OK
      then mret (ret, Some (with_backlight dev
                              (with_current_brightness (backlight dev) target_brightness)))
      else mret (ret, Some dev)
  end.

Definition st7789_init (device : option st7789_device_t)
  : M (esp_err_t * option st7789_device_t) :=
  match device with
  | None => mret (ESP_ERR_INVALID_ARG, None)
  | Some dev =>
      if is_initialized dev then mret (ESP_OK, Some dev) else
      (* Step 1: panel IO *)
      '(ret, h) ← call_new
          (esp_lcd_new_panel_io_spi (spi_host (config dev)) (pin_dc (config dev))
                                    (pin_cs (config dev)) (pixel_clock_hz (config dev))
                                    ST7789_CMD_BITS ST7789_PARAM_BITS)
          (io_handle dev);
      let dev := with_io_handle dev h in
      if negb (ret =? ESP_OK) then mret (ret, Some dev) else
      (* Step 2: panel driver *)
      '(ret, h) ← call_new
          (esp_lcd_new_panel_st7789t (io_handle dev) (pin_rst (config dev))
                                     (rgb_endian (config dev))
                                     (bits_per_pixel (config dev)))
          (panel_handle dev);
      let dev := with_panel_handle dev h in
      if negb (ret =? ESP_OK) then mret (ret, Some dev) else
      (* Step 3: reset and initialise *)
      ret ← call (esp_lcd_panel_reset (panel_handle dev));
      if negb (ret =? ESP_OK) then mret (ret, Some dev) else
      ret ← call (esp_lcd_panel_init (panel_handle dev));
      if negb (ret =? ESP_OK) then mret (ret, Some dev) else
      (* Step 4: display settings *)
      ret ← call (esp_lcd_panel_mirror (panel_handle dev) true false);
      if negb (ret =? ESP_OK) then mret (ret, Some dev) else
      (* Step 5: display on *)
      ret ← call (esp_lcd_panel_disp_on_off (panel_handle dev) true);
      if negb (ret =? ESP_OK) then mret (ret, Some dev) else
      (* Step 6: backlight *)
      '(ret, device) ← on_backlight dev
          (fun bl => backlight_init bl (pin_backlight (config dev)));
      let dev := default dev device in
      if negb (ret =? ESP_OK) then mret (ret, Some dev) else
      (* initial brightness; a failure is only logged *)
      '(_, device) ← st7789_backlight_set (Some dev) (initial_brightness (config dev));
      let dev := default dev device in
      mret (ESP_OK, Some (with_is_initialized dev true))
  end.

(** The object is freed: no device remains. *)
Definition st7789_destroy (device : option st7789_device_t)
  : M (esp_err_t * option st7789_device_t) :=
  match device with
  | None => mret (ESP_ERR_INVALID_ARG, None)
  | Some dev =>
      _ ← on_backlight dev backlight_deinit;
      _ ← free;
      mret (ESP_OK, None)
  end.

Definition st7789_display_on_off (device : option st7789_device_t) (on : bool)
  : M (esp_err_t * option st7789_device_t) :=
  match device with
  | None => mret (ESP_ERR_INVALID_STATE, None)
  | Some dev =>
      if negb (is_initialized dev) then mret (ESP_ERR_INVALID_STATE, Some dev) else
      ret ← call (esp_lcd_panel_disp_on_off (panel_handle dev) on);
      mret (ret, Some dev)
  end.

Definition st7789_set_mirror (device : option st7789_device_t) (mirror_x mirror_y : bool)
  : M (esp_err_t * option st7789_device_t) :=
  match device with
  | None => mret (ESP_ERR_INVALID_STATE, None)
  | Some dev =>
      if negb (is_initialized dev) then mret (ESP_ERR_INVALID_STATE, Some dev) else
      ret ← call (esp_lcd_panel_mirror (panel_handle dev) mirror_x mirror_y);
      mret (ret, Some dev)
  end.

Definition st7789_set_rotation (device : option st7789_device_t) (swap_xy : bool)
  : M (esp_err_t * option st7789_device_t) :=
  match device with
  | None => mret (ESP_ERR_INVALID_STATE, None)
  | Some dev =>
      if negb (is_initialized dev) then mret (ESP_ERR_INVALID_STATE, Some dev) else
      ret ← call (esp_lcd_panel_swap_xy (panel_handle dev) swap_xy);
      mret (ret, Some dev)
  end.

Definition st7789_reset (device : option st7789_device_t)
  : M (esp_err_t * option st7789_device_t) :=
  match device with
  | None => mret (ESP_ERR_INVALID_STATE, None)
  | Some dev =>
      if negb (is_initialized dev) then mret (ESP_ERR_INVALID_STATE, Some dev) else
      ret ← call (esp_lcd_panel_reset (panel_handle dev));
      mret (ret, Some dev)
  end.

Definition st7789_get_panel_handle (device : option st7789_device_t) : Z :=
  match device with
  | None => 0
  | Some dev => panel_handle dev
  end.

(** *** Use of the driver

    A client creates a device and then calls the public functions on it.
    [api_call] names one such call with its arguments; the brightness
    arguments are [uint8_t]. *)
Inductive api_call :=
| Init
| DisplayOnOff (on : bool)
| SetMirror (mirror_x mirror_y : bool)
| SetRotation (swap_xy : bool)
| ResetPanel
| BacklightSet (brightness : Z)
| BacklightEnable (enable : bool)
| BacklightFade (target_brightness duration_ms : Z).

Definition api_call_typed (c : api_call) : bool :=
  match c with
  | BacklightSet b => (0 <=? b) && (b <? 256)
  | BacklightFade b _ => (0 <=? b) && (b <? 256)
  | _ => true
  end.

Definition run_api (c : api_call) (device : option st7789_device_t)
  : M (esp_err_t * option st7789_device_t) :=
  match c with
  | Init => st7789_init device
  | DisplayOnOff on => st7789_display_on_off device on
  | SetMirror mx my => st7789_set_mirror device mx my
  | SetRotation swap => st7789_set_rotation device swap
  | ResetPanel => st7789_reset device
  | BacklightSet b => st7789_backlight_set device b
  | BacklightEnable en => st7789_backlight_enable device en
  | BacklightFade b ms => st7789_backlight_fade device b ms
  end.

Fixpoint run_apis (cs : list api_call) (device : option st7789_device_t)
  : M (option st7789_device_t) :=
  match cs with
  | [] => mret device
  | c :: cs' =>
      '(_, device) ← run_api c device;
      run_apis cs' device
  end.

(** [st7789_create] on a configuration, then the calls [cs]. *)
Definition session (cfg : st7789_config_t) (cs : list api_call)
  : M (option st7789_device_t) :=
  device ← st7789_create (Some cfg);
  run_apis cs device.

End Driver.

(** The brightness kept by the driver is a percentage. *)
Definition brightness_in_range (dev : st7789_device_t) : Prop :=
  0 <= current_brightness (backlight dev) <= 100.

Definition inv_opt (device : option st7789_device_t) : Prop :=
  match device with
  | Some dev => brightness_in_range dev
  | None => True
  end.

(** The duties passed to [ledc_set_duty], in order. *)
Fixpoint duties_set (h : list sdk_call) : list Z :=
  match h with
  | [] => []
  | ledc_set_duty _ _ duty :: h' => duty :: duties_set h'
  | _ :: h' => duties_set h'
  end.

(** A platform on which every call succeeds. *)
Definition sdk_all_ok : sdk_env :=
  {| sdk_ret := fun _ => ESP_OK;
     sdk_handle := fun h => Z.of_nat (length h);
     sdk_calloc_ok := fun _ => true |}.

(** The device [st7789_create] builds from the default configuration, and
    the same device once [st7789_init] has succeeded on it. *)
Definition created_device : st7789_device_t :=
  with_is_initialized
    (with_config zeroed_device st7789_get_default_config) false.

Definition ready_device : st7789_device_t :=
  default created_device
    (st7789_init sdk_all_ok (Some created_device) []).1.2.

End EspIdf.

(** ** The serial bus under the Arduino driver *)

Module BusProtocol.

Import Arduino.

(** The discipline of a chip-select-gated bus.  [framed cs_pin open cs t]
    replays the calls [t] from a bus with a transaction open or not
    ([open]) and chip-select at level [cs]: a transaction is begun only
    when none is open, bytes are clocked only inside a transaction with
    chip-select low, and a transaction is ended only with chip-select
    high.  The result is the state after [t], or [None] at the first call
    that breaks the discipline. *)
Fixpoint framed (cs_pin : Z) (open : bool) (cs : level) (t : list hal_call)
  : option (bool * level) :=
  match t with
  | [] => Some (open, cs)
  | digitalWrite p v :: t' => framed cs_pin open (if p =? cs_pin then v else cs) t'
  | SPI_beginTransaction _ :: t' =>
      if open then None else framed cs_pin true cs t'
  | SPI_endTransaction :: t' =>
      match open, cs with
      | true, HIGH => framed cs_pin false cs t'
      | _, _ => None
      end
  | SPI_transfer _ :: t' | SPI_transfer16 _ :: t' | SPI_transferBytes _ _ :: t' =>
      match open, cs with
      | true, LOW => framed cs_pin open cs t'
      | _, _ => None
      end
  | _ :: t' => framed cs_pin open cs t'
  end.

(** What the panel receives together with the pauses in between:
    [panel_view] with every [delay] kept in its place. *)
Inductive tick :=
| Sent (item : bus_item)
| Wait (ms : Z).

Fixpoint panel_timeline (dc_pin : Z) (dc : level) (t : list hal_call) : list tick :=
  match t with
  | [] => []
  | digitalWrite p v :: t' => panel_timeline dc_pin (if p =? dc_pin then v else dc) t'
  | SPI_transfer b :: t' => Sent (dc, Byte b) :: panel_timeline dc_pin dc t'
  | SPI_transfer16 w :: t' => Sent (dc, Word w) :: panel_timeline dc_pin dc t'
  | SPI_transferBytes data len :: t' =>
      Sent (dc, Bulk data len) :: panel_timeline dc_pin dc t'
  | delay ms :: t' => Wait ms :: panel_timeline dc_pin dc t'
  | _ :: t' => panel_timeline dc_pin dc t'
  end.

(** The pause before the next item is sent. *)
Fixpoint wait_before_sent (tl : list tick) : Z :=
  match tl with
  | Wait ms :: rest => ms + wait_before_sent rest
  | _ => 0
  end.

(** For each time the command [c] is sent, the pause that follows it. *)
Fixpoint waits_after (c : Z) (tl : list tick) : list Z :=
  match tl with
  | [] => []
  | Sent (LOW, Byte b) :: rest =>
      if b =? c then wait_before_sent rest :: waits_after c rest
      else waits_after c rest
  | _ :: rest => waits_after c rest
  end.

(** The items of a timeline, pauses dropped. *)
Fixpoint sent_items (tl : list tick) : list bus_item :=
  match tl with
  | [] => []
  | Sent item :: rest => item :: sent_items rest
  | Wait _ :: rest => sent_items rest
  end.

(** The bytes a bulk transfer clocks out: the first [len] of the memory
    it is given. *)
Definition clocked_out (data : list Z) (len : Z) : list Z :=
  take (Z.to_nat len) data.

(** The commands among what the panel receives. *)
Fixpoint commands_of (items : list bus_item) : list Z :=
  match items with
  | [] => []
  | (LOW, Byte c) :: rest => c :: commands_of rest
  | _ :: rest => commands_of rest
  end.

(** A list of calls that keeps the discipline from an idle bus, whatever
    level chip-select has, and leaves the bus idle: [closes] with
    chip-select high at the end, [passes] at some level. *)
Definition closes (d : ST7789Display) (t : list hal_call) : Prop :=
  forall c, framed (_pin_cs d) false c t = Some (false, HIGH).
Definition passes (d : ST7789Display) (t : list hal_call) : Prop :=
  forall c, exists c', framed (_pin_cs d) false c t = Some (false, c').

End BusProtocol.

(** ** The image viewer: [LCD_Image.cpp] *)

Module LcdImage.

Import Arduino.

(** [LCD_Image.h] *)
Definition MAX_IMAGE_WIDTH : Z := 172.

(** The statics [imageXPos] and [imageYPos]; nothing assigns them. *)
Definition imageXPos : Z := 0.
Definition imageYPos : Z := 0.

(** The members of [PNGDRAW] that [pngDraw] reads (both [int]). *)
Record PNGDRAW := { y : Z; iWidth : Z }.

(** [((v >> 8) & 0xFF) | ((v << 8) & 0xFF00)], stored in a [uint16_t]. *)
Definition swap_bytes (v : Z) : Z :=
  u16 (Z.lor (Z.land (Z.shiftr v 8) 0xFF) (Z.land (Z.shiftl v 8) 0xFF00)).

(** [pngDraw], from the point where [getLineAsRGB565] has written the
    decoded line into the static [lineBuffer]: the argument [lineBuffer] is
    the array as the decoder left it, the result the array after the call
    and the calls made on the display.  An index past the end of the array
    leaves it unchanged here (C gives it no meaning). *)
Definition pngDraw (display : ST7789Display) (lineBuffer : list Z) (pDraw : PNGDRAW)
  : list Z * list hal_call :=
  let pixelCount := u32 (iWidth pDraw) in
  let lineBuffer :=
    for_upto (Z.to_nat pixelCount) 0
      (fun i buf =>
         match buf !! Z.to_nat i with
         | Some v => <[Z.to_nat i := swap_bytes v]> buf
         | None => buf
         end)
      lineBuffer in
  (lineBuffer,
   drawPixelBuffer display
     (u16 imageXPos)
     (u16 (y pDraw))
     (u16 (imageXPos + iWidth pDraw - 1))
     (u16 (imageYPos + y pDraw))
     lineBuffer).

End LcdImage.

(** ** The image viewer, continued: files and playback *)

Module PathNames.

Import String.
Local Open Scope string_scope.

(** The root directory, which is also the path separator. *)
Definition root : string := "/".

(** A file name and an extension for worked examples. *)
Definition sample_png : string := "a.png".
Definition png_extension : string := ".png".

End PathNames.

Module ImageViewer.

Import Arduino LcdImage.

Abbreviation string := String.string.

(** [PNG_SUCCESS] of PNGdec. *)
Definition PNG_SUCCESS : Z := 0.

(** What the viewer asks of the SD card manager and of the PNG decoder.
    [sd_search dir ext max] is [sdcard.searchFiles]; [png_open path] the
    result of [pngDecoder.open]; [png_width path] what [getWidth] returns
    once the file is open; [png_lines path] the lines [decode] hands to
    [pngDraw], each with the pixels [getLineAsRGB565] produces for it. *)
Record viewer_env := {
  sd_available : bool;
  sd_search : string -> string -> Z -> list string;
  png_open : string -> Z;
  png_width : string -> Z;
  png_lines : string -> list (PNGDRAW * list Z)
}.

(** The statics of [LCD_Image.cpp]. *)
Record viewer := {
  imageFileList : list string;
  currentDirectory : string;
  currentExtension : string;
  currentImageIndex : Z;
  autoPlayCounter : Z;
  lineBuffer : list Z
}.

Definition initial_viewer : viewer :=
  {| imageFileList := [];
     currentDirectory := String.EmptyString;
     currentExtension := String.EmptyString;
     currentImageIndex := 0;
     autoPlayCounter := 0;
     lineBuffer := replicate (Z.to_nat MAX_IMAGE_WIDTH) 0 |}.

Definition with_list (v : viewer) (l : list string) : viewer :=
  {| imageFileList := l; currentDirectory := currentDirectory v;
     currentExtension := currentExtension v;
     currentImageIndex := currentImageIndex v;
     autoPlayCounter := autoPlayCounter v; lineBuffer := lineBuffer v |}.

Definition with_search (v : viewer) (dir ext : string) : viewer :=
  {| imageFileList := imageFileList v; currentDirectory := dir;
     currentExtension := ext;
     currentImageIndex := currentImageIndex v;
     autoPlayCounter := autoPlayCounter v; lineBuffer := lineBuffer v |}.

Definition with_index (v : viewer) (i : Z) : viewer :=
  {| imageFileList := imageFileList v; currentDirectory := currentDirectory v;
     currentExtension := currentExtension v;
     currentImageIndex := i;
     autoPlayCounter := autoPlayCounter v; lineBuffer := lineBuffer v |}.

Definition with_counter (v : viewer) (c : Z) : viewer :=
  {| imageFileList := imageFileList v; currentDirectory := currentDirectory v;
     currentExtension := currentExtension v;
     currentImageIndex := currentImageIndex v;
     autoPlayCounter := c; lineBuffer := lineBuffer v |}.

Definition with_lineBuffer (v : viewer) (b : list Z) : viewer :=
  {| imageFileList := imageFileList v; currentDirectory := currentDirectory v;
     currentExtension := currentExtension v;
     currentImageIndex := currentImageIndex v;
     autoPlayCounter := autoPlayCounter v; lineBuffer := b |}.

(** [vector::size()] *)
Definition size (l : list string) : Z := Z.of_nat (length l).

Definition buildFilePath (directory filename : string) : string :=
  if String.eqb directory PathNames.root
  then String.append directory filename
  else String.append (String.append directory PathNames.root) filename.

Section Viewer.

Variable V : viewer_env.
Variable display : ST7789Display.

(** The result is a [uint16_t]. *)
Definition searchImages (v : viewer) (directory fileExtension : string)
  : Z * viewer :=
  let v := with_list v [] in
  let v := with_search v directory fileExtension in
  if negb (sd_available V) then (0, v) else
  let v := with_list v (sd_search V directory fileExtension 100) in
  (u16 (size (imageFileList v)), v).

(** The decoder writes a line into the front of [lineBuffer] and calls
    [pngDraw]; this is one such step. *)
Definition draw_line (st : viewer * list hal_call) (line : PNGDRAW * list Z)
  : viewer * list hal_call :=
  let '(v, out) := st in
  let '(pDraw, pixels) := line in
  let decoded := pixels ++ drop (length pixels) (lineBuffer v) in
  let '(buf, calls) := pngDraw display decoded pDraw in
  (with_lineBuffer v buf, out ++ calls).

(** The result of [pngDecoder.open] is kept in an [int16_t]. *)
Definition showImage (v : viewer) (filePath : string)
  : bool * viewer * list hal_call :=
  let result := i16 (png_open V filePath) in
  if result =? PNG_SUCCESS then
    if MAX_IMAGE_WIDTH <? png_width V filePath then (false, v, [])
    else
      let '(v, calls) := fold_left draw_line (png_lines V filePath) (v, []) in
      (true, v, calls)
  else (false, v, []).

(** [imageIndex] is a [uint16_t]. *)
Definition displayImage (v : viewer) (directory fileExtension : string)
    (imageIndex : Z) : bool * viewer * list hal_call :=
  let v :=
    if (size (imageFileList v) =? 0)
       || negb (String.eqb (currentDirectory v) directory)
       || negb (String.eqb (currentExtension v) fileExtension)
    then (searchImages v directory fileExtension).2
    else v in
  if size (imageFileList v) =? 0 then (false, v, []) else
  if size (imageFileList v) <=? imageIndex then (false, v, []) else
  match imageFileList v !! Z.to_nat imageIndex with
  | Some name => showImage v (buildFilePath directory name)
  | None => (false, v, [])
  end.


Definition getImageCount (v : viewer) : Z := u16 (size (imageFileList v)).

Definition getCurrentImageIndex (v : viewer) : Z := currentImageIndex v.


End Viewer.

(** A card that holds one readable image, two pixels wide and one line
    high. *)
Definition one_image_card : viewer_env :=
  {| sd_available := true;
     sd_search := fun _ _ _ => [PathNames.sample_png];
     png_open := fun _ => PNG_SUCCESS;
     png_width := fun _ => 2;
     png_lines := fun _ => [({| y := 0; iWidth := 2 |}, [0x1234; 0xABCD])] |}.

End ImageViewer.

(** ** The LVGL glue of the ESP-IDF build: [LVGL_Driver/LVGL_Driver.c] *)

Module LvglDriver.

(** [LVGL_Driver.h] *)
Definition LVGL_DEFAULT_BUF_LINES : Z := 20.
Definition LVGL_TICK_PERIOD_MS : Z := 2.

(** Codes of [esp_err.h], capabilities of [esp_heap_caps.h] and the size of
    a 16-bit [lv_color_t]. *)
Definition ESP_FAIL : EspIdf.esp_err_t := -1.
Definition ESP_ERR_NO_MEM : EspIdf.esp_err_t := 0x101.
Definition MALLOC_CAP_8BIT : Z := Z.shiftl 1 2.
Definition MALLOC_CAP_DMA : Z := Z.shiftl 1 3.
Definition MALLOC_CAP_SPIRAM : Z := Z.shiftl 1 10.
Definition MALLOC_CAP_INTERNAL : Z := Z.shiftl 1 11.
Definition sizeof_lv_color_t : Z := 2.

Inductive lvgl_buffer_alloc_t :=
| LVGL_BUF_ALLOC_INTERNAL
| LVGL_BUF_ALLOC_SPIRAM
| LVGL_BUF_ALLOC_DMA.

(** [lv_disp_rot_t] of LVGL. *)
Inductive lv_disp_rot_t :=
| LV_DISP_ROT_NONE
| LV_DISP_ROT_90
| LV_DISP_ROT_180
| LV_DISP_ROT_270.

(** The callbacks the driver hands to LVGL and to the timer service. *)
Inductive callback :=
| lvgl_flush_callback_ptr
| lvgl_rotation_callback_ptr
| lvgl_tick_callback_ptr.

(** [lvgl_config_t]; [lcd_device] is the device the pointer refers to
    ([None] for [NULL]), [rotation] a [uint8_t], the other numbers
    [uint16_t]. *)
Record lvgl_config_t := {
  hor_res : Z;
  ver_res : Z;
  buf_lines : Z;
  use_double_buffer : bool;
  buf_alloc : lvgl_buffer_alloc_t;
  full_refresh : bool;
  rotation : Z;
  lcd_device : option EspIdf.st7789_device_t;
  tick_period_ms : Z
}.

(** [lvgl_driver_t].  A pointer or handle is an address, [0] for [NULL].
    The members [draw_buf] and [disp_drv] are filled for LVGL and never
    read back by the driver: what is put in them is recorded in the calls
    that hand them over. *)
Record lvgl_driver_t := {
  config : lvgl_config_t;
  display : Z;
  buf1 : Z;
  buf2 : Z;
  buf_size : Z;
  tick_timer : Z;
  is_initialized : bool
}.

(** [lv_area_t]: inclusive corners, [lv_coord_t] each. *)
Record lv_area_t := { x1 : Z; y1 : Z; x2 : Z; y2 : Z }.

(** What a display callback reads through its [lv_disp_drv_t* drv]: the
    driver [user_data] points to and the rotation state LVGL keeps. *)
Record lv_disp_drv_t := {
  user_data : option lvgl_driver_t;
  rotated : lv_disp_rot_t
}.

Definition with_config (driver : lvgl_driver_t) (c : lvgl_config_t) : lvgl_driver_t :=
  {| config := c; display := display driver; buf1 := buf1 driver;
     buf2 := buf2 driver; buf_size := buf_size driver;
     tick_timer := tick_timer driver; is_initialized := is_initialized driver |}.

Definition with_display (driver : lvgl_driver_t) (p : Z) : lvgl_driver_t :=
  {| config := config driver; display := p; buf1 := buf1 driver;
     buf2 := buf2 driver; buf_size := buf_size driver;
     tick_timer := tick_timer driver; is_initialized := is_initialized driver |}.

Definition with_buf1 (driver : lvgl_driver_t) (p : Z) : lvgl_driver_t :=
  {| config := config driver; display := display driver; buf1 := p;
     buf2 := buf2 driver; buf_size := buf_size driver;
     tick_timer := tick_timer driver; is_initialized := is_initialized driver |}.

Definition with_buf2 (driver : lvgl_driver_t) (p : Z) : lvgl_driver_t :=
  {| config := config driver; display := display driver; buf1 := buf1 driver;
     buf2 := p; buf_size := buf_size driver;
     tick_timer := tick_timer driver; is_initialized := is_initialized driver |}.

Definition with_buf_size (driver : lvgl_driver_t) (n : Z) : lvgl_driver_t :=
  {| config := config driver; display := display driver; buf1 := buf1 driver;
     buf2 := buf2 driver; buf_size := n;
     tick_timer := tick_timer driver; is_initialized := is_initialized driver |}.

Definition with_tick_timer (driver : lvgl_driver_t) (p : Z) : lvgl_driver_t :=
  {| config := config driver; display := display driver; buf1 := buf1 driver;
     buf2 := buf2 driver; buf_size := buf_size driver;
     tick_timer := p; is_initialized := is_initialized driver |}.

Definition with_is_initialized (driver : lvgl_driver_t) (b : bool) : lvgl_driver_t :=
  {| config := config driver; display := display driver; buf1 := buf1 driver;
     buf2 := buf2 driver; buf_size := buf_size driver;
     tick_timer := tick_timer driver; is_initialized := b |}.

Definition with_rotation (c : lvgl_config_t) (r : Z) : lvgl_config_t :=
  {| hor_res := hor_res c; ver_res := ver_res c; buf_lines := buf_lines c;
     use_double_buffer := use_double_buffer c; buf_alloc := buf_alloc c;
     full_refresh := full_refresh c; rotation := r;
     lcd_device := lcd_device c; tick_period_ms := tick_period_ms c |}.

(** [lvgl_config_t empty = {0}] *)
Definition empty_config : lvgl_config_t :=
  {| hor_res := 0; ver_res := 0; buf_lines := 0; use_double_buffer := false;
     buf_alloc := LVGL_BUF_ALLOC_INTERNAL; full_refresh := false; rotation := 0;
     lcd_device := None; tick_period_ms := 0 |}.

(** The object [heap_caps_calloc] hands out. *)
Definition zeroed_driver : lvgl_driver_t :=
  {| config := empty_config; display := 0; buf1 := 0; buf2 := 0;
     buf_size := 0; tick_timer := 0; is_initialized := false |}.

(** The calls into LVGL, the heap, the timer service and the panel. *)
Inductive lv_call :=
| heap_caps_calloc_driver (caps : Z)
| heap_caps_malloc (size caps : Z)
| free (ptr : Z)
| free_driver
| lv_init
| lv_disp_draw_buf_init (b1 b2 size_in_px : Z)
| lv_disp_drv_init
| lv_disp_drv_register (hres vres : Z) (flush_cb drv_update_cb : callback)
                       (full : bool)
| lv_disp_set_rotation (disp : Z) (rot : lv_disp_rot_t)
| lv_timer_handler
| lv_tick_inc (ms : Z)
| lv_disp_flush_ready
| esp_timer_create (cb : callback)
| esp_timer_start_periodic (timer period_us : Z)
| esp_timer_stop (timer : Z)
| esp_timer_delete (timer : Z)
| esp_lcd_panel_draw_bitmap (panel x_start y_start x_end y_end color_map : Z)
| esp_lcd_panel_swap_xy (panel : Z) (swap_axes : bool)
| esp_lcd_panel_mirror (panel : Z) (mirror_x mirror_y : bool).

(** The platform: the code and the pointer a call returns, given the
    history up to and including that call. *)
Record lv_env := {
  lv_ret : list lv_call -> EspIdf.esp_err_t;
  lv_ptr : list lv_call -> Z
}.

Definition L (A : Type) : Type := list lv_call -> A * list lv_call.

#[export] Instance L_ret : MRet L := fun A a h => (a, h).
#[export] Instance L_bind : MBind L :=
  fun A B k m h => let (a, h') := m h in k a h'.

Section Driver.

Variable E : lv_env.

(** A call whose result the driver does not use. *)
Definition tell (c : lv_call) : L unit :=
  fun h => (tt, h ++ [c]).

(** A call that returns an [esp_err_t]. *)
Definition call (c : lv_call) : L EspIdf.esp_err_t :=
  fun h => let h' := h ++ [c] in (lv_ret E h', h').

(** A call that returns a pointer. *)
Definition call_ptr (c : lv_call) : L Z :=
  fun h => let h' := h ++ [c] in (lv_ptr E h', h').

(** A call that returns a code and, on success, a handle through its last
    argument; [old] is the handle variable before the call. *)
Definition call_new (c : lv_call) (old : Z) : L (EspIdf.esp_err_t * Z) :=
  fun h =>
    let h' := h ++ [c] in
    let r := lv_ret E h' in
    ((r, if r =? EspIdf.ESP_OK then lv_ptr E h' else old), h').

Definition lvgl_get_default_config (lcd_device : option EspIdf.st7789_device_t)
  : lvgl_config_t :=
  match lcd_device with
  | None => empty_config
  | Some lcd =>
      {| hor_res := EspIdf.h_res (EspIdf.config lcd);
         ver_res := EspIdf.v_res (EspIdf.config lcd);
         buf_lines := LVGL_DEFAULT_BUF_LINES;
         use_double_buffer := true;
         buf_alloc := LVGL_BUF_ALLOC_INTERNAL;
         full_refresh := false;
         rotation := 0;
         lcd_device := Some lcd;
         tick_period_ms := LVGL_TICK_PERIOD_MS |}
  end.

(** [buf_size] is a [size_t]; the product is computed in [int]. *)
Definition lvgl_driver_create (config : option lvgl_config_t)
  : L (option lvgl_driver_t) :=
  match config with
  | None => mret None
  | Some cfg =>
      match lcd_device cfg with
      | None => mret None
      | Some _ =>
          p ← call_ptr (heap_caps_calloc_driver MALLOC_CAP_8BIT);
          if p =? 0 then mret None else
          let driver := with_config zeroed_driver cfg in
          let driver := with_buf_size driver (u32 (hor_res cfg * buf_lines cfg)) in
          mret (Some driver)
      end
  end.

(** [rotation] is a [uint16_t]; it is stored in the [uint8_t] member of the
    configuration. *)
Definition lvgl_driver_set_rotation (driver : option lvgl_driver_t) (rotation : Z)
  : L (EspIdf.esp_err_t * option lvgl_driver_t) :=
  match driver with
  | None => mret (EspIdf.ESP_ERR_INVALID_STATE, None)
  | Some drv =>
      if negb (is_initialized drv)
      then mret (EspIdf.ESP_ERR_INVALID_STATE, Some drv) else
      let lv_rotation :=
        if rotation =? 0 then Some LV_DISP_ROT_NONE
        else if rotation =? 90 then Some LV_DISP_ROT_90
        else if rotation =? 180 then Some LV_DISP_ROT_180
        else if rotation =? 270 then Some LV_DISP_ROT_270
        else None in
      match lv_rotation with
      | None => mret (EspIdf.ESP_ERR_INVALID_ARG, Some drv)
      | Some rot =>
          _ ← tell (lv_disp_set_rotation (display drv) rot);
          mret (EspIdf.ESP_OK,
                Some (with_config drv (with_rotation (config drv) (u8 rotation))))
      end
  end.

(** [disp_drv.hor_res] and [disp_drv.ver_res] are [lv_coord_t], an
    [int16_t] in the default configuration of LVGL; the [uint16_t]
    resolution of the configuration is converted on assignment. *)
Definition lvgl_driver_init (driver : option lvgl_driver_t)
  : L (EspIdf.esp_err_t * option lvgl_driver_t) :=
  match driver with
  | None => mret (EspIdf.ESP_ERR_INVALID_ARG, None)
  | Some drv =>
      if is_initialized drv then mret (EspIdf.ESP_OK, Some drv) else
      (* Step 1 *)
      _ ← tell lv_init;
      (* Step 2 *)
      let malloc_caps :=
        match buf_alloc (config drv) with
        | LVGL_BUF_ALLOC_SPIRAM => MALLOC_CAP_SPIRAM
        | LVGL_BUF_ALLOC_DMA => MALLOC_CAP_DMA
        | LVGL_BUF_ALLOC_INTERNAL => MALLOC_CAP_INTERNAL
        end in
      let buf_bytes := u32 (buf_size drv * sizeof_lv_color_t) in
      p ← call_ptr (heap_caps_malloc buf_bytes malloc_caps);
      let drv := with_buf1 drv p in
      if buf1 drv =? 0 then mret (ESP_ERR_NO_MEM, Some drv) else
      r ← (if use_double_buffer (config drv) then
             p ← call_ptr (heap_caps_malloc buf_bytes malloc_caps);
             let drv := with_buf2 drv p in
             if buf2 drv =? 0 then
               _ ← tell (free (buf1 drv));
               mret (inl drv)
             else mret (inr drv)
           else mret (inr (with_buf2 drv 0)));
      match r with
      | inl drv => mret (ESP_ERR_NO_MEM, Some drv)
      | inr drv =>
          (* Step 3 *)
          _ ← tell (lv_disp_draw_buf_init (buf1 drv) (buf2 drv) (buf_size drv));
          (* Step 4 *)
          _ ← tell lv_disp_drv_init;
          p ← call_ptr (lv_disp_drv_register
                          (i16 (hor_res (config drv))) (i16 (ver_res (config drv)))
                          lvgl_flush_callback_ptr lvgl_rotation_callback_ptr
                          (full_refresh (config drv)));
          let drv := with_display drv p in
          if display drv =? 0 then mret (ESP_FAIL, Some drv) else
          (* Step 5; the result is not looked at *)
          '(_, d) ← (if negb (rotation (config drv) =? 0)
                     then lvgl_driver_set_rotation (Some drv) (rotation (config drv))
                     else mret (EspIdf.ESP_OK, Some drv));
          let drv := default drv d in
          (* Step 6 *)
          '(ret, t) ← call_new (esp_timer_create lvgl_tick_callback_ptr)
                               (tick_timer drv);
          let drv := with_tick_timer drv t in
          if negb (ret =? EspIdf.ESP_OK) then mret (ret, Some drv) else
          ret ← call (esp_timer_start_periodic (tick_timer drv)
                        (tick_period_ms (config drv) * 1000));
          if negb (ret =? EspIdf.ESP_OK) then
            _ ← tell (esp_timer_delete (tick_timer drv));
            mret (ret, Some drv)
          else
          mret (EspIdf.ESP_OK, Some (with_is_initialized drv true))
      end
  end.

(** The object is freed: no driver remains. *)
Definition lvgl_driver_destroy (driver : option lvgl_driver_t)
  : L (EspIdf.esp_err_t * option lvgl_driver_t) :=
  match driver with
  | None => mret (EspIdf.ESP_ERR_INVALID_ARG, None)
  | Some drv =>
      _ ← (if negb (tick_timer drv =? 0) then
             _ ← tell (esp_timer_stop (tick_timer drv));
             tell (esp_timer_delete (tick_timer drv))
           else mret tt);
      _ ← (if negb (buf1 drv =? 0) then tell (free (buf1 drv)) else mret tt);
      _ ← (if negb (buf2 drv =? 0) then tell (free (buf2 drv)) else mret tt);
      _ ← tell free_driver;
      mret (EspIdf.ESP_OK, None)
  end.

Definition lvgl_driver_get_display (driver : option lvgl_driver_t) : Z :=
  match driver with
  | None => 0
  | Some drv => display drv
  end.

Definition lvgl_driver_task_handler (driver : option lvgl_driver_t) : L unit :=
  tell lv_timer_handler.

Definition lvgl_tick_callback (arg : option lvgl_driver_t) : L unit :=
  match arg with
  | Some driver => tell (lv_tick_inc (tick_period_ms (config driver)))
  | None => mret tt
  end.

(** The sums are computed in [int] from [lv_coord_t] and [uint16_t]
    operands, so they do not wrap. *)
Definition lvgl_flush_callback (drv : option lv_disp_drv_t) (area : lv_area_t)
    (color_map : Z) : L unit :=
  match drv with
  | None => mret tt
  | Some dr =>
      match user_data dr with
      | None => mret tt
      | Some driver =>
          match lcd_device (config driver) with
          | None => tell lv_disp_flush_ready
          | Some lcd =>
              if EspIdf.panel_handle lcd =? 0 then tell lv_disp_flush_ready else
              let x1 := x1 area + EspIdf.offset_x (EspIdf.config lcd) in
              let y1 := y1 area + EspIdf.offset_y (EspIdf.config lcd) in
              let x2 := x2 area + EspIdf.offset_x (EspIdf.config lcd) in
              let y2 := y2 area + EspIdf.offset_y (EspIdf.config lcd) in
              _ ← tell (esp_lcd_panel_draw_bitmap (EspIdf.panel_handle lcd)
                          x1 y1 (x2 + 1) (y2 + 1) color_map);
              tell lv_disp_flush_ready
          end
      end
  end.

Definition lvgl_rotation_callback (drv : option lv_disp_drv_t) : L unit :=
  match drv with
  | None => mret tt
  | Some dr =>
      match user_data dr with
      | None => mret tt
      | Some driver =>
          match lcd_device (config driver) with
          | None => mret tt
          | Some lcd =>
              if EspIdf.panel_handle lcd =? 0 then mret tt else
              match rotated dr with
              | LV_DISP_ROT_NONE =>
                  _ ← tell (esp_lcd_panel_swap_xy (EspIdf.panel_handle lcd) false);
                  tell (esp_lcd_panel_mirror (EspIdf.panel_handle lcd) true false)
              | LV_DISP_ROT_90 =>
                  _ ← tell (esp_lcd_panel_swap_xy (EspIdf.panel_handle lcd) true);
                  tell (esp_lcd_panel_mirror (EspIdf.panel_handle lcd) true true)
              | LV_DISP_ROT_180 =>
                  _ ← tell (esp_lcd_panel_swap_xy (EspIdf.panel_handle lcd) false);
                  tell (esp_lcd_panel_mirror (EspIdf.panel_handle lcd) false true)
              | LV_DISP_ROT_270 =>
                  _ ← tell (esp_lcd_panel_swap_xy (EspIdf.panel_handle lcd) true);
                  tell (esp_lcd_panel_mirror (EspIdf.panel_handle lcd) false false)
              end
          end
      end
  end.

End Driver.

(** How often a call occurs in a history. *)
Definition count_calls (p : lv_call -> bool) (h : list lv_call) : nat :=
  length (filter (fun c => p c = true) h).

Definition is_flush_ready (c : lv_call) : bool :=
  match c with lv_disp_flush_ready => true | _ => false end.

Definition is_draw_bitmap (c : lv_call) : bool :=
  match c with esp_lcd_panel_draw_bitmap _ _ _ _ _ _ => true | _ => false end.

Definition is_set_rotation (c : lv_call) : bool :=
  match c with lv_disp_set_rotation _ _ => true | _ => false end.

Definition is_malloc (c : lv_call) : bool :=
  match c with heap_caps_malloc _ _ => true | _ => false end.

(** What a rotation asks of the panel: axes swapped, mirror in X, mirror
    in Y, read off the calls [lvgl_rotation_callback] makes. *)
Definition panel_orientation (h : list lv_call) : option (bool * bool * bool) :=
  match h with
  | [esp_lcd_panel_swap_xy _ s; esp_lcd_panel_mirror _ mx my] => Some (s, mx, my)
  | _ => None
  end.

(** The rotation half a turn further. *)
Definition opposite (r : lv_disp_rot_t) : lv_disp_rot_t :=
  match r with
  | LV_DISP_ROT_NONE => LV_DISP_ROT_180
  | LV_DISP_ROT_90 => LV_DISP_ROT_270
  | LV_DISP_ROT_180 => LV_DISP_ROT_NONE
  | LV_DISP_ROT_270 => LV_DISP_ROT_90
  end.

(** A platform on which every call succeeds and every pointer is fresh
    and not null. *)
Definition lv_all_ok : lv_env :=
  {| lv_ret := fun _ => EspIdf.ESP_OK;
     lv_ptr := fun h => 0x3FC00000 + Z.of_nat (length h) |}.

(** A platform on which the [n]-th allocation-like call and every later
    one returns [NULL], and codes are [ESP_OK]. *)
Definition lv_null_from (n : nat) : lv_env :=
  {| lv_ret := fun _ => EspIdf.ESP_OK;
     lv_ptr := fun h => if (n <=? length h)%nat then 0
                        else 0x3FC00000 + Z.of_nat (length h) |}.

(** The driver [lvgl_driver_create] builds from the default configuration
    of a ready panel, and the same driver once [lvgl_driver_init] has
    succeeded on [lv_all_ok]. *)
Definition fresh_driver : lvgl_driver_t :=
  let cfg := lvgl_get_default_config (Some EspIdf.ready_device) in
  with_buf_size (with_config zeroed_driver cfg) (u32 (hor_res cfg * buf_lines cfg)).

Definition running_driver : lvgl_driver_t :=
  default fresh_driver (lvgl_driver_init lv_all_ok (Some fresh_driver) []).1.2.

End LvglDriver.

(** ** Platforms for the ESP-IDF driver *)

Module Platforms.

Import EspIdf.

(** A platform whose calls succeed until [n] calls have been made; the
    [n]-th and every later call returns [code]. *)
Definition sdk_fail_from (n : nat) (code : esp_err_t) : sdk_env :=
  {| sdk_ret := fun h => if (n <=? length h)%nat then code else ESP_OK;
     sdk_handle := fun h => Z.of_nat (length h);
     sdk_calloc_ok := fun _ => true |}.

End Platforms.

(** * Properties of the drivers *)

(** ** Integer conversions *)

Section CIntFacts.

Lemma u8_small v : 0 <= v < 256 -> u8 v = v.
Proof. intros H. unfold u8. apply Z.mod_small. lia. Qed.

Lemma u16_small v : 0 <= v < 65536 -> u16 v = v.
Proof. intros H. unfold u16. apply Z.mod_small. lia. Qed.

Lemma u32_small v : 0 <= v < 4294967296 -> u32 v = v.
Proof. intros H. unfold u32. apply Z.mod_small. lia. Qed.

Lemma shiftr8_div v : Z.shiftr v 8 = v / 256.
Proof. rewrite Z.shiftr_div_pow2 by lia. reflexivity. Qed.

Lemma length_bytes_of_u16s ps :
  Z.of_nat (length (bytes_of_u16s ps)) = 2 * Z.of_nat (length ps).
Proof.
  induction ps as [|p ps IH]; [reflexivity|].
  unfold bytes_of_u16s in *. cbn [flat_map bytes_of_u16 app length].
  lia.
Qed.

Lemma be16_no_carry v off :
  0 <= v -> 0 <= off -> v mod 256 + off < 256 ->
  be16 (v + off) = [u8 (Z.shiftr v 8); u8 (v + off)].
Proof.
  intros Hv Hoff Hc. unfold be16, u8.
  rewrite !shiftr8_div.
  replace ((v + off) / 256) with (v / 256); [reflexivity|].
  pose proof (Z.div_mod v 256 ltac:(lia)) as Hdm.
  pose proof (Z.mod_pos_bound v 256 ltac:(lia)) as Hb.
  apply (Z.div_unique_pos (v + off) 256 (v / 256) (v mod 256 + off)); lia.
Qed.

Lemma be16_words_be16 a b :
  0 <= a < 65536 -> 0 <= b < 65536 ->
  be16_words (be16 a ++ be16 b) = [a; b].
Proof.
  intros Ha Hb. unfold be16. cbn [app be16_words].
  rewrite !Z.shiftl_mul_pow2, !shiftr8_div by lia.
  change (2 ^ 8) with 256.
  rewrite (Z.mod_small (a / 256)), (Z.mod_small (b / 256))
    by (split; [apply Z.div_pos; lia | apply Z.div_lt_upper_bound; lia]).
  f_equal; [|f_equal].
  - pose proof (Z.div_mod a 256 ltac:(lia)). lia.
  - pose proof (Z.div_mod b 256 ltac:(lia)). lia.
Qed.

End CIntFacts.

(** ** The Arduino driver *)

Section ArduinoFacts.

Import Arduino.

(** *** The bus as the panel sees it *)

Lemma panel_view_app p dc t1 t2 :
  panel_view p dc (t1 ++ t2) =
  panel_view p dc t1 ++ panel_view p (dc_after p dc t1) t2.
Proof.
  revert dc. induction t1 as [|c t1 IH]; intros dc; [reflexivity|].
  destruct c; cbn [app panel_view dc_after]; rewrite ?IH; reflexivity.
Qed.

Lemma received_app d dc t1 t2 :
  received d dc (t1 ++ t2) =
  received d dc t1 ++ received d (dc_after (_pin_dc d) dc t1) t2.
Proof. apply panel_view_app. Qed.

(** Each primitive drives D/C itself, so what it sends does not depend on
    the level it finds. *)
Lemma received_writeCommand d dc c :
  received d dc (writeCommand d c) = [Cmd c].
Proof.
  unfold received, writeCommand. cbn [panel_view].
  rewrite Z.eqb_refl. destruct (_pin_cs d =? _pin_dc d); reflexivity.
Qed.

Lemma received_writeData d dc b :
  received d dc (writeData d b) = [Param b].
Proof.
  unfold received, writeData. cbn [panel_view].
  rewrite Z.eqb_refl. destruct (_pin_cs d =? _pin_dc d); reflexivity.
Qed.

Lemma received_writeDataBytes d dc data len :
  received d dc (writeDataBytes d data len) = [Burst data len].
Proof.
  unfold received, writeDataBytes. cbn [panel_view].
  rewrite Z.eqb_refl. destruct (_pin_cs d =? _pin_dc d); reflexivity.
Qed.

Lemma received_concat_replicate d t item n :
  (forall dc, received d dc t = [item]) ->
  forall dc, received d dc (concat (replicate n t)) = replicate n item.
Proof.
  intros Ht. induction n as [|n IH]; intros dc; [reflexivity|].
  cbn [replicate concat]. rewrite received_app, Ht, IH. reflexivity.
Qed.

Lemma received_setWindow d dc x1 y1 x2 y2 :
  received d dc (setWindow d x1 y1 x2 y2) = setWindow_sent d x1 y1 x2 y2.
Proof.
  unfold setWindow, setWindow_sent, setWindow_addressing.
  destruct (_horizontal d);
    cbn [concat]; rewrite ?app_nil_r;
    repeat (rewrite received_app;
            rewrite ?received_writeCommand, ?received_writeData);
    reflexivity.
Qed.

Lemma bulk_count_app t1 t2 :
  bulk_count (t1 ++ t2) = (bulk_count t1 + bulk_count t2)%nat.
Proof.
  induction t1 as [|c t1 IH]; [reflexivity|].
  destruct c; cbn [app bulk_count]; rewrite IH; reflexivity.
Qed.

Lemma bulk_count_setWindow d x1 y1 x2 y2 :
  bulk_count (setWindow d x1 y1 x2 y2) = 0%nat.
Proof. unfold setWindow. destruct (_horizontal d); reflexivity. Qed.

Lemma bulk_count_writeDataBytes d data len :
  bulk_count (writeDataBytes d data len) = 1%nat.
Proof. reflexivity. Qed.

(** Where no addition carries out of a low byte, [setWindow] sends the
    addressing of the orientation contract. *)
Lemma setWindow_frames_no_carry d x1 y1 x2 y2 :
  0 <= x1 -> 0 <= y1 -> 0 <= x2 -> 0 <= y2 ->
  0 <= _offset_x d -> 0 <= _offset_y d ->
  no_carry x1 (_offset_x d) -> no_carry x2 (_offset_x d) ->
  no_carry y1 (_offset_y d) -> no_carry y2 (_offset_y d) ->
  setWindow_sent d x1 y1 x2 y2 = window_frames d x1 y1 x2 y2.
Proof.
  unfold no_carry. intros.
  unfold setWindow_sent, setWindow_addressing, window_frames, address_frame.
  rewrite !be16_no_carry by assumption.
  destruct (_horizontal d); reflexivity.
Qed.

Lemma setWindow_received_no_carry d dc x1 y1 x2 y2 :
  0 <= x1 -> 0 <= y1 -> 0 <= x2 -> 0 <= y2 ->
  0 <= _offset_x d -> 0 <= _offset_y d ->
  no_carry x1 (_offset_x d) -> no_carry x2 (_offset_x d) ->
  no_carry y1 (_offset_y d) -> no_carry y2 (_offset_y d) ->
  received d dc (setWindow d x1 y1 x2 y2) = window_frames d x1 y1 x2 y2.
Proof.
  intros. rewrite received_setWindow.
  apply setWindow_frames_no_carry; assumption.
Qed.

(** In a valid configuration the X sums stay below 240 and never carry. *)
Lemma in_bounds_x_no_carry d x1 y1 x2 y2 :
  valid_PanelConfig d -> window_in_bounds d x1 y1 x2 y2 ->
  no_carry x1 (_offset_x d) /\ no_carry x2 (_offset_x d).
Proof.
  unfold valid_PanelConfig, window_in_bounds, no_carry, is_u8, is_u16.
  intros (_ & _ & Hox & _ & _ & _ & Hw & _) (Hx1 & Hx2 & _).
  rewrite !Z.mod_small by lia. lia.
Qed.

(** With no vertical offset, as on the board, every in-bounds window of a
    valid configuration is addressed as the orientation contract asks. *)
Lemma setWindow_received_zero_offset_y d dc x1 y1 x2 y2 :
  valid_PanelConfig d -> window_in_bounds d x1 y1 x2 y2 ->
  _offset_y d = 0 ->
  received d dc (setWindow d x1 y1 x2 y2) = window_frames d x1 y1 x2 y2.
Proof.
  intros Hv Hw Hy.
  destruct (in_bounds_x_no_carry d x1 y1 x2 y2 Hv Hw) as [Hc1 Hc2].
  unfold valid_PanelConfig, is_u8 in Hv. unfold window_in_bounds in Hw.
  apply setWindow_received_no_carry; try assumption; try lia;
    unfold no_carry; rewrite Hy;
    match goal with |- ?v mod 256 + 0 < 256 =>
      pose proof (Z.mod_pos_bound v 256 ltac:(lia)); lia
    end.
Qed.

(** C4: with width 172, height 320, offset_x 34, offset_y 0 and the
    horizontal orientation, [setWindow(10,20,50,60)] sends the column-address
    command with parameter values 44 and 84 and the row-address command with
    parameter values 20 and 60. *)
Theorem setWindow_default_scenario d dc :
  _width d = 172 -> _height d = 320 ->
  _offset_x d = 34 -> _offset_y d = 0 -> _horizontal d = true ->
  address_range CASET (received d dc (setWindow d 10 20 50 60)) = Some [44; 84] /\
  address_range RASET (received d dc (setWindow d 10 20 50 60)) = Some [20; 60].
Proof.
  intros _ _ Hx Hy Hh.
  rewrite received_setWindow. unfold setWindow_sent, setWindow_addressing.
  rewrite Hx, Hy, Hh. split; reflexivity.
Qed.

Lemma setWindow_default_scenario_witness :
  address_range CASET
    (received ST7789Display_default LOW
       (setWindow ST7789Display_default 10 20 50 60)) = Some [44; 84] /\
  address_range RASET
    (received ST7789Display_default LOW
       (setWindow ST7789Display_default 10 20 50 60)) = Some [20; 60].
Proof.
  apply (setWindow_default_scenario ST7789Display_default LOW); reflexivity.
Defined.

(** C1: in the horizontal orientation [setWindow] should send the column
    range [(x1+offset_x, x2+offset_x)] and the row range
    [(y1+offset_y, y2+offset_y)] as big-endian 16-bit values.  On the valid
    configuration [offset_panel true] (172 x 300 at offset 34, 20) and the
    in-bounds window (0,240)-(0,250) the row command carries 4 and 14
    instead of 260 and 270: the high byte is taken from the coordinate
    before the offset is added, so the carry of the addition is lost. *)
Theorem setWindow_horizontal_row_carry_lost :
  let d := ST7789Display_of (offset_panel true) in
  valid_PanelConfig d /\
  window_in_bounds d 0 240 0 250 /\
  (forall dc, received d dc (setWindow d 0 240 0 250) =
     address_frame CASET 34 34 ++ address_frame RASET 4 14 ++ [Cmd RAMWR]) /\
  (forall dc, address_range RASET (received d dc (setWindow d 0 240 0 250)) =
     Some [4; 14]) /\
  window_frames d 0 240 0 250 =
    address_frame CASET (0 + 34) (0 + 34) ++
    address_frame RASET (240 + 20) (250 + 20) ++ [Cmd RAMWR] /\
  address_range RASET (window_frames d 0 240 0 250) = Some [260; 270].
Proof.
  cbv zeta. unfold valid_PanelConfig, window_in_bounds, is_u16, is_u8.
  cbn [ST7789Display_of offset_panel _width _height _offset_x _offset_y
       width height offset_x offset_y].
  repeat split; try lia; try reflexivity;
    intros dc; rewrite received_setWindow; reflexivity.
Qed.

(** C2: in the vertical orientation [setWindow] should send the Y range
    with the Y offset on the column command and the X range with the X
    offset on the row command.  Each axis does keep its own offset, but on
    the valid configuration [offset_panel false] and the in-bounds window
    (0,240)-(0,250) the column command carries 4 and 14 instead of 260
    and 270: the same lost carry as in the horizontal branch. *)
Theorem setWindow_vertical_column_carry_lost :
  let d := ST7789Display_of (offset_panel false) in
  valid_PanelConfig d /\
  window_in_bounds d 0 240 0 250 /\
  (forall dc, received d dc (setWindow d 0 240 0 250) =
     address_frame CASET 4 14 ++ address_frame RASET 34 34 ++ [Cmd RAMWR]) /\
  (forall dc, address_range CASET (received d dc (setWindow d 0 240 0 250)) =
     Some [4; 14]) /\
  window_frames d 0 240 0 250 =
    address_frame CASET (240 + 20) (250 + 20) ++
    address_frame RASET (0 + 34) (0 + 34) ++ [Cmd RAMWR] /\
  address_range CASET (window_frames d 0 240 0 250) = Some [260; 270].
Proof.
  cbv zeta. unfold valid_PanelConfig, window_in_bounds, is_u16, is_u8.
  cbn [ST7789Display_of offset_panel _width _height _offset_x _offset_y
       width height offset_x offset_y].
  repeat split; try lia; try reflexivity;
    intros dc; rewrite received_setWindow; reflexivity.
Qed.

(** *** The loops of [clearScreen] *)

Lemma for_upto_fill (color : Z) n : forall (pre cells : list Z),
  length cells = n ->
  for_upto n (Z.of_nat (length pre))
    (fun i buf => <[Z.to_nat i := color]> buf) (pre ++ cells)
  = pre ++ replicate n color.
Proof.
  induction n as [|n IH]; intros pre cells Hlen.
  - destruct cells; [reflexivity | discriminate].
  - destruct cells as [|c cells]; [discriminate|].
    cbn [for_upto replicate]. rewrite Nat2Z.id.
    rewrite insert_app_r_alt by lia.
    rewrite Nat.sub_diag. cbn [insert list_insert].
    replace (pre ++ color :: cells) with ((pre ++ [color]) ++ cells)
      by (rewrite <- app_assoc; reflexivity).
    replace (Z.of_nat (length pre) + 1) with (Z.of_nat (length (pre ++ [color])))
      by (rewrite length_app; cbn [length]; lia).
    rewrite IH by (cbn [length] in Hlen; lia).
    rewrite <- app_assoc. reflexivity.
Qed.

Lemma for_upto_emit {A : Type} (t : list A) n : forall i acc,
  for_upto n i (fun _ out => out ++ t) acc = acc ++ concat (replicate n t).
Proof.
  induction n as [|n IH]; intros i acc; cbn [for_upto replicate concat].
  - rewrite app_nil_r. reflexivity.
  - rewrite IH, <- app_assoc. reflexivity.
Qed.

Lemma clearScreen_unfold d color :
  clearScreen d color =
  setWindow d 0 0 (u16 (_width d - 1)) (u16 (_height d - 1)) ++
  concat (replicate (Z.to_nat (_height d))
            (writeDataBytes d
               (bytes_of_u16s (replicate (Z.to_nat (_width d)) color))
               (u32 (_width d * sizeof_uint16_t)))).
Proof.
  unfold clearScreen.
  pose proof (for_upto_fill color (Z.to_nat (_width d)) []
                (replicate (Z.to_nat (_width d)) 0)
                (length_replicate _ _)) as Hfill.
  cbn [length app] in Hfill. change (Z.of_nat 0) with 0 in Hfill.
  rewrite Hfill.
  rewrite for_upto_emit. reflexivity.
Qed.

Lemma bulk_count_concat_replicate t n :
  bulk_count (concat (replicate n t)) = (n * bulk_count t)%nat.
Proof.
  induction n as [|n IH]; [reflexivity|].
  cbn [replicate concat]. rewrite bulk_count_app, IH. lia.
Qed.

(** C8: [clearScreen(c)] sets the window to the whole panel,
    [setWindow(0,0,width-1,height-1)], and then makes exactly [height] bulk
    writes of [width*2] bytes, each holding the value [c] [width] times.
    The dimensions are those of a panel: [uint16_t] and not zero. *)
Theorem clearScreen_full_panel_lines d dc color :
  0 < _width d < 65536 -> 0 < _height d < 65536 ->
  let line := bytes_of_u16s (replicate (Z.to_nat (_width d)) color) in
  clearScreen d color =
    setWindow d 0 0 (_width d - 1) (_height d - 1) ++
    concat (replicate (Z.to_nat (_height d))
              (writeDataBytes d line (_width d * 2))) /\
  received d dc (clearScreen d color) =
    setWindow_sent d 0 0 (_width d - 1) (_height d - 1) ++
    replicate (Z.to_nat (_height d)) (Burst line (_width d * 2)) /\
  bulk_count (clearScreen d color) = Z.to_nat (_height d) /\
  Z.of_nat (length line) = _width d * 2.
Proof.
  intros Hw Hh line.
  assert (Hcalls : clearScreen d color =
    setWindow d 0 0 (_width d - 1) (_height d - 1) ++
    concat (replicate (Z.to_nat (_height d))
              (writeDataBytes d line (_width d * 2)))).
  { rewrite clearScreen_unfold. unfold sizeof_uint16_t.
    rewrite !u16_small, u32_small by lia. reflexivity. }
  split; [exact Hcalls|]. rewrite Hcalls. repeat split.
  - rewrite received_app, received_setWindow. f_equal.
    apply received_concat_replicate. intros dc'.
    apply received_writeDataBytes.
  - rewrite bulk_count_app, bulk_count_setWindow, bulk_count_concat_replicate.
    rewrite bulk_count_writeDataBytes. lia.
  - subst line. rewrite length_bytes_of_u16s, length_replicate. lia.
Qed.

Lemma clearScreen_full_panel_lines_witness :
  bulk_count (clearScreen ST7789Display_default 0xF800) = 320%nat /\
  received ST7789Display_default LOW (clearScreen ST7789Display_default 0xF800) =
    setWindow_sent ST7789Display_default 0 0 171 319 ++
    replicate 320 (Burst (bytes_of_u16s (replicate 172 0xF800)) 344).
Proof.
  destruct (clearScreen_full_panel_lines ST7789Display_default LOW 0xF800)
    as (_ & Hrx & Hn & _);
    [vm_compute; split; reflexivity | vm_compute; split; reflexivity |].
  split; [exact Hn | exact Hrx].
Defined.

(** *** [drawPixelBuffer] *)

(** What [drawPixelBuffer] does whenever width, height and byte count of
    the window fit their C types. *)
Lemma drawPixelBuffer_calls d dc x1 y1 x2 y2 buffer :
  x1 <= x2 -> y1 <= y2 ->
  x2 - x1 < 65535 -> y2 - y1 < 65535 ->
  (x2 - x1 + 1) * (y2 - y1 + 1) < 2 ^ 31 ->
  Z.of_nat (length buffer) = (x2 - x1 + 1) * (y2 - y1 + 1) ->
  drawPixelBuffer d x1 y1 x2 y2 buffer = blit_calls d x1 y1 x2 y2 buffer /\
  bulk_count (drawPixelBuffer d x1 y1 x2 y2 buffer) = 1%nat /\
  received d dc (drawPixelBuffer d x1 y1 x2 y2 buffer) =
    setWindow_addressing d x1 y1 x2 y2 ++
    [Cmd RAMWR; Burst (bytes_of_u16s buffer) (Z.of_nat (length buffer) * 2)] /\
  Z.of_nat (length (bytes_of_u16s buffer)) = Z.of_nat (length buffer) * 2.
Proof.
  intros Hx Hy Hw Hh Hn Hlen.
  assert (Hcalls : drawPixelBuffer d x1 y1 x2 y2 buffer =
                   blit_calls d x1 y1 x2 y2 buffer).
  { unfold drawPixelBuffer, blit_calls, sizeof_uint16_t.
    rewrite !u16_small by lia. rewrite u32_small by lia.
    rewrite Hlen. reflexivity. }
  split; [exact Hcalls|]. rewrite Hcalls. unfold blit_calls. repeat split.
  - rewrite bulk_count_app, bulk_count_setWindow. reflexivity.
  - rewrite received_app, received_setWindow, received_writeDataBytes.
    unfold setWindow_sent. rewrite <- app_assoc. reflexivity.
  - rewrite length_bytes_of_u16s. lia.
Qed.

(** C3: on every valid panel configuration, for every window [x1 <= x2],
    [y1 <= y2] of the visible area and every buffer whose length is
    [(x2-x1+1)*(y2-y1+1)], [drawPixelBuffer] makes the calls of one
    [setWindow] for that window followed by exactly one bulk write of
    [buffer.length*2] bytes, which are the bytes of the buffer; the panel
    receives the two address commands, then the memory-write command, then
    the burst. *)
Theorem drawPixelBuffer_one_window_one_burst d dc x1 y1 x2 y2 buffer :
  valid_PanelConfig d ->
  window_in_bounds d x1 y1 x2 y2 ->
  Z.of_nat (length buffer) = (x2 - x1 + 1) * (y2 - y1 + 1) ->
  drawPixelBuffer d x1 y1 x2 y2 buffer = blit_calls d x1 y1 x2 y2 buffer /\
  bulk_count (drawPixelBuffer d x1 y1 x2 y2 buffer) = 1%nat /\
  received d dc (drawPixelBuffer d x1 y1 x2 y2 buffer) =
    setWindow_addressing d x1 y1 x2 y2 ++
    [Cmd RAMWR; Burst (bytes_of_u16s buffer) (Z.of_nat (length buffer) * 2)] /\
  Z.of_nat (length (bytes_of_u16s buffer)) = Z.of_nat (length buffer) * 2.
Proof.
  intros (_ & _ & Hux & Huy & Hw & Hh & Hox & Hoy) (Hx & Hx2 & Hy & Hy2) Hlen.
  unfold is_u8 in Hux, Huy.
  apply drawPixelBuffer_calls; try lia.
  assert (0 < x2 - x1 + 1 <= 240) by lia.
  assert (0 < y2 - y1 + 1 <= 320) by lia.
  nia.
Qed.

Lemma drawPixelBuffer_one_window_one_burst_witness :
  drawPixelBuffer ST7789Display_default 10 20 11 21 [1; 2; 3; 4] =
  blit_calls ST7789Display_default 10 20 11 21 [1; 2; 3; 4].
Proof.
  apply (drawPixelBuffer_one_window_one_burst
           ST7789Display_default LOW 10 20 11 21 [1; 2; 3; 4]).
  - unfold valid_PanelConfig, is_u16, is_u8.
    repeat split; vm_compute; first [reflexivity | discriminate].
  - unfold window_in_bounds.
    repeat split; vm_compute; first [reflexivity | discriminate].
  - reflexivity.
Defined.

(** *** [begin] and [setBacklight] *)

(** C5 as stated fails for the Arduino driver: [begin] has no guard, a
    second call makes all its calls again. *)
Lemma begin_twice_counterexample :
  (let '(_, d1, t1) := begin ST7789Display_default in
   let '(r2, _, t2) := begin d1 in
   r2 = true /\ t2 = t1 /\
   exists rest,
     t2 = [ pinMode 14 OUTPUT; pinMode 15 OUTPUT; pinMode 21 OUTPUT;
            ledcAttach 22 1000 10; ledcWrite 22 100;
            SPI_begin 7 5 6;
            digitalWrite 14 LOW; delay 50;
            digitalWrite 21 LOW; delay 50;
            digitalWrite 21 HIGH; delay 50 ] ++ rest) /\
  ~ reinit_is_noop ST7789Display_default.
Proof.
  split.
  - cbv beta iota zeta delta [begin]. split; [reflexivity|].
    split; [reflexivity|]. eexists. reflexivity.
  - unfold reinit_is_noop. cbn. intros (_ & _ & H). discriminate H.
Qed.

Lemma begin_again d :
  let '(_, d1, t1) := begin d in
  let '(r2, d2, t2) := begin d1 in
  r2 = true /\ d2 = d1 /\ t2 = t1 /\
  t2 = [ pinMode (_pin_cs d) OUTPUT; pinMode (_pin_dc d) OUTPUT;
         pinMode (_pin_rst d) OUTPUT ] ++
       backlightInit d ++ spiInit ++ hardwareReset d ++ initRegisters d.
Proof.
  unfold begin. cbv beta iota zeta.
  split; [reflexivity|]. split; [reflexivity|]. split; [reflexivity|].
  cbn [concat]. rewrite app_nil_r. reflexivity.
Qed.

(** C6 as stated fails for the Arduino driver: on the default 10-bit
    channel full brightness writes duty 1000, not 1023. *)
Lemma setBacklight_full_counterexample :
  _backlight_resolution ST7789Display_default = 10 /\
  max_duty_of 10 = 1023 /\
  setBacklight ST7789Display_default 100 = [ledcWrite 22 1000] /\
  ~ full_scale_at_100 ST7789Display_default.
Proof.
  split; [reflexivity|]. split; [reflexivity|]. split; [reflexivity|].
  unfold full_scale_at_100. cbn. intros H. discriminate H.
Qed.

Lemma setBacklight_0 d : setBacklight d 0 = [ledcWrite (_pin_backlight d) 0].
Proof. reflexivity. Qed.

Lemma setBacklight_100 d : setBacklight d 100 = [ledcWrite (_pin_backlight d) 1000].
Proof. reflexivity. Qed.

Lemma setBacklight_clamp d b : 100 < b -> setBacklight d b = setBacklight d 100.
Proof.
  intros Hb. unfold setBacklight.
  destruct (Z.ltb_spec 100 b); [reflexivity | lia].
Qed.

End ArduinoFacts.

(** ** The ESP-IDF driver *)

Section EspIdfFacts.

Import EspIdf.

Ltac monad_unfold :=
  unfold on_backlight in *;
  unfold mbind, M_bind, mret, M_ret, call, call_new, calloc, free in *.

Ltac dev_simpl :=
  cbn [backlight config io_handle panel_handle is_initialized
       with_io_handle with_panel_handle with_backlight with_is_initialized
       with_config current_brightness bl_is_initialized
       with_current_brightness with_bl_is_initialized default from_option id] in *.

Ltac step :=
  cbn beta iota zeta; dev_simpl;
  match goal with
  | |- context [negb (?r =? ?c)] => destruct (Z.eqb_spec r c); cbn [negb andb]
  | |- context [if ?b then _ else _] => destruct b eqn:?
  end.

Lemma st7789_init_guard E dev h :
  is_initialized dev = true ->
  st7789_init E (Some dev) h = ((ESP_OK, Some dev), h).
Proof. intros Hi. unfold st7789_init. rewrite Hi. reflexivity. Qed.

Lemma backlight_init_cases E bl gpio h :
  let '((r, obl), _) := backlight_init E (Some bl) gpio h in
  (r <> ESP_OK /\ obl = Some bl) \/
  (r = ESP_OK /\ exists bl', obl = Some bl' /\ current_brightness bl' = 0).
Proof.
  unfold backlight_init. monad_unfold.
  repeat step; cbn beta iota zeta; eauto.
Qed.

Lemma st7789_backlight_set_early E dev b h :
  is_initialized dev = false ->
  st7789_backlight_set E (Some dev) b h = ((ESP_ERR_INVALID_STATE, Some dev), h).
Proof. intros Hi. unfold st7789_backlight_set. rewrite Hi. reflexivity. Qed.

Lemma st7789_init_ok_initialized E device h device' h' :
  st7789_init E device h = ((ESP_OK, device'), h') ->
  exists dev', device' = Some dev' /\ is_initialized dev' = true.
Proof.
  unfold st7789_init. destruct device as [dev|]; [|discriminate].
  destruct (is_initialized dev) eqn:Hi.
  - monad_unfold. intros H. injection H as <- <-. eauto.
  - monad_unfold.
    do 6 (step; [|intros H; injection H as H1 H2 H3; contradiction]).
    cbn beta iota zeta. dev_simpl.
    match goal with |- context [backlight_init ?E (Some ?b) ?g ?h] =>
      pose proof (backlight_init_cases E b g h) as Hbl;
      destruct (backlight_init E (Some b) g h) as [[r obl] h1] end.
    cbn beta iota zeta.
    destruct Hbl as [[Hr ->]|[-> (bl' & -> & Hb)]].
    + destruct (Z.eqb_spec r ESP_OK); [contradiction|]. cbn [negb].
      intros H; injection H as H1 H2 H3; congruence.
    + cbn [negb Z.eqb ESP_OK]. cbn beta iota. dev_simpl.
      rewrite st7789_backlight_set_early by exact Hi.
      cbn beta iota.
      intros H; injection H as <- <-. eauto.
Qed.

Lemma backlight_set_duty_range E bl b h :
  0 <= b -> 0 <= current_brightness bl <= 100 ->
  exists bl', (backlight_set_duty E (Some bl) b h).1.2 = Some bl' /\
              0 <= current_brightness bl' <= 100.
Proof.
  intros Hb Hbl. unfold backlight_set_duty, BRIGHTNESS_MAX. monad_unfold.
  repeat step; cbn beta iota zeta; cbn [fst snd]; eexists; split;
    try reflexivity; dev_simpl; lia.
Qed.

Lemma st7789_backlight_set_inv E device b h :
  0 <= b -> inv_opt device ->
  inv_opt (st7789_backlight_set E device b h).1.2.
Proof.
  intros Hb Hinv. destruct device as [dev|]; [|exact I].
  unfold st7789_backlight_set. monad_unfold.
  do 2 (step; [exact Hinv|]). cbn beta iota zeta.
  destruct (backlight_set_duty_range E (backlight dev) b h Hb Hinv)
    as (bl' & Heq & Hr).
  destruct (backlight_set_duty E (Some (backlight dev)) b h) as [[r obl] h1].
  cbn [fst snd] in *. subst obl.
  unfold inv_opt, brightness_in_range. dev_simpl. exact Hr.
Qed.

Lemma st7789_backlight_enable_inv E device en h :
  inv_opt device ->
  inv_opt (st7789_backlight_enable E device en h).1.2.
Proof.
  intros Hinv. destruct device as [dev|]; [|exact I].
  unfold st7789_backlight_enable. monad_unfold.
  step; [exact Hinv|]. destruct en; cbn beta iota zeta; [|exact Hinv].
  assert (Hb : 0 <= current_brightness (backlight dev)) by apply Hinv.
  destruct (backlight_set_duty_range E (backlight dev) _ h Hb Hinv)
    as (bl' & Heq & Hr).
  destruct (backlight_set_duty E (Some (backlight dev)) _ h) as [[r obl] h1].
  cbn [fst snd] in *. subst obl.
  unfold inv_opt, brightness_in_range. dev_simpl. exact Hr.
Qed.

Lemma st7789_backlight_fade_inv E device b ms h :
  0 <= b -> inv_opt device ->
  inv_opt (st7789_backlight_fade E device b ms h).1.2.
Proof.
  intros Hb Hinv. destruct device as [dev|]; [|exact I].
  unfold st7789_backlight_fade, BRIGHTNESS_MAX. monad_unfold.
  unfold inv_opt, brightness_in_range in *.
  repeat step; cbn beta iota zeta; cbn [fst snd]; dev_simpl; lia.
Qed.

Lemma st7789_init_inv E device h :
  inv_opt device -> inv_opt (st7789_init E device h).1.2.
Proof.
  intros Hinv. destruct device as [dev|]; [|exact I].
  unfold st7789_init. destruct (is_initialized dev) eqn:Hi; [exact Hinv|].
  monad_unfold.
  do 6 (step; [|exact Hinv]).
  cbn beta iota zeta. dev_simpl.
  match goal with |- context [backlight_init ?E (Some ?b) ?g ?h] =>
    pose proof (backlight_init_cases E b g h) as Hbl;
    destruct (backlight_init E (Some b) g h) as [[r obl] h1] end.
  cbn beta iota zeta.
  destruct Hbl as [[Hr ->]|[-> (bl' & -> & Hb)]].
  - destruct (Z.eqb_spec r ESP_OK); [contradiction|]. cbn [negb fst snd].
    exact Hinv.
  - cbn [negb Z.eqb ESP_OK]. cbn beta iota. dev_simpl.
    rewrite st7789_backlight_set_early by exact Hi.
    cbn beta iota. cbn [fst snd].
    unfold inv_opt, brightness_in_range. dev_simpl. lia.
Qed.

Lemma run_api_inv E c device h :
  api_call_typed c = true -> inv_opt device ->
  inv_opt (run_api E c device h).1.2.
Proof.
  intros Hc Hinv. destruct c; cbn [run_api api_call_typed] in *.
  - apply st7789_init_inv, Hinv.
  - destruct device as [dev|]; [|exact I].
    unfold st7789_display_on_off. monad_unfold. step; exact Hinv.
  - destruct device as [dev|]; [|exact I].
    unfold st7789_set_mirror. monad_unfold. step; exact Hinv.
  - destruct device as [dev|]; [|exact I].
    unfold st7789_set_rotation. monad_unfold. step; exact Hinv.
  - destruct device as [dev|]; [|exact I].
    unfold st7789_reset. monad_unfold. step; exact Hinv.
  - apply st7789_backlight_set_inv; [lia | exact Hinv].
  - apply st7789_backlight_enable_inv, Hinv.
  - apply st7789_backlight_fade_inv; [lia | exact Hinv].
Qed.

Lemma run_apis_inv E cs : forall device h,
  forallb api_call_typed cs = true -> inv_opt device ->
  inv_opt (run_apis E cs device h).1.
Proof.
  induction cs as [|c cs IH]; intros device h Hcs Hinv.
  - exact Hinv.
  - cbn [forallb] in Hcs. apply andb_prop in Hcs as [Hc Hcs].
    cbn [run_apis]. monad_unfold.
    pose proof (run_api_inv E c device h Hc Hinv) as Hstep.
    destruct (run_api E c device h) as [[r device1] h1].
    cbn [fst snd] in Hstep. apply IH; assumption.
Qed.

Lemma st7789_create_inv E config h :
  inv_opt (st7789_create E config h).1.
Proof.
  unfold st7789_create. destruct config as [cfg|]; [|exact I].
  monad_unfold. step; cbn [fst]; [|exact I].
  unfold inv_opt, brightness_in_range. cbn. lia.
Qed.

Lemma session_inv E cfg cs h :
  forallb api_call_typed cs = true ->
  inv_opt (session E cfg cs h).1.
Proof.
  intros Hcs. unfold session. 
  pose proof (st7789_create_inv E (Some cfg) h) as Hc.
  unfold mbind at 1. unfold M_bind.
  destruct (st7789_create E (Some cfg) h) as [device h1].
  apply run_apis_inv; assumption.
Qed.

Lemma st7789_backlight_get_range device :
  inv_opt device -> 0 <= st7789_backlight_get device <= 100.
Proof.
  intros Hinv. unfold st7789_backlight_get.
  destruct device as [dev|]; [|lia].
  destruct (bl_is_initialized (backlight dev)); cbn [negb]; [exact Hinv | lia].
Qed.

Lemma duties_set_app h1 h2 :
  duties_set (h1 ++ h2) = duties_set h1 ++ duties_set h2.
Proof.
  induction h1 as [|c h1 IH]; [reflexivity|].
  destruct c; cbn [app duties_set]; rewrite IH; reflexivity.
Qed.

Lemma brightness_to_duty_0 : brightness_to_duty 0 = 0.
Proof. reflexivity. Qed.

Lemma brightness_to_duty_100 :
  brightness_to_duty 100 = max_duty_of ST7789_BL_RESOLUTION /\
  max_duty_of ST7789_BL_RESOLUTION = 8191 /\
  ST7789_BL_MAX_DUTY = 8191.
Proof. repeat split. Qed.

Lemma backlight_set_duty_clamp E bl b h :
  100 < b -> backlight_set_duty E bl b h = backlight_set_duty E bl 100 h.
Proof.
  intros Hb. unfold backlight_set_duty, BRIGHTNESS_MAX.
  destruct (Z.ltb_spec 100 b); [|lia].
  change (100 <? 100) with false. reflexivity.
Qed.

Lemma st7789_backlight_set_clamp E device b h :
  100 < b ->
  st7789_backlight_set E device b h = st7789_backlight_set E device 100 h.
Proof.
  intros Hb. unfold st7789_backlight_set, on_backlight.
  destruct device as [dev|]; [|reflexivity].
  destruct (negb (is_initialized dev)); [reflexivity|].
  destruct (negb (bl_is_initialized (backlight dev))); [reflexivity|].
  unfold mbind, M_bind. rewrite (backlight_set_duty_clamp E _ b h Hb).
  reflexivity.
Qed.

Lemma st7789_backlight_fade_clamp E device b ms h :
  100 < b ->
  st7789_backlight_fade E device b ms h = st7789_backlight_fade E device 100 ms h.
Proof.
  intros Hb. unfold st7789_backlight_fade, BRIGHTNESS_MAX.
  destruct (Z.ltb_spec 100 b); [|lia].
  change (100 <? 100) with false. reflexivity.
Qed.

Lemma st7789_backlight_set_duty_sent E dev b h :
  is_initialized dev = true -> bl_is_initialized (backlight dev) = true ->
  0 <= b <= 100 ->
  duties_set (st7789_backlight_set E (Some dev) b h).2 =
  duties_set h ++ [brightness_to_duty b].
Proof.
  intros Hi Hb Hr. unfold st7789_backlight_set. rewrite Hi, Hb. cbn [negb].
  unfold on_backlight. cbn beta.
  unfold backlight_set_duty, BRIGHTNESS_MAX. rewrite Hb. cbn [negb].
  destruct (Z.ltb_spec 100 b); [lia|].
  monad_unfold. repeat step; cbn beta iota zeta; cbn [snd];
    rewrite ?duties_set_app; cbn [duties_set]; rewrite ?app_nil_r; reflexivity.
Qed.

(** What a successful store leaves in [current_brightness]. *)
Lemma backlight_set_duty_stored E bl b h :
  match (backlight_set_duty E (Some bl) b h).1.2 with
  | Some bl' =>
      current_brightness bl' = current_brightness bl \/
      current_brightness bl' = Z.min b 100
  | None => False
  end.
Proof.
  unfold backlight_set_duty, BRIGHTNESS_MAX. monad_unfold.
  repeat step; cbn beta iota zeta; cbn [fst snd]; dev_simpl; lia.
Qed.

Lemma st7789_backlight_fade_stored E dev b ms h :
  match (st7789_backlight_fade E (Some dev) b ms h).1.2 with
  | Some dev' =>
      current_brightness (backlight dev') = current_brightness (backlight dev) \/
      current_brightness (backlight dev') = Z.min b 100
  | None => False
  end.
Proof.
  unfold st7789_backlight_fade, BRIGHTNESS_MAX. monad_unfold.
  repeat step; cbn beta iota zeta; cbn [fst snd]; dev_simpl; lia.
Qed.

Lemma run_api_null E c h :
  (run_api E c None h).2 = h /\
  (run_api E c None h).1.2 = None /\
  (run_api E c None h).1.1 <> ESP_OK.
Proof. destruct c; repeat split; discriminate. Qed.

(** C5, amended: for the ESP-IDF driver, when a call of [st7789_init]
    has returned [ESP_OK], a second call on the same device returns [ESP_OK],
    makes no call to the platform (no reset, no register initialisation) and
    leaves the device as it is; the Arduino [begin] has no such guard: a
    second call returns [true] and makes every call of the first again,
    the hardware reset and the register sequence included. *)
Theorem st7789_init_twice E E2 device device' h h' h2 :
  st7789_init E device h = ((ESP_OK, device'), h') ->
  st7789_init E2 device' h2 = ((ESP_OK, device'), h2) /\
  (forall d,
     let '(_, d1, t1) := Arduino.begin d in
     let '(r2, d2, t2) := Arduino.begin d1 in
     r2 = true /\ d2 = d1 /\ t2 = t1 /\
     t2 = [ Arduino.pinMode (Arduino._pin_cs d) Arduino.OUTPUT;
            Arduino.pinMode (Arduino._pin_dc d) Arduino.OUTPUT;
            Arduino.pinMode (Arduino._pin_rst d) Arduino.OUTPUT ] ++
          Arduino.backlightInit d ++ Arduino.spiInit ++
          Arduino.hardwareReset d ++ Arduino.initRegisters d).
Proof.
  intros H1.
  destruct (st7789_init_ok_initialized E device h device' h' H1)
    as (dev' & -> & Hi).
  split; [apply st7789_init_guard, Hi | apply begin_again].
Qed.

Lemma st7789_init_twice_witness :
  st7789_init sdk_all_ok
    (st7789_init sdk_all_ok (Some created_device) []).1.2
    (st7789_init sdk_all_ok (Some created_device) []).2
  = ((ESP_OK, (st7789_init sdk_all_ok (Some created_device) []).1.2),
     (st7789_init sdk_all_ok (Some created_device) []).2).
Proof.
  refine (proj1 (st7789_init_twice sdk_all_ok sdk_all_ok
                   (Some created_device) _ [] _ _ _)).
  vm_compute. reflexivity.
Defined.

(** C6, amended: [setBacklight(0)] produces duty 0 in both drivers;
    full brightness produces the largest duty of the 13-bit channel, 8191,
    in the ESP-IDF driver, and duty 1000 in the Arduino driver whatever the
    configured resolution (1000, not 1023, on the default 10-bit
    channel). *)
Theorem backlight_duty_endpoints E dev h :
  is_initialized dev = true -> bl_is_initialized (backlight dev) = true ->
  (forall d,
     Arduino.setBacklight d 0 = [Arduino.ledcWrite (Arduino._pin_backlight d) 0] /\
     Arduino.setBacklight d 100 = [Arduino.ledcWrite (Arduino._pin_backlight d) 1000]) /\
  brightness_to_duty 0 = 0 /\
  brightness_to_duty 100 = max_duty_of ST7789_BL_RESOLUTION /\
  max_duty_of ST7789_BL_RESOLUTION = 8191 /\
  duties_set (st7789_backlight_set E (Some dev) 0 h).2 = duties_set h ++ [0] /\
  duties_set (st7789_backlight_set E (Some dev) 100 h).2 = duties_set h ++ [8191].
Proof.
  intros Hi Hb.
  split; [intros d; split; [apply setBacklight_0 | apply setBacklight_100]|].
  split; [reflexivity|]. split; [reflexivity|]. split; [reflexivity|].
  split.
  - rewrite st7789_backlight_set_duty_sent by (assumption || lia). reflexivity.
  - rewrite st7789_backlight_set_duty_sent by (assumption || lia). reflexivity.
Qed.

Lemma backlight_duty_endpoints_witness :
  duties_set (st7789_backlight_set sdk_all_ok (Some ready_device) 100 []).2 = [8191].
Proof.
  apply (backlight_duty_endpoints sdk_all_ok ready_device []); reflexivity.
Defined.

(** C7: for every brightness argument [b > 100] (a [uint8_t], so at most
    255), setting the backlight to [b] behaves as setting it to 100: the
    same calls with the same duty and the same resulting state, in the
    Arduino driver and in [backlight_set_duty], [st7789_backlight_set] of
    the ESP-IDF driver. *)
Theorem setBacklight_clamps_above_100 b :
  100 < b -> b < 256 ->
  (forall d, Arduino.setBacklight d b = Arduino.setBacklight d 100) /\
  (forall E bl h, backlight_set_duty E bl b h = backlight_set_duty E bl 100 h) /\
  (forall E device h,
     st7789_backlight_set E device b h = st7789_backlight_set E device 100 h).
Proof.
  intros Hb _. split; [|split].
  - intros d. apply setBacklight_clamp, Hb.
  - intros E bl h. apply backlight_set_duty_clamp, Hb.
  - intros E device h. apply st7789_backlight_set_clamp, Hb.
Qed.

Lemma setBacklight_clamps_above_100_witness :
  Arduino.setBacklight Arduino.ST7789Display_default 150 =
  Arduino.setBacklight Arduino.ST7789Display_default 100 /\
  st7789_backlight_set sdk_all_ok (Some ready_device) 150 [] =
  st7789_backlight_set sdk_all_ok (Some ready_device) 100 [].
Proof.
  destruct (setBacklight_clamps_above_100 150) as (Ha & _ & He); [lia | lia |].
  split; [apply Ha | apply He].
Defined.

(** C9: [st7789_create(NULL)] returns [NULL] at once: nothing is
    allocated (no call reaches the platform) and no device exists; every
    function of the driver then refuses the null device. *)
Theorem st7789_create_null E h :
  st7789_create E None h = (None, h) /\
  (forall c h0,
     (run_api E c None h0).2 = h0 /\
     (run_api E c None h0).1.2 = None /\
     (run_api E c None h0).1.1 <> ESP_OK) /\
  st7789_get_panel_handle None = 0.
Proof.
  split; [reflexivity|]. split; [|reflexivity].
  intros c h0. apply run_api_null.
Qed.

(** C10: [current_brightness] stays within 0..100.  It is 0 in a created
    device and after [backlight_init]; [backlight_set_duty] and
    [st7789_backlight_fade] store either nothing or their argument clamped
    to 100; so after [st7789_create] and any sequence of calls of the
    driver (brightness arguments being [uint8_t]) the stored value and the
    result of [st7789_backlight_get] are within 0..100, and
    [st7789_backlight_get] is 0 for a null device and for one whose
    backlight is not initialised. *)
Theorem current_brightness_in_range E cfg cs h :
  forallb api_call_typed cs = true ->
  inv_opt (session E cfg cs h).1 /\
  0 <= st7789_backlight_get (session E cfg cs h).1 <= 100 /\
  st7789_backlight_get (session E cfg [] h).1 = 0 /\
  st7789_backlight_get None = 0 /\
  (forall dev, bl_is_initialized (backlight dev) = false ->
               st7789_backlight_get (Some dev) = 0) /\
  (forall bl gpio h0,
     let '((r, obl), _) := backlight_init E (Some bl) gpio h0 in
     (r <> ESP_OK /\ obl = Some bl) \/
     (r = ESP_OK /\ exists bl', obl = Some bl' /\ current_brightness bl' = 0)) /\
  (forall bl b h0,
     match (backlight_set_duty E (Some bl) b h0).1.2 with
     | Some bl' =>
         current_brightness bl' = current_brightness bl \/
         current_brightness bl' = Z.min b 100
     | None => False
     end) /\
  (forall dev b ms h0,
     match (st7789_backlight_fade E (Some dev) b ms h0).1.2 with
     | Some dev' =>
         current_brightness (backlight dev') = current_brightness (backlight dev) \/
         current_brightness (backlight dev') = Z.min b 100
     | None => False
     end).
Proof.
  intros Hcs.
  pose proof (session_inv E cfg cs h Hcs) as Hinv.
  split; [exact Hinv|].
  split; [apply st7789_backlight_get_range, Hinv|].
  split.
  { unfold session, st7789_create. monad_unfold.
    destruct (sdk_calloc_ok E (h ++ [calloc_device])); reflexivity. }
  split; [reflexivity|].
  split.
  { intros dev Hb. unfold st7789_backlight_get. rewrite Hb. reflexivity. }
  split; [intros bl gpio h0; apply backlight_init_cases|].
  split; [intros bl b h0; apply backlight_set_duty_stored|].
  intros dev b ms h0. apply st7789_backlight_fade_stored.
Qed.

Lemma current_brightness_in_range_witness :
  0 <= st7789_backlight_get
         (session sdk_all_ok st7789_get_default_config
            [Init; BacklightSet 150; BacklightFade 255 10; BacklightEnable true] []).1
    <= 100.
Proof.
  apply (current_brightness_in_range sdk_all_ok st7789_get_default_config
           [Init; BacklightSet 150; BacklightFade 255 10; BacklightEnable true] []).
  reflexivity.
Defined.

End EspIdfFacts.

(** ** More on the Arduino driver *)

Section ArduinoExtras.

Import Arduino BusProtocol LcdImage.

Lemma hi_byte_carry_inv v off :
  0 <= v < 65536 -> 0 <= off < 256 ->
  Z.shiftr (v + off) 8 mod 2 ^ 8 = u8 (Z.shiftr v 8) ->
  no_carry v off.
Proof.
  intros Hv Hoff H. unfold no_carry.
  destruct (Z_lt_ge_dec (v mod 256 + off) 256) as [Hlt|Hge]; [exact Hlt|exfalso].
  unfold u8 in H. rewrite !shiftr8_div in H.
  change (2 ^ 8) with 256 in H.
  pose proof (Z.div_mod v 256 ltac:(lia)) as Hdm.
  pose proof (Z.mod_pos_bound v 256 ltac:(lia)) as Hb.
  assert (Hq : 0 <= v / 256 < 256)
    by (split; [apply Z.div_pos; lia | apply Z.div_lt_upper_bound; lia]).
  assert (Hc : (v + off) / 256 = v / 256 + 1).
  { symmetry.
    apply (Z.div_unique_pos (v + off) 256 (v / 256 + 1) (v mod 256 + off - 256)); lia. }
  rewrite Hc in H. rewrite (Z.mod_small (v / 256)) in H by lia.
  destruct (Z.eq_dec (v / 256) 255) as [E|NE].
  - rewrite E in H. discriminate H.
  - rewrite Z.mod_small in H by lia. lia.
Qed.

(** X1: for [uint16_t] coordinates and [uint8_t] offsets, [setWindow]
    sends the addressing of the orientation contract (each range with its
    offset as big-endian 16-bit values) exactly when none of the four
    additions carries out of the low byte of its coordinate. *)
Theorem setWindow_exact_iff_no_carry d dc x1 y1 x2 y2 :
  is_u16 x1 -> is_u16 y1 -> is_u16 x2 -> is_u16 y2 ->
  is_u8 (_offset_x d) -> is_u8 (_offset_y d) ->
  received d dc (setWindow d x1 y1 x2 y2) = window_frames d x1 y1 x2 y2 <->
  no_carry x1 (_offset_x d) /\ no_carry x2 (_offset_x d) /\
  no_carry y1 (_offset_y d) /\ no_carry y2 (_offset_y d).
Proof.
  unfold is_u16, is_u8. intros Hx1 Hy1 Hx2 Hy2 Hox Hoy. split.
  - rewrite received_setWindow.
    unfold setWindow_sent, setWindow_addressing, window_frames, address_frame,
      be16, Param, Cmd.
    destruct (_horizontal d); cbn [map app]; intros H; injection H; intros;
      repeat split; apply hi_byte_carry_inv;
      first [lia | assumption | symmetry; assumption].
  - intros (H1 & H2 & H3 & H4).
    apply setWindow_received_no_carry; assumption || lia.
Qed.

Lemma setWindow_exact_iff_no_carry_witness :
  received ST7789Display_default LOW (setWindow ST7789Display_default 0 0 171 319) =
  window_frames ST7789Display_default 0 0 171 319.
Proof.
  apply (setWindow_exact_iff_no_carry ST7789Display_default LOW 0 0 171 319);
    vm_compute; repeat split; discriminate || reflexivity.
Defined.

Lemma framed_app p o c t1 t2 :
  framed p o c (t1 ++ t2) =
  match framed p o c t1 with
  | Some (o', c') => framed p o' c' t2
  | None => None
  end.
Proof.
  revert o c. induction t1 as [|e t1 IH]; intros o c; [reflexivity|].
  destruct e; cbn [app framed];
    first [apply IH | destruct o, c; first [reflexivity | apply IH]].
Qed.

Lemma closes_passes d t : closes d t -> passes d t.
Proof. intros H c. eexists. apply H. Qed.

Lemma passes_app d t1 t2 : passes d t1 -> passes d t2 -> passes d (t1 ++ t2).
Proof.
  intros H1 H2 c. rewrite framed_app.
  destruct (H1 c) as [c1 ->]. apply H2.
Qed.

Lemma passes_closes_app d t1 t2 : passes d t1 -> closes d t2 -> closes d (t1 ++ t2).
Proof.
  intros H1 H2 c. rewrite framed_app.
  destruct (H1 c) as [c1 ->]. apply H2.
Qed.

Lemma passes_concat d ts : Forall (passes d) ts -> passes d (concat ts).
Proof.
  induction 1 as [|t ts Ht _ IH]; cbn [concat].
  - intros c. eexists. reflexivity.
  - apply passes_app; assumption.
Qed.

Section Framing.
Variable d : ST7789Display.
Hypothesis Hpins : _pin_cs d <> _pin_dc d.

Lemma dc_is_not_cs : (_pin_dc d =? _pin_cs d) = false.
Proof. apply Z.eqb_neq. congruence. Qed.

Lemma closes_writeCommand x : closes d (writeCommand d x).
Proof.
  intros c. unfold writeCommand. cbn [framed].
  rewrite Z.eqb_refl, dc_is_not_cs. reflexivity.
Qed.

Lemma closes_writeData x : closes d (writeData d x).
Proof.
  intros c. unfold writeData. cbn [framed].
  rewrite Z.eqb_refl, dc_is_not_cs. reflexivity.
Qed.

Lemma closes_writeDataBytes data len : closes d (writeDataBytes d data len).
Proof.
  intros c. unfold writeDataBytes. cbn [framed].
  rewrite Z.eqb_refl, dc_is_not_cs. reflexivity.
Qed.

Lemma passes_delay ms : passes d [delay ms].
Proof. intros c. eexists. reflexivity. Qed.

Lemma closes_setWindow x1 y1 x2 y2 : closes d (setWindow d x1 y1 x2 y2).
Proof.
  unfold setWindow. apply passes_closes_app; [|apply closes_writeCommand].
  destruct (_horizontal d); apply passes_concat;
    repeat constructor; apply closes_passes;
    apply closes_writeCommand || apply closes_writeData.
Qed.

Lemma passes_initRegisters_body : passes d (initRegisters d).
Proof.
  unfold initRegisters. apply passes_concat.
  destruct (_horizontal d);
    repeat constructor;
    first [ apply passes_delay
          | apply closes_passes; apply closes_writeCommand || apply closes_writeData ].
Qed.

Lemma closes_initRegisters : closes d (initRegisters d).
Proof.
  unfold initRegisters.
  match goal with |- closes d (concat ?l) =>
    replace (concat l) with (concat (removelast l) ++ writeCommand d 0x29)
  end.
  - apply passes_closes_app; [|apply closes_writeCommand].
    apply passes_concat. cbn [removelast].
    destruct (_horizontal d);
      repeat constructor;
      first [ apply passes_delay
            | apply closes_passes; apply closes_writeCommand || apply closes_writeData ].
  - cbn [removelast concat]. rewrite !app_nil_r, <- !app_assoc. reflexivity.
Qed.

Lemma passes_quiet t :
  (forall o c, exists c', framed (_pin_cs d) o c t = Some (o, c')) -> passes d t.
Proof. intros H c. apply H. Qed.

Lemma closes_concat_replicate t n c :
  closes d t ->
  framed (_pin_cs d) false c (concat (replicate n t)) =
  Some (false, match n with O => c | S _ => HIGH end).
Proof.
  intros Ht. revert c. induction n as [|n IH]; intros c; [reflexivity|].
  cbn [replicate concat]. rewrite framed_app, Ht, IH. destruct n; reflexivity.
Qed.

Lemma closes_drawPixelBuffer x1 y1 x2 y2 buffer :
  closes d (drawPixelBuffer d x1 y1 x2 y2 buffer).
Proof.
  unfold drawPixelBuffer. apply passes_closes_app.
  - apply closes_passes, closes_setWindow.
  - apply closes_writeDataBytes.
Qed.

Lemma closes_clearScreen color : closes d (clearScreen d color).
Proof.
  intros c. rewrite clearScreen_unfold, framed_app, closes_setWindow.
  rewrite closes_concat_replicate by apply closes_writeDataBytes.
  destruct (Z.to_nat (_height d)); reflexivity.
Qed.

Lemma closes_begin : closes d (begin d).2.
Proof.
  unfold begin. cbn [snd concat]. rewrite app_nil_r.
  repeat (apply passes_closes_app;
          [intros c; eexists; reflexivity|]).
  apply closes_initRegisters.
Qed.

End Framing.

(** X2: with chip-select and D/C on different pins, [setWindow],
    [drawPixelBuffer], [clearScreen] and [begin] keep the bus discipline
    from an idle bus: every byte is clocked inside a transaction with
    chip-select low, no transaction is nested or left open, and
    chip-select is high when the method returns. *)
Theorem bus_transactions_framed d cs0 :
  _pin_cs d <> _pin_dc d ->
  (forall x1 y1 x2 y2,
     framed (_pin_cs d) false cs0 (setWindow d x1 y1 x2 y2) = Some (false, HIGH)) /\
  (forall x1 y1 x2 y2 buffer,
     framed (_pin_cs d) false cs0 (drawPixelBuffer d x1 y1 x2 y2 buffer) =
     Some (false, HIGH)) /\
  (forall color,
     framed (_pin_cs d) false cs0 (clearScreen d color) = Some (false, HIGH)) /\
  framed (_pin_cs d) false cs0 (begin d).2 = Some (false, HIGH).
Proof.
  intros Hpins. repeat split; intros.
  - apply closes_setWindow, Hpins.
  - apply closes_drawPixelBuffer, Hpins.
  - apply closes_clearScreen, Hpins.
  - apply closes_begin, Hpins.
Qed.

Lemma bus_transactions_framed_witness :
  framed 14 false LOW (clearScreen ST7789Display_default 0) = Some (false, HIGH).
Proof.
  apply (bus_transactions_framed ST7789Display_default LOW); vm_compute; discriminate.
Defined.

(** The hypothesis is needed: with chip-select and D/C on one pin a data
    write raises chip-select before the byte is clocked. *)
Lemma writeData_same_pin d c b :
  _pin_cs d = _pin_dc d -> framed (_pin_cs d) false c (writeData d b) = None.
Proof.
  intros E. unfold writeData. cbn [framed]. rewrite <- E, Z.eqb_refl. reflexivity.
Qed.

Lemma panel_timeline_app p dc t1 t2 :
  panel_timeline p dc (t1 ++ t2) =
  panel_timeline p dc t1 ++ panel_timeline p (dc_after p dc t1) t2.
Proof.
  revert dc. induction t1 as [|c t1 IH]; intros dc; [reflexivity|].
  destruct c; cbn [app panel_timeline dc_after]; rewrite ?IH; reflexivity.
Qed.

Lemma sent_items_timeline p dc t :
  sent_items (panel_timeline p dc t) = panel_view p dc t.
Proof.
  revert dc. induction t as [|c t IH]; intros dc; [reflexivity|].
  destruct c; cbn [panel_timeline panel_view sent_items]; rewrite ?IH; reflexivity.
Qed.

Lemma timeline_writeCommand d dc c :
  panel_timeline (_pin_dc d) dc (writeCommand d c) = [Sent (Cmd c)].
Proof.
  unfold writeCommand. cbn [panel_timeline].
  rewrite Z.eqb_refl. destruct (_pin_cs d =? _pin_dc d); reflexivity.
Qed.

Lemma timeline_writeData d dc b :
  panel_timeline (_pin_dc d) dc (writeData d b) = [Sent (Param b)].
Proof.
  unfold writeData. cbn [panel_timeline].
  rewrite Z.eqb_refl. destruct (_pin_cs d =? _pin_dc d); reflexivity.
Qed.

Lemma timeline_initRegisters_orient d dc d' dc' :
  _horizontal d = _horizontal d' ->
  panel_timeline (_pin_dc d) dc (initRegisters d) =
  panel_timeline (_pin_dc d') dc' (initRegisters d').
Proof.
  intros Hh. unfold initRegisters. rewrite <- Hh. cbn [concat].
  rewrite !app_nil_r.
  destruct (_horizontal d);
    repeat rewrite panel_timeline_app;
    rewrite !timeline_writeCommand, !timeline_writeData; reflexivity.
Qed.

(** X3: whatever the pins, dimensions and offsets, [begin] lets 150 ms
    pass before the first byte, follows each of the two sleep-out commands
    (0x11) by a 120 ms pause, programs memory-access control (0x36) with
    0x00 when horizontal and 0x70 otherwise, sets the pixel format (0x3A)
    to 0x05, ends with display-on (0x29), and writes no pixel data: no
    memory-write command and no bulk transfer. *)
Theorem begin_programs_panel d dc :
  let tl := panel_timeline (_pin_dc d) dc (begin d).2 in
  params_of 0x36 (sent_items tl) = Some [if _horizontal d then 0x00 else 0x70] /\
  params_of 0x3A (sent_items tl) = Some [0x05] /\
  wait_before_sent tl = 150 /\
  waits_after 0x11 tl = [120; 120] /\
  last (commands_of (sent_items tl)) = Some 0x29 /\
  params_of RAMWR (sent_items tl) = None /\
  bulk_count (begin d).2 = 0%nat.
Proof.
  cbv zeta.
  assert (Htl : panel_timeline (_pin_dc d) dc (begin d).2 =
    [Wait 50; Wait 50; Wait 50] ++
    panel_timeline 15 LOW
      (initRegisters (ST7789Display_of (offset_panel (_horizontal d))))).
  { unfold begin. cbn [snd concat]. rewrite app_nil_r.
    repeat rewrite panel_timeline_app.
    rewrite (timeline_initRegisters_orient d _
               (ST7789Display_of (offset_panel (_horizontal d))) LOW)
      by reflexivity.
    reflexivity. }
  rewrite Htl.
  split; [|split; [|split; [|split; [|split; [|split]]]]].
  1-6: destruct (_horizontal d); vm_compute; reflexivity.
  clear Htl. unfold begin, initRegisters. cbn [snd].
  destruct (_horizontal d); reflexivity.
Qed.

(** X4: for [uint8_t] arguments the Arduino [setBacklight] writes the duty
    [10 * min(b, 100)]: it lies in 0..1000, never decreases when the
    brightness increases, and two arguments give the same call exactly
    when they clamp to the same percentage. *)
Theorem setBacklight_duty_linear d b b' :
  0 <= b < 256 -> 0 <= b' < 256 ->
  setBacklight d b = [ledcWrite (_pin_backlight d) (10 * Z.min b 100)] /\
  0 <= 10 * Z.min b 100 <= 1000 /\
  (b <= b' -> 10 * Z.min b 100 <= 10 * Z.min b' 100) /\
  (setBacklight d b = setBacklight d b' <-> Z.min b 100 = Z.min b' 100).
Proof.
  intros Hb Hb'.
  assert (Hform : forall x, 0 <= x < 256 ->
            setBacklight d x = [ledcWrite (_pin_backlight d) (10 * Z.min x 100)]).
  { intros x Hx. unfold setBacklight.
    destruct (Z.ltb_spec 100 x).
    - rewrite Z.min_r by lia. reflexivity.
    - rewrite Z.min_l by lia. rewrite u32_small by lia. f_equal. f_equal. lia. }
  split; [apply Hform, Hb|]. split; [lia|]. split; [lia|].
  rewrite !Hform by assumption. split.
  - intros H. injection H as H. lia.
  - intros ->. reflexivity.
Qed.


Lemma land_low_shifted a b : 0 <= a < 256 -> Z.land a (Z.shiftl b 8) = 0.
Proof.
  intros Ha. apply Z.bits_inj'. intros n Hn.
  rewrite Z.land_spec, Z.bits_0.
  destruct (Z_lt_ge_dec n 8).
  - rewrite (Z.shiftl_spec_low b 8 n) by lia. apply andb_false_r.
  - rewrite (Z.bits_above_log2 a n); [reflexivity | lia |].
    destruct (Z.eq_dec a 0) as [->|]; [cbn; lia|].
    apply Z.log2_lt_pow2; [lia|].
    apply Z.lt_le_trans with (2 ^ 8); [lia|].
    apply Z.pow_le_mono_r; lia.
Qed.

Lemma swap_bytes_value v :
  0 <= v < 65536 -> swap_bytes v = (v mod 256) * 256 + v / 256.
Proof.
  intros Hv. unfold swap_bytes.
  assert (Hq : 0 <= v / 256 < 256)
    by (split; [apply Z.div_pos; lia | apply Z.div_lt_upper_bound; lia]).
  pose proof (Z.mod_pos_bound v 256 ltac:(lia)) as Hr.
  change 0xFF with (Z.ones 8). rewrite Z.land_ones by lia.
  change 0xFF00 with (Z.shiftl (Z.ones 8) 8).
  rewrite <- Z.shiftl_land, Z.land_ones by lia.
  rewrite shiftr8_div. change (2 ^ 8) with 256.
  rewrite (Z.mod_small (v / 256)) by lia.
  pose proof (Z.add_lor_land (v / 256) (Z.shiftl (v mod 256) 8)) as Hlor.
  rewrite land_low_shifted in Hlor by lia.
  rewrite Z.shiftl_mul_pow2 in * by lia. change (2 ^ 8) with 256 in *.
  rewrite Z.add_0_r in Hlor. rewrite Hlor.
  rewrite u16_small by lia. lia.
Qed.

Lemma swap_bytes_range v : 0 <= v < 65536 -> 0 <= swap_bytes v < 65536.
Proof.
  intros Hv. rewrite swap_bytes_value by exact Hv.
  assert (Hq : 0 <= v / 256 < 256)
    by (split; [apply Z.div_pos; lia | apply Z.div_lt_upper_bound; lia]).
  pose proof (Z.mod_pos_bound v 256 ltac:(lia)). lia.
Qed.

Lemma combine_div_mod r q :
  0 <= q < 256 -> 0 <= r ->
  (r * 256 + q) mod 256 = q /\ (r * 256 + q) / 256 = r.
Proof.
  intros Hq Hr. split; symmetry.
  - apply (Z.mod_unique_pos (r * 256 + q) 256 r q); lia.
  - apply (Z.div_unique_pos (r * 256 + q) 256 r q); lia.
Qed.

Lemma swap_bytes_involutive v : 0 <= v < 65536 -> swap_bytes (swap_bytes v) = v.
Proof.
  intros Hv. pose proof (swap_bytes_range v Hv) as Hs.
  rewrite (swap_bytes_value (swap_bytes v)) by exact Hs.
  rewrite swap_bytes_value by exact Hv.
  assert (Hq : 0 <= v / 256 < 256)
    by (split; [apply Z.div_pos; lia | apply Z.div_lt_upper_bound; lia]).
  pose proof (Z.mod_pos_bound v 256 ltac:(lia)) as Hr.
  pose proof (Z.div_mod v 256 ltac:(lia)) as Hdm.
  destruct (combine_div_mod (v mod 256) (v / 256)) as [-> ->]; lia.
Qed.

Lemma bytes_of_swap v : 0 <= v < 65536 -> bytes_of_u16 (swap_bytes v) = be16 v.
Proof.
  intros Hv. rewrite swap_bytes_value by exact Hv.
  unfold bytes_of_u16, be16. rewrite !shiftr8_div. change (2 ^ 8) with 256.
  assert (Hq : 0 <= v / 256 < 256)
    by (split; [apply Z.div_pos; lia | apply Z.div_lt_upper_bound; lia]).
  pose proof (Z.mod_pos_bound v 256 ltac:(lia)) as Hr.
  destruct (combine_div_mod (v mod 256) (v / 256)) as [-> ->]; [lia | lia |].
  rewrite (Z.mod_small (v / 256)) by lia.
  rewrite Z.mod_mod by lia. reflexivity.
Qed.

Lemma flat_map_bytes_of_swap vs :
  Forall (fun v => 0 <= v < 65536) vs ->
  bytes_of_u16s (map swap_bytes vs) = flat_map be16 vs.
Proof.
  induction 1 as [|v vs Hv _ IH]; [reflexivity|].
  unfold bytes_of_u16s in *. cbn [map flat_map].
  rewrite bytes_of_swap by exact Hv. rewrite IH. reflexivity.
Qed.

Lemma for_upto_swap n : forall (pre cells rest : list Z),
  length cells = n ->
  for_upto n (Z.of_nat (length pre))
    (fun i buf =>
       match buf !! Z.to_nat i with
       | Some v => <[Z.to_nat i := swap_bytes v]> buf
       | None => buf
       end)
    (pre ++ cells ++ rest)
  = pre ++ map swap_bytes cells ++ rest.
Proof.
  induction n as [|n IH]; intros pre cells rest Hlen.
  - destruct cells; [reflexivity | discriminate].
  - destruct cells as [|c cells]; [discriminate|].
    cbn [for_upto map app]. rewrite Nat2Z.id.
    rewrite (list_lookup_middle pre (cells ++ rest) c (length pre) eq_refl).
    rewrite insert_app_r_alt by lia.
    rewrite Nat.sub_diag. cbn [insert list_insert].
    replace (pre ++ swap_bytes c :: cells ++ rest)
      with ((pre ++ [swap_bytes c]) ++ cells ++ rest)
      by (rewrite <- app_assoc; reflexivity).
    replace (Z.of_nat (length pre) + 1)
      with (Z.of_nat (length (pre ++ [swap_bytes c])))
      by (rewrite length_app; cbn [length]; lia).
    rewrite IH by (cbn [length] in Hlen; lia).
    rewrite <- app_assoc. reflexivity.
Qed.

Lemma take_bytes_of_u16s n (xs ys : list Z) :
  length xs = n ->
  take (2 * n) (bytes_of_u16s (xs ++ ys)) = bytes_of_u16s xs.
Proof.
  intros Hn. unfold bytes_of_u16s. rewrite flat_map_app.
  apply take_app_length'.
  pose proof (length_bytes_of_u16s xs) as Hl. unfold bytes_of_u16s in Hl. lia.
Qed.

(** X5: [pngDraw] for a line of 1..172 pixels (the width [showImage]
    admits) swaps the bytes of the first [iWidth] cells of the line buffer
    and leaves the rest; it draws the window of row [y], columns
    0..iWidth-1, with one bulk write of [2*iWidth] bytes, and the bytes
    clocked out are the decoded 16-bit values of the line, each most
    significant byte first.  The swap is its own inverse. *)
Theorem pngDraw_sends_line d lineBuffer pd :
  1 <= iWidth pd <= MAX_IMAGE_WIDTH ->
  0 <= y pd < 65536 ->
  Z.of_nat (length lineBuffer) = MAX_IMAGE_WIDTH ->
  Forall (fun v => 0 <= v < 65536) lineBuffer ->
  (pngDraw d lineBuffer pd).1 =
    map swap_bytes (take (Z.to_nat (iWidth pd)) lineBuffer) ++
    drop (Z.to_nat (iWidth pd)) lineBuffer /\
  (pngDraw d lineBuffer pd).2 =
    setWindow d 0 (y pd) (iWidth pd - 1) (y pd) ++
    writeDataBytes d (bytes_of_u16s (pngDraw d lineBuffer pd).1) (2 * iWidth pd) /\
  clocked_out (bytes_of_u16s (pngDraw d lineBuffer pd).1) (2 * iWidth pd) =
    flat_map be16 (take (Z.to_nat (iWidth pd)) lineBuffer) /\
  Forall (fun v => swap_bytes (swap_bytes v) = v) lineBuffer.
Proof.
  unfold MAX_IMAGE_WIDTH. intros Hw Hy Hlen Hu16.
  set (w := Z.to_nat (iWidth pd)). unfold pngDraw. cbn [fst snd].
  assert (Hbuf :
    for_upto (Z.to_nat (u32 (iWidth pd))) 0
      (fun i buf =>
         match buf !! Z.to_nat i with
         | Some v => <[Z.to_nat i := swap_bytes v]> buf
         | None => buf
         end) lineBuffer
    = map swap_bytes (take w lineBuffer) ++ drop w lineBuffer).
  { rewrite u32_small by lia. fold w.
    pose proof (for_upto_swap w [] (take w lineBuffer) (drop w lineBuffer)) as H.
    cbn [app length] in H. change (Z.of_nat 0) with 0 in H.
    rewrite take_drop in H. apply H.
    rewrite length_take. subst w. lia. }
  rewrite Hbuf. split; [reflexivity|]. split; [|split].
  - unfold drawPixelBuffer, imageXPos, imageYPos, sizeof_uint16_t.
    rewrite !Z.add_0_l.
    rewrite !(u16_small (y pd)), (u16_small 0), (u16_small (iWidth pd - 1)) by lia.
    rewrite !u16_small by lia. rewrite u32_small by lia.
    f_equal. f_equal. lia.
  - unfold clocked_out.
    replace (Z.to_nat (2 * iWidth pd)) with (2 * w)%nat by (subst w; lia).
    rewrite take_bytes_of_u16s
      by (rewrite length_map, length_take; subst w; lia).
    apply flat_map_bytes_of_swap. apply Forall_take, Hu16.
  - eapply Forall_impl; [exact Hu16|]. intros v Hv.
    apply swap_bytes_involutive, Hv.
Qed.

Lemma pngDraw_sends_line_witness :
  clocked_out
    (bytes_of_u16s
       (pngDraw ST7789Display_default (replicate 172 0x1234)
          {| y := 5; iWidth := 3 |}).1) 6
  = [0x12; 0x34; 0x12; 0x34; 0x12; 0x34].
Proof.
  apply (pngDraw_sends_line ST7789Display_default (replicate 172 0x1234)
           {| y := 5; iWidth := 3 |}).
  - vm_compute. split; discriminate.
  - vm_compute. split; [discriminate | reflexivity].
  - reflexivity.
  - apply Forall_replicate. lia.
Defined.

Lemma setBacklight_duty_linear_witness :
  setBacklight ST7789Display_default 40 = [ledcWrite 22 400].
Proof.
  apply (setBacklight_duty_linear ST7789Display_default 40 200); lia.
Defined.

End ArduinoExtras.

(** ** More on the ESP-IDF driver *)

Section EspIdfExtras.

Import EspIdf Platforms.

Ltac xmonad :=
  unfold on_backlight in *;
  unfold mbind, M_bind, mret, M_ret, call, call_new, calloc, free in *.

Ltac xsimpl :=
  cbn [backlight config io_handle panel_handle is_initialized
       with_io_handle with_panel_handle with_backlight with_is_initialized
       with_config current_brightness bl_is_initialized
       with_current_brightness with_bl_is_initialized default from_option id] in *.

Ltac xstep :=
  cbn beta iota zeta; xsimpl;
  match goal with
  | |- context [negb (?r =? ?c)] => destruct (Z.eqb_spec r c); cbn [negb andb]
  | |- context [if (?r =? ?c) then _ else _] => destruct (Z.eqb_spec r c)
  | |- context [if ?b then _ else _] => destruct b eqn:?
  end.

Lemma brightness_to_duty_formula b :
  1 <= b <= 100 -> brightness_to_duty b = 91 + 81 * b.
Proof.
  intros Hb. unfold brightness_to_duty, BRIGHTNESS_MAX, BRIGHTNESS_SCALE_FACTOR.
  destruct (Z.eqb_spec b 0); [lia|].
  destruct (Z.ltb_spec 100 b); [lia|].
  change ST7789_BL_MAX_DUTY with 8191. rewrite u16_small by lia. lia.
Qed.

Lemma brightness_to_duty_above b : 100 <= b -> brightness_to_duty b = 8191.
Proof.
  intros Hb. unfold brightness_to_duty, BRIGHTNESS_MAX.
  destruct (Z.eqb_spec b 0); [lia|].
  destruct (Z.ltb_spec 100 b); [reflexivity|].
  replace b with 100 by lia. reflexivity.
Qed.

(** X6: [brightness_to_duty] never decreases with the brightness and
    increases strictly up to 100; it stays within 0..[ST7789_BL_MAX_DUTY];
    it is [91 + 81*b] for 1..100 (so it jumps from 0 at brightness 0 to 172
    at brightness 1), 0 only at brightness 0, and the full duty from 100
    on. *)
Theorem brightness_to_duty_monotone b b' :
  0 <= b -> b <= b' ->
  brightness_to_duty b <= brightness_to_duty b' /\
  (b' <= 100 -> b < b' -> brightness_to_duty b < brightness_to_duty b') /\
  0 <= brightness_to_duty b <= ST7789_BL_MAX_DUTY /\
  (1 <= b <= 100 -> brightness_to_duty b = 91 + 81 * b) /\
  (brightness_to_duty b = 0 <-> b = 0) /\
  (100 <= b -> brightness_to_duty b = ST7789_BL_MAX_DUTY).
Proof.
  intros Hb Hle. change ST7789_BL_MAX_DUTY with 8191.
  assert (Hval : forall x, 0 <= x ->
            (x = 0 /\ brightness_to_duty x = 0) \/
            (1 <= x <= 100 /\ brightness_to_duty x = 91 + 81 * x) \/
            (100 < x /\ brightness_to_duty x = 8191)).
  { intros x Hx. destruct (Z.eq_dec x 0) as [->|]; [left; split; reflexivity|].
    destruct (Z_le_gt_dec x 100).
    - right; left. split; [lia|]. apply brightness_to_duty_formula. lia.
    - right; right. split; [lia|]. apply brightness_to_duty_above. lia. }
  destruct (Hval b Hb) as [[? Eb]|[[? Eb]|[? Eb]]];
  destruct (Hval b' ltac:(lia)) as [[? Eb']|[[? Eb']|[? Eb']]];
    rewrite ?Eb, ?Eb'; repeat split; intros; try lia.
Qed.

Lemma brightness_to_duty_monotone_witness :
  brightness_to_duty 1 < brightness_to_duty 2 /\ brightness_to_duty 1 = 172.
Proof.
  destruct (brightness_to_duty_monotone 1 2) as (_ & Hlt & _ & Hf & _);
    [lia | lia |].
  split; [apply Hlt; lia | apply Hf; lia].
Defined.

(** X7: on a device that is not initialised, every function of the driver
    other than [st7789_init] returns [ESP_ERR_INVALID_STATE], makes no call
    to the platform and leaves the device as it is. *)
Theorem api_refused_before_init E c dev h :
  is_initialized dev = false -> c <> Init ->
  run_api E c (Some dev) h = ((ESP_ERR_INVALID_STATE, Some dev), h).
Proof.
  intros Hi Hc. destruct c; try contradiction; cbn [run_api];
    unfold st7789_display_on_off, st7789_set_mirror, st7789_set_rotation,
      st7789_reset, st7789_backlight_set, st7789_backlight_enable,
      st7789_backlight_fade;
    rewrite Hi; reflexivity.
Qed.

Lemma api_refused_before_init_witness :
  run_api sdk_all_ok (BacklightSet 50) (Some created_device) [] =
  ((ESP_ERR_INVALID_STATE, Some created_device), []).
Proof.
  apply (api_refused_before_init sdk_all_ok (BacklightSet 50) created_device []);
    [reflexivity | discriminate].
Defined.

Lemma backlight_set_duty_outcome E bl b h :
  bl_is_initialized bl = true ->
  ((backlight_set_duty E (Some bl) b h).1.1 = ESP_OK /\
   (backlight_set_duty E (Some bl) b h).1.2 =
     Some (with_current_brightness bl (Z.min b 100))) \/
  ((backlight_set_duty E (Some bl) b h).1.1 <> ESP_OK /\
   (backlight_set_duty E (Some bl) b h).1.2 = Some bl).
Proof.
  intros Hb. unfold backlight_set_duty, BRIGHTNESS_MAX. rewrite Hb. cbn [negb].
  xmonad.
  destruct (Z.ltb_spec 100 b); [rewrite Z.min_r by lia | rewrite Z.min_l by lia];
    repeat xstep; cbn beta iota zeta; cbn [fst snd];
    first [left; split; [assumption | reflexivity]
          | right; split; [assumption | reflexivity]].
Qed.

(** X8: when [st7789_backlight_set] returns [ESP_OK],
    [st7789_backlight_get] then returns the brightness that was asked for,
    clamped to 100; when it returns an error the device is unchanged. *)
Theorem backlight_set_then_get E dev b h :
  ((st7789_backlight_set E (Some dev) b h).1.1 = ESP_OK ->
   st7789_backlight_get (st7789_backlight_set E (Some dev) b h).1.2 = Z.min b 100) /\
  ((st7789_backlight_set E (Some dev) b h).1.1 <> ESP_OK ->
   (st7789_backlight_set E (Some dev) b h).1.2 = Some dev).
Proof.
  unfold st7789_backlight_set.
  destruct (is_initialized dev); cbn [negb];
    [|split; [discriminate | reflexivity]].
  destruct (bl_is_initialized (backlight dev)) eqn:Hb; cbn [negb];
    [|split; [discriminate | reflexivity]].
  xmonad.
  pose proof (backlight_set_duty_outcome E (backlight dev) b h Hb) as Hout.
  destruct (backlight_set_duty E (Some (backlight dev)) b h) as [[r obl] h1].
  cbn [fst snd] in *.
  destruct Hout as [[-> ->]|[Hr ->]]; xsimpl.
  - split; [intros _ | intros H; contradiction].
    unfold st7789_backlight_get. xsimpl. rewrite Hb. reflexivity.
  - split; [intros H; contradiction | intros _].
    destruct dev as [ph ih bl cfg ini]. reflexivity.
Qed.

(** X9: on an initialised device, [st7789_backlight_enable(false)] sets
    duty 0 and leaves the device, the stored brightness included, as it
    is; [st7789_backlight_enable(true)] then sets the duty of the stored
    brightness again and keeps that brightness. *)
Theorem backlight_enable_restores E dev h :
  is_initialized dev = true ->
  (st7789_backlight_enable E (Some dev) false h).1.2 = Some dev /\
  duties_set (st7789_backlight_enable E (Some dev) false h).2 = duties_set h ++ [0] /\
  (bl_is_initialized (backlight dev) = true ->
   0 <= current_brightness (backlight dev) <= 100 ->
   duties_set (st7789_backlight_enable E (Some dev) true h).2 =
     duties_set h ++ [brightness_to_duty (current_brightness (backlight dev))] /\
   st7789_backlight_get (st7789_backlight_enable E (Some dev) true h).1.2 =
     current_brightness (backlight dev)).
Proof.
  intros Hi. unfold st7789_backlight_enable. rewrite Hi. cbn [negb].
  split; [reflexivity|]. split.
  { xmonad. cbn [snd]. rewrite !duties_set_app. cbn [duties_set].
    rewrite app_nil_r. reflexivity. }
  intros Hb Hr. xmonad. unfold backlight_set_duty, BRIGHTNESS_MAX.
  rewrite Hb. cbn [negb]. xmonad.
  destruct (Z.ltb_spec 100 (current_brightness (backlight dev))); [lia|].
  unfold st7789_backlight_get.
  repeat xstep; cbn beta iota zeta; cbn [fst snd]; xsimpl;
    rewrite ?Hb; cbn [negb];
    rewrite ?duties_set_app; cbn [duties_set]; rewrite ?app_nil_r;
    split; reflexivity.
Qed.

Lemma backlight_enable_restores_witness :
  duties_set (st7789_backlight_enable sdk_all_ok (Some ready_device) false []).2 = [0].
Proof.
  destruct (backlight_enable_restores sdk_all_ok ready_device [])
    as (_ & Hoff & _); [reflexivity|].
  exact Hoff.
Defined.

(** X10: on a device with device and backlight initialised,
    [st7789_backlight_fade] first asks the platform for a fade to the duty
    of the target clamped to 100, never sets a duty directly, stores the
    clamped target when it returns [ESP_OK] and leaves the device unchanged
    when it returns an error.  The fade time the platform gets is the
    [uint32_t] duration read as an [int]: the duration itself below [2^31]
    milliseconds, and the negative number [duration - 2^32] from there
    on. *)
Theorem backlight_fade_outcome E dev b ms h :
  is_initialized dev = true -> bl_is_initialized (backlight dev) = true ->
  0 <= ms < 2 ^ 32 ->
  (exists rest,
     (st7789_backlight_fade E (Some dev) b ms h).2 =
     h ++ ledc_set_fade_with_time (speed_mode (backlight dev))
            (channel (backlight dev)) (brightness_to_duty (Z.min b 100))
            (i32 ms)
          :: rest) /\
  (if ms <? 2 ^ 31 then i32 ms = ms else i32 ms = ms - 2 ^ 32 /\ i32 ms < 0) /\
  duties_set (st7789_backlight_fade E (Some dev) b ms h).2 = duties_set h /\
  ((st7789_backlight_fade E (Some dev) b ms h).1.1 = ESP_OK ->
   st7789_backlight_get (st7789_backlight_fade E (Some dev) b ms h).1.2 =
     Z.min b 100) /\
  ((st7789_backlight_fade E (Some dev) b ms h).1.1 <> ESP_OK ->
   (st7789_backlight_fade E (Some dev) b ms h).1.2 = Some dev).
Proof.
  intros Hi Hb Hms.
  assert (Hint : if ms <? 2 ^ 31 then i32 ms = ms
                 else i32 ms = ms - 2 ^ 32 /\ i32 ms < 0).
  { unfold i32. destruct (Z.ltb_spec ms (2 ^ 31)).
    - rewrite Z.mod_small by lia. lia.
    - replace (ms + 2 ^ 31) with (ms - 2 ^ 31 + 1 * 2 ^ 32) by lia.
      rewrite Z.mod_add by lia. rewrite Z.mod_small by lia. lia. }
  match goal with |- ?A /\ _ /\ ?B =>
    cut (A /\ B);
      [intros [HA HB']; split; [exact HA | split; [exact Hint | exact HB']] |]
  end.
  clear Hint. unfold st7789_backlight_fade, BRIGHTNESS_MAX.
  generalize (i32 ms). intros t.
  rewrite Hi, Hb. cbn [negb]. xmonad. unfold st7789_backlight_get.
  destruct (Z.ltb_spec 100 b); [rewrite Z.min_r by lia | rewrite Z.min_l by lia];
    repeat xstep; cbn beta iota zeta; cbn [fst snd]; xsimpl;
    rewrite ?Hb; cbn [negb];
    rewrite ?duties_set_app; cbn [duties_set]; rewrite ?app_nil_r;
    (split; [rewrite <- ?app_assoc; cbn [app]; eexists; reflexivity|]);
    (split; [reflexivity|]);
    (split; [intros Hret; try contradiction; try reflexivity
            |intros Hret; try contradiction; try reflexivity]).
Qed.

Lemma backlight_fade_outcome_witness :
  st7789_backlight_get
    (st7789_backlight_fade sdk_all_ok (Some ready_device) 150 1000 []).1.2 = 100.
Proof.
  destruct (backlight_fade_outcome sdk_all_ok ready_device 150 1000 [])
    as (_ & _ & _ & Hok & _); [reflexivity | reflexivity | lia |].
  apply Hok. reflexivity.
Defined.

(** X11: [st7789_destroy] refuses a null device without any call; on a
    device it returns [ESP_OK] whatever the platform answers, frees the
    object exactly once as its last call, and before that, when the
    backlight is initialised, sets duty 0, updates the duty and resets the
    backlight pin. *)
Theorem destroy_frees_once E dev h :
  st7789_destroy E None h = ((ESP_ERR_INVALID_ARG, None), h) /\
  st7789_destroy E (Some dev) h =
    ((ESP_OK, None),
     h ++ (if bl_is_initialized (backlight dev)
           then [ ledc_set_duty (speed_mode (backlight dev)) (channel (backlight dev)) 0;
                  ledc_update_duty (speed_mode (backlight dev)) (channel (backlight dev));
                  gpio_reset_pin (gpio_num (backlight dev)) ]
           else []) ++ [free_device]).
Proof.
  split; [reflexivity|].
  unfold st7789_destroy, backlight_deinit. xmonad.
  destruct (bl_is_initialized (backlight dev)); cbn [negb];
    cbn beta iota zeta; rewrite <- ?app_assoc; reflexivity.
Qed.

Lemma backlight_init_outcome E bl gpio h :
  exists calls,
    (backlight_init E (Some bl) gpio h).2 = h ++ calls /\
    duties_set calls = [] /\
    (1 <= length calls <= 4)%nat /\
    (((backlight_init E (Some bl) gpio h).1.1 <> ESP_OK /\
      (backlight_init E (Some bl) gpio h).1.1 =
        sdk_ret E (backlight_init E (Some bl) gpio h).2 /\
      (backlight_init E (Some bl) gpio h).1.2 = Some bl) \/
     ((backlight_init E (Some bl) gpio h).1.1 = ESP_OK /\
      length calls = 4%nat /\
      exists bl', (backlight_init E (Some bl) gpio h).1.2 = Some bl' /\
                  current_brightness bl' = 0 /\
                  bl_is_initialized bl' = true)).
Proof.
  unfold backlight_init. xmonad.
  repeat xstep; cbn beta iota zeta; cbn [fst snd];
    eexists; (split; [rewrite <- ?app_assoc; cbn [app]; reflexivity|]);
    (split; [reflexivity|]);
    (split; [cbn [length]; lia|]);
    first [ left; split; [assumption|]; split; reflexivity
          | right; split; [reflexivity|]; split; [reflexivity|];
            eexists; split; [reflexivity|]; split; reflexivity ].
Qed.

Lemma st7789_init_outcome E dev h :
  is_initialized dev = false ->
  exists dev' calls,
    (st7789_init E (Some dev) h).1.2 = Some dev' /\
    (st7789_init E (Some dev) h).2 = h ++ calls /\
    config dev' = config dev /\
    duties_set calls = [] /\
    (1 <= length calls <= 10)%nat /\
    (((st7789_init E (Some dev) h).1.1 <> ESP_OK /\
      (st7789_init E (Some dev) h).1.1 = sdk_ret E (st7789_init E (Some dev) h).2 /\
      is_initialized dev' = false /\
      backlight dev' = backlight dev) \/
     ((st7789_init E (Some dev) h).1.1 = ESP_OK /\
      length calls = 10%nat /\
      is_initialized dev' = true /\
      bl_is_initialized (backlight dev') = true /\
      current_brightness (backlight dev') = 0)).
Proof.
  intros Hi. unfold st7789_init. rewrite Hi. xmonad.
  do 6 (xstep;
        [|cbn beta iota zeta; cbn [fst snd];
          eexists; eexists; split; [reflexivity|];
          split; [rewrite <- ?app_assoc; cbn [app]; reflexivity|];
          split; [reflexivity|]; split; [reflexivity|];
          split; [cbn [length]; lia|];
          left; split; [assumption|]; split; [reflexivity|];
          split; [exact Hi | reflexivity]]).
  cbn beta iota zeta. xsimpl.
  match goal with |- context [backlight_init ?E (Some ?b) ?g ?h] =>
    destruct (backlight_init_outcome E b g h) as (calls & Hh & Hd & Hlen & Hcases);
    destruct (backlight_init E (Some b) g h) as [[r obl] h1] end.
  cbn [fst snd] in Hh, Hcases. subst h1. cbn beta iota zeta.
  destruct Hcases as [(Hr & Hret & ->)|(-> & Hl4 & bl' & -> & Hcur & Hbi)].
  - destruct (Z.eqb_spec r ESP_OK); [contradiction|]. cbn [negb fst snd].
    xsimpl.
    eexists; eexists; split; [reflexivity|].
    split; [rewrite <- ?app_assoc; cbn [app]; reflexivity|].
    split; [reflexivity|].
    split; [cbn [duties_set]; exact Hd|].
    split; [cbn [length]; lia|].
    left. split; [assumption|]. split; [exact Hret|].
    split; [exact Hi | reflexivity].
  - cbn [negb Z.eqb ESP_OK]. cbn beta iota. xsimpl.
    rewrite st7789_backlight_set_early by exact Hi.
    cbn beta iota. cbn [fst snd]. xsimpl.
    eexists; eexists; split; [reflexivity|].
    split; [rewrite <- ?app_assoc; cbn [app]; reflexivity|].
    split; [reflexivity|].
    split; [cbn [duties_set]; exact Hd|].
    split; [cbn [length]; lia|].
    right. split; [reflexivity|].
    split; [cbn [length]; lia|].
    split; [reflexivity|]. split; assumption.
Qed.

(** X12: when [st7789_init] fails on an uninitialised device, the code it
    returns is the one the last call to the platform returned, between
    one and ten calls were made and none after the failing one, the device
    stays uninitialised, and its configuration and backlight are as
    before. *)
Theorem st7789_init_failure E dev h :
  is_initialized dev = false ->
  (st7789_init E (Some dev) h).1.1 <> ESP_OK ->
  exists dev' calls,
    (st7789_init E (Some dev) h).1.2 = Some dev' /\
    (st7789_init E (Some dev) h).2 = h ++ calls /\
    (1 <= length calls <= 10)%nat /\
    (st7789_init E (Some dev) h).1.1 = sdk_ret E (h ++ calls) /\
    is_initialized dev' = false /\
    config dev' = config dev /\
    backlight dev' = backlight dev.
Proof.
  intros Hi Hr.
  destruct (st7789_init_outcome E dev h Hi)
    as (dev' & calls & Hd & Hh & Hc & _ & Hl & Hcases).
  exists dev', calls.
  destruct Hcases as [(_ & Hret & Hi' & Hbl)|(Hok & _)]; [|contradiction].
  rewrite Hh in Hret. repeat split; try assumption; lia.
Qed.

Lemma st7789_init_failure_witness :
  exists dev' calls,
    (st7789_init (sdk_fail_from 3 ESP_ERR_INVALID_ARG) (Some created_device) []).1.2
      = Some dev' /\
    (st7789_init (sdk_fail_from 3 ESP_ERR_INVALID_ARG) (Some created_device) []).2
      = [] ++ calls /\
    (1 <= length calls <= 10)%nat /\
    (st7789_init (sdk_fail_from 3 ESP_ERR_INVALID_ARG) (Some created_device) []).1.1
      = sdk_ret (sdk_fail_from 3 ESP_ERR_INVALID_ARG) ([] ++ calls) /\
    is_initialized dev' = false /\
    config dev' = config created_device /\
    backlight dev' = backlight created_device.
Proof.
  apply (st7789_init_failure (sdk_fail_from 3 ESP_ERR_INVALID_ARG) created_device []).
  - reflexivity.
  - vm_compute. discriminate.
Defined.

(** X13: when [st7789_init] succeeds on an uninitialised device it has made
    exactly ten calls to the platform, none of them sets a backlight duty,
    and it leaves device and backlight initialised with the stored
    brightness 0: [config.initial_brightness] is not applied, whatever its
    value, because the brightness is set while the device still counts as
    uninitialised. *)
Theorem st7789_init_success_brightness E dev h :
  is_initialized dev = false ->
  (st7789_init E (Some dev) h).1.1 = ESP_OK ->
  exists dev' calls,
    (st7789_init E (Some dev) h).1.2 = Some dev' /\
    (st7789_init E (Some dev) h).2 = h ++ calls /\
    length calls = 10%nat /\
    duties_set calls = [] /\
    is_initialized dev' = true /\
    bl_is_initialized (backlight dev') = true /\
    config dev' = config dev /\
    st7789_backlight_get (Some dev') = 0.
Proof.
  intros Hi Hr.
  destruct (st7789_init_outcome E dev h Hi)
    as (dev' & calls & Hd & Hh & Hc & Hduty & Hl & Hcases).
  exists dev', calls.
  destruct Hcases as [(Hne & _)|(_ & Hl10 & Hi' & Hbi & Hcur)]; [contradiction|].
  repeat split; try assumption.
  unfold st7789_backlight_get. rewrite Hbi. exact Hcur.
Qed.

Lemma st7789_init_success_brightness_witness :
  exists dev' calls,
    (st7789_init sdk_all_ok (Some created_device) []).1.2 = Some dev' /\
    (st7789_init sdk_all_ok (Some created_device) []).2 = [] ++ calls /\
    length calls = 10%nat /\
    duties_set calls = [] /\
    is_initialized dev' = true /\
    bl_is_initialized (backlight dev') = true /\
    config dev' = config created_device /\
    st7789_backlight_get (Some dev') = 0.
Proof.
  apply (st7789_init_success_brightness sdk_all_ok created_device []);
    reflexivity.
Defined.

End EspIdfExtras.

(** ** The LVGL glue *)

Section LvglDriverExtras.

Import LvglDriver.

Ltac lv_unfold :=
  unfold mbind, L_bind, mret, L_ret, tell, call, call_ptr, call_new in *.

Ltac lv_simpl :=
  cbn [config display buf1 buf2 buf_size tick_timer is_initialized
       with_config with_display with_buf1 with_buf2 with_buf_size
       with_tick_timer with_is_initialized with_rotation rotation
       hor_res ver_res buf_lines use_double_buffer buf_alloc full_refresh
       lcd_device tick_period_ms default from_option id fst snd] in *.

Ltac lstep :=
  cbn beta iota zeta; lv_simpl;
  match goal with
  | |- context [negb (?r =? ?c)] => destruct (Z.eqb_spec r c); cbn [negb andb]
  | |- context [if (?r =? ?c) then _ else _] => destruct (Z.eqb_spec r c)
  | |- context [if ?b then _ else _] => destruct b eqn:?
  end.

Ltac leaf_head :=
  cbn beta iota zeta; lv_simpl; do 2 eexists;
  split; [reflexivity|];
  split; [rewrite <- ?app_assoc; cbn [app]; reflexivity|];
  split; [reflexivity|]; split; [reflexivity|]; split; [reflexivity|].

Lemma count_calls_app p h1 h2 :
  count_calls p (h1 ++ h2) = (count_calls p h1 + count_calls p h2)%nat.
Proof. unfold count_calls. rewrite filter_app, length_app. reflexivity. Qed.

Lemma lvgl_driver_set_rotation_early driver rot h :
  is_initialized driver = false ->
  lvgl_driver_set_rotation (Some driver) rot h =
  ((EspIdf.ESP_ERR_INVALID_STATE, Some driver), h).
Proof. intros Hi. unfold lvgl_driver_set_rotation. rewrite Hi. reflexivity. Qed.

Lemma lvgl_driver_init_guard E driver h :
  is_initialized driver = true ->
  lvgl_driver_init E (Some driver) h = ((EspIdf.ESP_OK, Some driver), h).
Proof. intros Hi. unfold lvgl_driver_init. rewrite Hi. reflexivity. Qed.

(** Every way through [lvgl_driver_init] on a driver that is not yet
    initialised. *)
Lemma lvgl_driver_init_outcome E driver h :
  is_initialized driver = false ->
  exists drv' calls,
    (lvgl_driver_init E (Some driver) h).1.2 = Some drv' /\
    (lvgl_driver_init E (Some driver) h).2 = h ++ calls /\
    config drv' = config driver /\
    buf_size drv' = buf_size driver /\
    count_calls is_set_rotation calls = 0%nat /\
    (((lvgl_driver_init E (Some driver) h).1.1 = EspIdf.ESP_OK /\
      is_initialized drv' = true /\
      buf1 drv' <> 0 /\ display drv' <> 0 /\
      (if use_double_buffer (config driver)
       then buf2 drv' <> 0 /\ count_calls is_malloc calls = 2%nat
       else buf2 drv' = 0 /\ count_calls is_malloc calls = 1%nat)) \/
     ((lvgl_driver_init E (Some driver) h).1.1 <> EspIdf.ESP_OK /\
      is_initialized drv' = false)).
Proof.
  intros Hi. unfold lvgl_driver_init. rewrite Hi. lv_unfold.
  cbn beta iota zeta. lv_simpl.
  match goal with |- context [heap_caps_malloc ?s ?c] =>
    generalize s c; intros bytes caps end.
  repeat (first [rewrite lvgl_driver_set_rotation_early by exact Hi | lstep]);
    leaf_head;
    first [ right; split; [first [discriminate | assumption] | exact Hi]
          | left; repeat split; first [reflexivity | assumption] ].
Qed.

(** X14: [lvgl_flush_callback] tells LVGL that the flush is done exactly
    once, as its last call, whenever it is given a driver: after one
    [esp_lcd_panel_draw_bitmap] when the panel is there, alone when the
    device or its panel handle is [NULL].  The bitmap call shifts the area by
    the panel offsets and passes exclusive end coordinates, so the drawn
    rectangle is as wide and as high as the inclusive area.  Without a
    [drv] or without [user_data] nothing is called at all, not even the
    notification. *)
Theorem lvgl_flush_callback_notifies driver rot area color_map h :
  let drv := Some {| user_data := Some driver; rotated := rot |} in
  lvgl_flush_callback None area color_map h = (tt, h) /\
  lvgl_flush_callback (Some {| user_data := None; rotated := rot |})
    area color_map h = (tt, h) /\
  exists calls,
    (lvgl_flush_callback drv area color_map h).2 = h ++ calls /\
    count_calls is_flush_ready calls = 1%nat /\
    last calls = Some lv_disp_flush_ready /\
    match lcd_device (config driver) with
    | Some lcd =>
        if EspIdf.panel_handle lcd =? 0 then calls = [lv_disp_flush_ready]
        else
          exists xs ys xe ye,
            calls = [esp_lcd_panel_draw_bitmap (EspIdf.panel_handle lcd)
                       xs ys xe ye color_map;
                     lv_disp_flush_ready] /\
            xs = x1 area + EspIdf.offset_x (EspIdf.config lcd) /\
            ys = y1 area + EspIdf.offset_y (EspIdf.config lcd) /\
            xe - xs = x2 area - x1 area + 1 /\
            ye - ys = y2 area - y1 area + 1
    | None => calls = [lv_disp_flush_ready]
    end.
Proof.
  cbv zeta. split; [reflexivity|]. split; [reflexivity|].
  unfold lvgl_flush_callback. cbn [user_data]. lv_unfold.
  destruct (lcd_device (config driver)) as [lcd|].
  - destruct (EspIdf.panel_handle lcd =? 0).
    + exists [lv_disp_flush_ready]. repeat split.
    + eexists. split; [cbn [snd]; rewrite <- app_assoc; reflexivity|].
      split; [reflexivity|]. split; [reflexivity|].
      do 4 eexists. split; [reflexivity|]. repeat split; lia.
  - exists [lv_disp_flush_ready]. repeat split.
Qed.

(** X15: with a panel present, [lvgl_rotation_callback] makes exactly two
    panel calls, an axis swap and a mirror setting.  The axes are swapped
    exactly for the quarter turns (90 and 270), and the rotation half a turn
    further has the same swap and both mirror flags inverted.  Rotation 0 is
    not the identity of the panel: it mirrors in X. *)
Theorem lvgl_rotation_callback_orientation driver lcd rot :
  lcd_device (config driver) = Some lcd ->
  EspIdf.panel_handle lcd <> 0 ->
  let run r :=
    (lvgl_rotation_callback
       (Some {| user_data := Some driver; rotated := r |}) []).2 in
  exists s mx my,
    panel_orientation (run rot) = Some (s, mx, my) /\
    panel_orientation (run (opposite rot)) = Some (s, negb mx, negb my) /\
    (s = true <-> rot = LV_DISP_ROT_90 \/ rot = LV_DISP_ROT_270) /\
    run LV_DISP_ROT_NONE =
      [ esp_lcd_panel_swap_xy (EspIdf.panel_handle lcd) false;
        esp_lcd_panel_mirror (EspIdf.panel_handle lcd) true false ].
Proof.
  intros Hlcd Hh. cbv zeta. unfold lvgl_rotation_callback. cbn [user_data rotated].
  rewrite Hlcd. destruct (Z.eqb_spec (EspIdf.panel_handle lcd) 0); [contradiction|].
  lv_unfold.
  destruct rot; cbn [opposite snd app panel_orientation];
    do 3 eexists; (split; [reflexivity|]); (split; [reflexivity|]);
    (split; [|reflexivity]); split;
    first [ discriminate | intros [H|H]; discriminate H
          | intros _; auto ].
Qed.

Lemma lvgl_rotation_callback_orientation_witness :
  exists s mx my,
    panel_orientation
      (lvgl_rotation_callback
         (Some {| user_data := Some running_driver; rotated := LV_DISP_ROT_90 |})
         []).2 = Some (s, mx, my) /\
    panel_orientation
      (lvgl_rotation_callback
         (Some {| user_data := Some running_driver;
                  rotated := opposite LV_DISP_ROT_90 |}) []).2
      = Some (s, negb mx, negb my) /\
    (s = true <->
     LV_DISP_ROT_90 = LV_DISP_ROT_90 \/ LV_DISP_ROT_90 = LV_DISP_ROT_270) /\
    (lvgl_rotation_callback
       (Some {| user_data := Some running_driver; rotated := LV_DISP_ROT_NONE |})
       []).2 =
      [ esp_lcd_panel_swap_xy (EspIdf.panel_handle EspIdf.ready_device) false;
        esp_lcd_panel_mirror (EspIdf.panel_handle EspIdf.ready_device) true false ].
Proof.
  apply (lvgl_rotation_callback_orientation running_driver EspIdf.ready_device
           LV_DISP_ROT_90).
  - reflexivity.
  - vm_compute. discriminate.
Defined.

(** X16: on an initialised driver [lvgl_driver_set_rotation] accepts
    exactly the angles 0, 90, 180 and 270.  Any other angle returns
    [ESP_ERR_INVALID_ARG], leaves the driver as it was and calls nothing.  An
    accepted angle makes one [lv_disp_set_rotation] call on the driver's
    display and is stored in the configuration cut to eight bits, so that
    after an accepted 270 the configuration holds 14. *)
Theorem lvgl_driver_set_rotation_outcome driver rot h :
  is_initialized driver = true -> 0 <= rot < 65536 ->
  ((lvgl_driver_set_rotation (Some driver) rot h).1.1 = EspIdf.ESP_OK <->
   rot = 0 \/ rot = 90 \/ rot = 180 \/ rot = 270) /\
  ((lvgl_driver_set_rotation (Some driver) rot h).1.1 <> EspIdf.ESP_OK ->
   lvgl_driver_set_rotation (Some driver) rot h =
     ((EspIdf.ESP_ERR_INVALID_ARG, Some driver), h)) /\
  ((lvgl_driver_set_rotation (Some driver) rot h).1.1 = EspIdf.ESP_OK ->
   exists drv' lv_rot,
     (lvgl_driver_set_rotation (Some driver) rot h).1.2 = Some drv' /\
     (lvgl_driver_set_rotation (Some driver) rot h).2 =
       h ++ [lv_disp_set_rotation (display driver) lv_rot] /\
     rotation (config drv') = rot mod 256 /\
     (rot = 270 -> rotation (config drv') = 14)).
Proof.
  intros Hi Hr. unfold lvgl_driver_set_rotation. rewrite Hi. cbn [negb].
  destruct (Z.eqb_spec rot 0) as [->|]; [|
  destruct (Z.eqb_spec rot 90) as [->|]; [|
  destruct (Z.eqb_spec rot 180) as [->|]; [|
  destruct (Z.eqb_spec rot 270) as [->|]]]];
    lv_unfold; cbn [fst snd]; lv_simpl.
  1-4: split; [split; [intros _; auto | reflexivity]|];
       split; [intros H; contradiction|];
       intros _; do 2 eexists; split; [reflexivity|];
       split; [reflexivity|]; split; [reflexivity|];
       intros H; try discriminate H; reflexivity.
  split; [split; [discriminate | intros [H|[H|[H|H]]]; contradiction]|].
  split; [reflexivity|]. discriminate.
Qed.

Lemma lvgl_driver_set_rotation_outcome_witness :
  (lvgl_driver_set_rotation (Some running_driver) 270 []).1.1 = EspIdf.ESP_OK <->
  270 = 0 \/ 270 = 90 \/ 270 = 180 \/ 270 = 270.
Proof.
  destruct (lvgl_driver_set_rotation_outcome running_driver 270 [])
    as (Hiff & _); [reflexivity | lia | exact Hiff].
Defined.

(** X17: [lvgl_driver_init] on a driver that is not yet initialised leaves
    the configuration untouched and never calls [lv_disp_set_rotation],
    whatever [config.rotation] holds: the initial rotation is asked of
    [lvgl_driver_set_rotation] while [is_initialized] is still false.  The
    call returns [ESP_OK] exactly when it leaves the driver initialised, and
    then both the first buffer and the display are not [NULL], and the
    second buffer was allocated exactly when double buffering is
    configured. *)
Theorem lvgl_driver_init_result E driver h :
  is_initialized driver = false ->
  exists drv' calls,
    (lvgl_driver_init E (Some driver) h).1.2 = Some drv' /\
    (lvgl_driver_init E (Some driver) h).2 = h ++ calls /\
    config drv' = config driver /\
    count_calls is_set_rotation calls = 0%nat /\
    ((lvgl_driver_init E (Some driver) h).1.1 = EspIdf.ESP_OK <->
     is_initialized drv' = true) /\
    (is_initialized drv' = true ->
     buf1 drv' <> 0 /\ display drv' <> 0 /\
     if use_double_buffer (config driver)
     then buf2 drv' <> 0 /\ count_calls is_malloc calls = 2%nat
     else buf2 drv' = 0 /\ count_calls is_malloc calls = 1%nat).
Proof.
  intros Hi.
  destruct (lvgl_driver_init_outcome E driver h Hi)
    as (drv' & calls & Hd & Hh & Hc & _ & Hr & Hcase).
  exists drv', calls. do 4 (split; [assumption|]).
  destruct Hcase as [(Hok & Hi' & Hb1 & Hdisp & Hb2)|(Hne & Hi')].
  - split; [split; auto|]. intros _. auto.
  - rewrite Hi'. split; [split; [contradiction | discriminate] | discriminate].
Qed.

Lemma lvgl_driver_init_result_witness :
  exists drv' calls,
    (lvgl_driver_init lv_all_ok (Some fresh_driver) []).1.2 = Some drv' /\
    (lvgl_driver_init lv_all_ok (Some fresh_driver) []).2 = [] ++ calls /\
    config drv' = config fresh_driver /\
    count_calls is_set_rotation calls = 0%nat /\
    ((lvgl_driver_init lv_all_ok (Some fresh_driver) []).1.1 = EspIdf.ESP_OK <->
     is_initialized drv' = true) /\
    (is_initialized drv' = true ->
     buf1 drv' <> 0 /\ display drv' <> 0 /\
     if use_double_buffer (config fresh_driver)
     then buf2 drv' <> 0 /\ count_calls is_malloc calls = 2%nat
     else buf2 drv' = 0 /\ count_calls is_malloc calls = 1%nat).
Proof.
  apply (lvgl_driver_init_result lv_all_ok fresh_driver []). reflexivity.
Defined.

(** X18: after an [lvgl_driver_init] that returned [ESP_OK], a further
    [lvgl_driver_init] on any platform returns [ESP_OK], changes nothing in
    the driver and makes no call: no second [lv_init], no second allocation,
    no second timer. *)
Theorem lvgl_driver_init_twice E E2 driver h h2 :
  (lvgl_driver_init E (Some driver) h).1.1 = EspIdf.ESP_OK ->
  lvgl_driver_init E2 (lvgl_driver_init E (Some driver) h).1.2 h2 =
  ((EspIdf.ESP_OK, (lvgl_driver_init E (Some driver) h).1.2), h2).
Proof.
  intros Hok. destruct (is_initialized driver) eqn:Hi.
  - rewrite (lvgl_driver_init_guard E driver h Hi). cbn [fst snd].
    apply lvgl_driver_init_guard, Hi.
  - destruct (lvgl_driver_init_outcome E driver h Hi)
      as (drv' & calls & -> & _ & _ & _ & _ & [(_ & Hi' & _)|(Hne & _)]);
      [|contradiction].
    apply lvgl_driver_init_guard, Hi'.
Qed.

Lemma lvgl_driver_init_twice_witness :
  lvgl_driver_init lv_all_ok
    (lvgl_driver_init lv_all_ok (Some fresh_driver) []).1.2 []
  = ((EspIdf.ESP_OK,
      (lvgl_driver_init lv_all_ok (Some fresh_driver) []).1.2), []).
Proof.
  apply (lvgl_driver_init_twice lv_all_ok lv_all_ok). reflexivity.
Defined.

(** X19: when the second buffer cannot be allocated, [lvgl_driver_init]
    frees the first buffer, returns [ESP_ERR_NO_MEM] and leaves the freed
    address in [buf1].  [lvgl_driver_destroy] on the driver left behind then
    passes that same address to [free] once more before it frees the
    driver. *)
Theorem lvgl_driver_init_buffer2_failure E driver h :
  let caps :=
    match buf_alloc (config driver) with
    | LVGL_BUF_ALLOC_SPIRAM => MALLOC_CAP_SPIRAM
    | LVGL_BUF_ALLOC_DMA => MALLOC_CAP_DMA
    | LVGL_BUF_ALLOC_INTERNAL => MALLOC_CAP_INTERNAL
    end in
  let m := heap_caps_malloc (u32 (buf_size driver * sizeof_lv_color_t)) caps in
  let p1 := lv_ptr E (h ++ [lv_init; m]) in
  is_initialized driver = false ->
  use_double_buffer (config driver) = true ->
  tick_timer driver = 0 ->
  p1 <> 0 ->
  lv_ptr E (h ++ [lv_init; m; m]) = 0 ->
  lvgl_driver_init E (Some driver) h =
    ((ESP_ERR_NO_MEM, Some (with_buf2 (with_buf1 driver p1) 0)),
     h ++ [lv_init; m; m; free p1]) /\
  forall h2,
    lvgl_driver_destroy (Some (with_buf2 (with_buf1 driver p1) 0)) h2 =
    ((EspIdf.ESP_OK, None), h2 ++ [free p1; free_driver]).
Proof.
  cbv zeta. intros Hi Hdb Ht Hp1 Hp2. split.
  - unfold lvgl_driver_init. rewrite Hi. lv_unfold. cbn beta iota zeta. lv_simpl.
    rewrite <- ?app_assoc. cbn [app].
    destruct (Z.eqb_spec (lv_ptr E (h ++ [lv_init;
         heap_caps_malloc (u32 (buf_size driver * sizeof_lv_color_t))
           match buf_alloc (config driver) with
           | LVGL_BUF_ALLOC_INTERNAL => MALLOC_CAP_INTERNAL
           | LVGL_BUF_ALLOC_SPIRAM => MALLOC_CAP_SPIRAM
           | LVGL_BUF_ALLOC_DMA => MALLOC_CAP_DMA
           end])) 0); [contradiction|].
    rewrite Hdb. cbn beta iota zeta. rewrite <- ?app_assoc. cbn [app].
    rewrite Hp2. change (0 =? 0) with true. cbn beta iota zeta. lv_simpl.
    rewrite <- ?app_assoc. reflexivity.
  - intros h2. unfold lvgl_driver_destroy. lv_unfold. lv_simpl.
    rewrite Ht. cbn [Z.eqb negb]. cbn beta iota zeta.
    destruct (Z.eqb_spec (lv_ptr E (h ++ [lv_init;
         heap_caps_malloc (u32 (buf_size driver * sizeof_lv_color_t))
           match buf_alloc (config driver) with
           | LVGL_BUF_ALLOC_INTERNAL => MALLOC_CAP_INTERNAL
           | LVGL_BUF_ALLOC_SPIRAM => MALLOC_CAP_SPIRAM
           | LVGL_BUF_ALLOC_DMA => MALLOC_CAP_DMA
           end])) 0); [contradiction|].
    cbn [negb]. cbn beta iota zeta. rewrite <- ?app_assoc. reflexivity.
Qed.

Lemma lvgl_driver_init_buffer2_failure_witness :
  (lvgl_driver_init (lv_null_from 3) (Some fresh_driver) []).1.1 = ESP_ERR_NO_MEM /\
  count_calls is_malloc (lvgl_driver_init (lv_null_from 3) (Some fresh_driver) []).2
    = 2%nat.
Proof.
  destruct (lvgl_driver_init_buffer2_failure (lv_null_from 3) fresh_driver [])
    as (Hinit & _);
    [reflexivity | reflexivity | reflexivity | vm_compute; discriminate
    | reflexivity |].
  rewrite Hinit. split; reflexivity.
Defined.

(** X20: [lvgl_driver_create] returns [NULL] without allocating when it is
    given no configuration or the empty configuration
    [lvgl_get_default_config(NULL)] yields.  From the default configuration
    of a device it makes exactly one allocation and, unless that fails,
    returns a driver that is not initialised, holds the configuration with
    the device and its resolution, has no buffers and no timer yet, and
    whose buffer size is twenty lines of the device's width. *)
Theorem lvgl_driver_create_default E lcd h :
  0 <= EspIdf.h_res (EspIdf.config lcd) < 65536 ->
  lvgl_driver_create E None h = (None, h) /\
  lvgl_driver_create E (Some (lvgl_get_default_config None)) h = (None, h) /\
  (lvgl_driver_create E (Some (lvgl_get_default_config (Some lcd))) h).2 =
    h ++ [heap_caps_calloc_driver MALLOC_CAP_8BIT] /\
  match (lvgl_driver_create E (Some (lvgl_get_default_config (Some lcd))) h).1 with
  | None => lv_ptr E (h ++ [heap_caps_calloc_driver MALLOC_CAP_8BIT]) = 0
  | Some driver =>
      config driver = lvgl_get_default_config (Some lcd) /\
      lcd_device (config driver) = Some lcd /\
      hor_res (config driver) = EspIdf.h_res (EspIdf.config lcd) /\
      ver_res (config driver) = EspIdf.v_res (EspIdf.config lcd) /\
      buf_size driver = EspIdf.h_res (EspIdf.config lcd) * 20 /\
      is_initialized driver = false /\
      buf1 driver = 0 /\ buf2 driver = 0 /\ tick_timer driver = 0
  end.
Proof.
  intros Hres. split; [reflexivity|]. split; [reflexivity|].
  unfold lvgl_driver_create, lvgl_get_default_config. lv_simpl. lv_unfold.
  destruct (Z.eqb_spec (lv_ptr E (h ++ [heap_caps_calloc_driver MALLOC_CAP_8BIT])) 0);
    cbn [fst snd]; (split; [reflexivity|]); [assumption|].
  lv_simpl. unfold LVGL_DEFAULT_BUF_LINES. rewrite u32_small by lia.
  repeat split.
Qed.

Lemma lvgl_driver_create_default_witness :
  (lvgl_driver_create lv_all_ok
     (Some (lvgl_get_default_config (Some EspIdf.ready_device))) []).1
  = Some fresh_driver.
Proof.
  destruct (lvgl_driver_create_default lv_all_ok EspIdf.ready_device [])
    as (_ & _ & _ & _); [vm_compute; split; [discriminate | reflexivity]|].
  reflexivity.
Defined.

End LvglDriverExtras.

(** ** The image viewer *)

Section ImageViewerExtras.

Import Arduino LcdImage ImageViewer.

Ltac v_simpl :=
  cbn [imageFileList currentDirectory currentExtension currentImageIndex
       autoPlayCounter lineBuffer with_list with_search with_index
       with_counter with_lineBuffer fst snd] in *.

Lemma bulk_count_pngDraw d buf pd : bulk_count (pngDraw d buf pd).2 = 1%nat.
Proof.
  unfold pngDraw, drawPixelBuffer. cbn [snd].
  rewrite bulk_count_app, bulk_count_setWindow. reflexivity.
Qed.

Lemma fold_draw_line d lines : forall v out,
  imageFileList (fold_left (draw_line d) lines (v, out)).1 = imageFileList v /\
  currentDirectory (fold_left (draw_line d) lines (v, out)).1 = currentDirectory v /\
  currentExtension (fold_left (draw_line d) lines (v, out)).1 = currentExtension v /\
  currentImageIndex (fold_left (draw_line d) lines (v, out)).1 = currentImageIndex v /\
  autoPlayCounter (fold_left (draw_line d) lines (v, out)).1 = autoPlayCounter v /\
  bulk_count (fold_left (draw_line d) lines (v, out)).2 =
    (bulk_count out + length lines)%nat.
Proof.
  induction lines as [|[pd px] lines IH]; intros v out.
  - cbn [fold_left fst snd length]. repeat split; lia.
  - cbn [fold_left length]. unfold draw_line at 2 4 6 8 10 12.
    pose proof (bulk_count_pngDraw d (px ++ drop (length px) (lineBuffer v)) pd) as Hb.
    destruct (pngDraw d (px ++ drop (length px) (lineBuffer v)) pd) as [buf calls].
    cbn [snd] in Hb.
    destruct (IH (with_lineBuffer v buf) (out ++ calls)) as (H1 & H2 & H3 & H4 & H5 & H6).
    rewrite H1, H2, H3, H4, H5, H6, bulk_count_app, Hb. v_simpl.
    repeat split; lia.
Qed.

(** The ways through [showImage]. *)
Lemma showImage_cases V d v path :
  ((showImage V d v path).1.1 = true <->
   i16 (png_open V path) = PNG_SUCCESS /\ png_width V path <= MAX_IMAGE_WIDTH) /\
  ((showImage V d v path).1.1 = false ->
   (showImage V d v path).1.2 = v /\ (showImage V d v path).2 = []) /\
  ((showImage V d v path).1.1 = true ->
   bulk_count (showImage V d v path).2 = length (png_lines V path) /\
   imageFileList (showImage V d v path).1.2 = imageFileList v /\
   currentImageIndex (showImage V d v path).1.2 = currentImageIndex v /\
   autoPlayCounter (showImage V d v path).1.2 = autoPlayCounter v).
Proof.
  unfold showImage.
  destruct (Z.eqb_spec (i16 (png_open V path)) PNG_SUCCESS) as [Ho|Ho].
  - destruct (Z.ltb_spec MAX_IMAGE_WIDTH (png_width V path)) as [Hw|Hw].
    + cbn [fst snd]. split; [split; [discriminate | lia]|].
      split; [auto | discriminate].
    + destruct (fold_draw_line d (png_lines V path) v [])
        as (H1 & _ & _ & H4 & H5 & H6).
      destruct (fold_left (draw_line d) (png_lines V path) (v, [])) as [v' calls].
      cbn [fst snd] in *.
      split; [split; [intros _; split; assumption | reflexivity]|].
      split; [discriminate|]. intros _. repeat split; assumption.
  - cbn [fst snd]. split; [split; [discriminate | intros [H _]; contradiction]|].
    split; [auto | discriminate].
Qed.

(** X21: [showImage] returns true exactly when the result of opening the
    file, as the [int16_t] it is kept in, is [PNG_SUCCESS] and the image is
    at most [MAX_IMAGE_WIDTH] (172) pixels wide.  When it returns false
    nothing reaches the display and the viewer is unchanged; in particular
    an image that is too wide is refused before any line is decoded.  When
    it returns true the display gets exactly one bulk write per decoded
    line, and the file list, the current index and the auto-play counter are
    as before. *)
Theorem showImage_outcome V d v path :
  ((showImage V d v path).1.1 = true <->
   i16 (png_open V path) = PNG_SUCCESS /\ png_width V path <= MAX_IMAGE_WIDTH) /\
  ((showImage V d v path).1.1 = false ->
   (showImage V d v path).1.2 = v /\ (showImage V d v path).2 = []) /\
  ((showImage V d v path).1.1 = true ->
   bulk_count (showImage V d v path).2 = length (png_lines V path) /\
   imageFileList (showImage V d v path).1.2 = imageFileList v /\
   currentImageIndex (showImage V d v path).1.2 = currentImageIndex v /\
   autoPlayCounter (showImage V d v path).1.2 = autoPlayCounter v).
Proof.
  exact (showImage_cases V d v path).
Qed.

(** The ways through [displayImage]. *)
Lemma displayImage_cases V d v dir ext idx :
  0 <= idx ->
  let r := displayImage V d v dir ext idx in
  (size (imageFileList r.1.2) <= idx -> r.1.1 = false /\ r.2 = []) /\
  (r.1.1 = true ->
   idx < size (imageFileList r.1.2) /\
   exists name,
     imageFileList r.1.2 !! Z.to_nat idx = Some name /\
     i16 (png_open V (buildFilePath dir name)) = PNG_SUCCESS /\
     png_width V (buildFilePath dir name) <= MAX_IMAGE_WIDTH /\
     bulk_count r.2 = length (png_lines V (buildFilePath dir name))) /\
  (sd_available V = false -> imageFileList v = [] -> r = (false, r.1.2, []) /\
                             imageFileList r.1.2 = []).
Proof.
  intros Hidx. cbv zeta. unfold displayImage.
  set (v1 := if (size (imageFileList v) =? 0)
                || negb (String.eqb (currentDirectory v) dir)
                || negb (String.eqb (currentExtension v) ext)
             then (searchImages V v dir ext).2 else v).
  assert (Hsd : sd_available V = false -> imageFileList v = [] ->
                imageFileList v1 = []).
  { intros Hna Hempty. subst v1. rewrite Hempty.
    cbn [size length Z.of_nat Z.eqb orb]. unfold searchImages.
    rewrite Hna. reflexivity. }
  clearbody v1.
  destruct (Z.eqb_spec (size (imageFileList v1)) 0) as [Hz|Hz].
  { cbn [fst snd]. split; [auto|]. split; [discriminate|].
    intros _ _. split; [reflexivity|]. unfold size in Hz.
    destruct (imageFileList v1); [reflexivity | discriminate]. }
  destruct (Z.leb_spec (size (imageFileList v1)) idx) as [Hle|Hlt].
  { cbn [fst snd]. split; [auto|]. split; [discriminate|].
    intros Hna He. specialize (Hsd Hna He). rewrite Hsd in Hz.
    contradiction. }
  destruct (imageFileList v1 !! Z.to_nat idx) as [name|] eqn:Hname.
  2:{ apply lookup_ge_None in Hname. unfold size in Hlt. lia. }
  destruct (showImage_cases V d v1 (buildFilePath dir name))
    as (Hiff & Hfalse & Htrue).
  destruct (showImage V d v1 (buildFilePath dir name)) as [[ok v2] calls].
  cbn [fst snd] in *.
  split; [|split].
  - intros Hge. destruct ok.
    + destruct (Htrue eq_refl) as (_ & Hl & _). rewrite Hl in Hge. lia.
    + destruct (Hfalse eq_refl) as (_ & ->). auto.
  - intros ->. destruct (Htrue eq_refl) as (Hb & Hl & _).
    rewrite Hl. split; [exact Hlt|]. exists name.
    destruct Hiff as [Hiff _]. destruct (Hiff eq_refl). auto.
  - intros Hna He. specialize (Hsd Hna He). rewrite Hsd in Hz. contradiction.
Qed.

(** X22: [displayImage] never shows an index outside the list it ends up
    with: for an index at or beyond the size of the list (after the search
    the call may make) it returns false and nothing reaches the display.
    When it returns true, the index is inside the list, the file shown is
    the one at that index joined to the directory by [buildFilePath], its
    open result as an [int16_t] was [PNG_SUCCESS], it fits the line buffer,
    and every decoded line was sent in one bulk write.  With an empty list
    and no card available it returns false with nothing drawn and the list
    still empty. *)
Theorem displayImage_in_range V d v dir ext idx :
  0 <= idx ->
  let r := displayImage V d v dir ext idx in
  (size (imageFileList r.1.2) <= idx -> r.1.1 = false /\ r.2 = []) /\
  (r.1.1 = true ->
   idx < size (imageFileList r.1.2) /\
   exists name,
     imageFileList r.1.2 !! Z.to_nat idx = Some name /\
     i16 (png_open V (buildFilePath dir name)) = PNG_SUCCESS /\
     png_width V (buildFilePath dir name) <= MAX_IMAGE_WIDTH /\
     bulk_count r.2 = length (png_lines V (buildFilePath dir name))) /\
  (sd_available V = false -> imageFileList v = [] -> r = (false, r.1.2, []) /\
                             imageFileList r.1.2 = []).
Proof.
  exact (displayImage_cases V d v dir ext idx).
Qed.

Lemma displayImage_in_range_witness :
  0 < size (imageFileList
              (displayImage one_image_card ST7789Display_default initial_viewer
                 PathNames.root PathNames.png_extension 0).1.2).
Proof.
  destruct (displayImage_in_range one_image_card ST7789Display_default
              initial_viewer PathNames.root PathNames.png_extension 0)
    as (_ & Hin & _); [lia|].
  destruct (Hin eq_refl) as (Hlt & _). exact Hlt.
Defined.







End ImageViewerExtras.
